(** * LIVE-HUB: workspace orchestration, run-command inference and
      template detection

    A shallow embedding of
    - [src/lib/workspace.ts] (package-manager detection, manifest lookup,
      run-command inference),
    - [src/lib/workspace-detector.ts] (template detection),
    - [src/lib/webcontainer-client.ts] (the sandbox orchestrator and the
      process output classifier),
    - [src/lib/github-sync.ts] (the extraction of a repository archive), and
    - the store actions of [src/state/app-store.ts] the orchestrator calls,
    together with the properties the specification states about them and
    further properties of the code.

    JavaScript objects that are only ever read by key (the dependency tables
    of a manifest) are finite maps; the [scripts] object, whose key order is
    observable through [Object.keys], is an association list.  Strings are
    sequences of code units below 256 (the Latin-1 range of UTF-16). *)

From Stdlib Require Import ZArith String Ascii List Bool Lia DecimalString.
From stdpp Require Import base option gmap strings.

Set Warnings "-register-all".

Import ListNotations.
Local Open Scope string_scope.
Local Open Scope Z_scope.

(* ===================================================================== *)
(** * JavaScript string primitives *)
(* ===================================================================== *)

Module JS.

Definition LF : ascii := Ascii.ascii_of_nat 10.
Definition CR : ascii := Ascii.ascii_of_nat 13.

(** [String.prototype.toLowerCase] on code units below 256: the ASCII
    capitals and the Latin-1 capitals (U+00C0..U+00DE except U+00D7) move
    up by 32. *)
Definition lower_char (c : ascii) : ascii :=
  let n := Ascii.nat_of_ascii c in
  if ((65 <=? n)%nat && (n <=? 90)%nat)
     || ((192 <=? n)%nat && (n <=? 222)%nat && negb (n =? 215)%nat)
  then Ascii.ascii_of_nat (n + 32) else c.

Fixpoint toLowerCase (s : string) : string :=
  match s with
  | EmptyString => EmptyString
  | String c r => String (lower_char c) (toLowerCase r)
  end.

(** [s.includes(sub)]. *)
Fixpoint includes (s sub : string) : bool :=
  String.prefix sub s
  || match s with
     | EmptyString => false
     | String _ r => includes r sub
     end.

(** White space and line terminators of ECMAScript below 256:
    TAB, LF, VT, FF, CR, SP and NBSP. *)
Definition is_space (c : ascii) : bool :=
  let n := Ascii.nat_of_ascii c in
  ((9 <=? n)%nat && (n <=? 13)%nat) || (n =? 32)%nat || (n =? 160)%nat.

Definition all_space (s : string) : bool :=
  forallb is_space (list_ascii_of_string s).

(** [String.prototype.trimEnd]. *)
Fixpoint trimEnd (s : string) : string :=
  match s with
  | EmptyString => EmptyString
  | String c r =>
      match trimEnd r with
      | EmptyString => if is_space c then EmptyString else String c EmptyString
      | r' => String c r'
      end
  end.

(** [String.prototype.trimStart] and [String.prototype.trim]. *)
Fixpoint trimStart (s : string) : string :=
  match s with
  | EmptyString => EmptyString
  | String c r => if is_space c then trimStart r else s
  end.

Definition trim (s : string) : string := trimEnd (trimStart s).

(** [s.split(/\r?\n/)]: a separator is a line feed, together with the
    carriage return right before it when there is one.  [cur] is the piece
    being read. *)
Fixpoint split_lines_from (cur s : string) : list string :=
  match s with
  | EmptyString => [cur]
  | String c r =>
      if Ascii.eqb c LF then cur :: split_lines_from EmptyString r
      else if Ascii.eqb c CR then
        match r with
        | String c' r' =>
            if Ascii.eqb c' LF then cur :: split_lines_from EmptyString r'
            else split_lines_from (cur ++ String c EmptyString) r
        | EmptyString => split_lines_from (cur ++ String c EmptyString) r
        end
      else split_lines_from (cur ++ String c EmptyString) r
  end.

Definition split_lines (s : string) : list string :=
  split_lines_from EmptyString s.

(** [Array.prototype.join]. *)
Fixpoint join (sep : string) (l : list string) : string :=
  match l with
  | [] => EmptyString
  | [x] => x
  | x :: r => x ++ sep ++ join sep r
  end.

(** [String(n)] for an integer value. *)
Definition string_of_Z (n : Z) : string :=
  NilZero.string_of_int (Z.to_int n).

(** A string is falsy exactly when it is empty; [undefined] is falsy. *)
Definition truthy (v : option string) : bool :=
  match v with
  | Some (String _ _) => true
  | _ => false
  end.

(** The code units of a string, and its last one. *)
Definition chars (s : string) : list ascii := list_ascii_of_string s.


Definition nl : string := String LF EmptyString.


End JS.

(* ===================================================================== *)
(** * The process output classifier ([pipeProcessOutput]) *)
(* ===================================================================== *)

Module Console.

Inductive LogLevel := info | warn | error.

#[global] Instance LogLevel_eq_dec : EqDecision LogLevel.
Proof. solve_decision. Defined.

Record ConsoleLine := { line_level : LogLevel; line_text : string }.

(** The level chosen in the body of the [forEach] callback. *)
Definition classifyLine (line : string) : LogLevel :=
  let lower := JS.toLowerCase line in
  if JS.includes lower "error" || JS.includes lower "err!" then error
  else if JS.includes lower "warn" then warn
  else info.

(** The lines one chunk contributes: split, [trimEnd], drop the empty
    ones, classify. *)
Definition chunkLines (text : string) : list ConsoleLine :=
  map (fun line => {| line_level := classifyLine line; line_text := line |})
      (List.filter (fun line => (0 <? String.length line)%nat)
              (map JS.trimEnd (JS.split_lines text))).

End Console.

(* ===================================================================== *)
(** * Manifests *)
(* ===================================================================== *)

(** [PackageJson] of [workspace.ts]; every field is optional. *)
Record PackageJson := {
  scripts : option (list (string * string));
  dependencies : option (gmap string string);
  devDependencies : option (gmap string string)
}.

(** [o[key]] on an object given as an association list. *)
Fixpoint prop (o : list (string * string)) (key : string) : option string :=
  match o with
  | [] => None
  | (k, v) :: r => if String.eqb k key then Some v else prop r key
  end.

(** [Object.keys(o)]. *)
Definition keys (o : list (string * string)) : list string := map fst o.

(** [x ?? {}] and [x || {}] on an optional table. *)
Definition orEmpty (o : option (gmap string string)) : gmap string string :=
  default ∅ o.

(** [{ ...a, ...b }]: the entries of [b] override those of [a]. *)
Definition spread (a b : gmap string string) : gmap string string := b ∪ a.

(** [key in o]. *)
Definition has_key (o : gmap string string) (key : string) : bool :=
  bool_decide (is_Some (o !! key)).

(* ===================================================================== *)
(** * The template detector ([workspace-detector.ts]) *)
(* ===================================================================== *)

Module Detector.

Inductive TemplateId := nextjs_starter | vite_react_starter | cra_starter.
Inductive Confidence := high | medium | low.

#[global] Instance TemplateId_eq_dec : EqDecision TemplateId.
Proof. solve_decision. Defined.
#[global] Instance Confidence_eq_dec : EqDecision Confidence.
Proof. solve_decision. Defined.

Record RepositoryManifest := {
  packageJson : option PackageJson;
  hasPackageLock : option bool;
  hasYarnLock : option bool;
  hasPnpmLock : option bool;
  hasNextConfig : option bool;
  hasViteConfig : option bool;
  repoName : option string;
  repoDescription : option string
}.

Record DetectionResult := {
  templateId : option TemplateId;
  confidence : Confidence;
  reason : string
}.

(** [packageJson?.dependencies || {}] and its siblings. *)
Definition depsOf (pj : option PackageJson) : gmap string string :=
  orEmpty (pj ≫= dependencies).
Definition devDepsOf (pj : option PackageJson) : gmap string string :=
  orEmpty (pj ≫= devDependencies).
Definition scriptsOf (pj : option PackageJson) : list (string * string) :=
  default [] (pj ≫= scripts).

Definition matchesIndicators (text : option string) (indicators : list string)
  : bool :=
  match text with
  | None => false
  | Some EmptyString => false
  | Some t =>
      let lowercaseText := JS.toLowerCase t in
      existsb (fun indicator => JS.includes lowercaseText indicator) indicators
  end.

Definition detectNextJs (pj : option PackageJson) (hasNextConfig : bool)
           (repoName repoDescription : option string) : option DetectionResult :=
  let deps := depsOf pj in
  let devDeps := devDepsOf pj in
  let allDeps := spread deps devDeps in
  if JS.truthy (allDeps !! "next") then
    Some {| templateId := Some nextjs_starter; confidence := high;
            reason := "Next.js dependency found in package.json" |}
  else if hasNextConfig then
    Some {| templateId := Some nextjs_starter; confidence := medium;
            reason := "Next.js configuration file found" |}
  else
    let nameIndicators := ["next"; "nextjs"; "next-app"] in
    let descIndicators := ["next.js"; "next app"; "nextjs"] in
    if matchesIndicators repoName nameIndicators
       || matchesIndicators repoDescription descIndicators then
      Some {| templateId := Some nextjs_starter; confidence := low;
              reason := "Repository name or description suggests Next.js" |}
    else None.

Definition detectVite (pj : option PackageJson) (hasViteConfig : bool)
           (repoName repoDescription : option string) : option DetectionResult :=
  let deps := depsOf pj in
  let devDeps := devDepsOf pj in
  let allDeps := spread deps devDeps in
  if JS.truthy (allDeps !! "vite") then
    Some {| templateId := Some vite_react_starter; confidence := high;
            reason := "Vite dependency found in package.json" |}
  else if hasViteConfig then
    Some {| templateId := Some vite_react_starter; confidence := medium;
            reason := "Vite configuration file found" |}
  else
    let nameIndicators := ["vite"; "vite-app"; "vite-react"] in
    let descIndicators := ["vite"; "vite app"; "vite react"] in
    if matchesIndicators repoName nameIndicators
       || matchesIndicators repoDescription descIndicators then
      Some {| templateId := Some vite_react_starter; confidence := low;
              reason := "Repository name or description suggests Vite" |}
    else None.

Definition detectCreateReactApp (pj : option PackageJson) (hasYarnLock : bool)
           (repoName repoDescription : option string) : option DetectionResult :=
  let deps := depsOf pj in
  let scripts := scriptsOf pj in
  if JS.truthy (deps !! "react-scripts") then
    Some {| templateId := Some cra_starter; confidence := high;
            reason := "Create React App dependency (react-scripts) found in package.json" |}
  else
    let craScripts := ["start"; "build"; "test"; "eject"] in
    let hasCraScripts :=
      forallb (fun script => JS.truthy (prop scripts script)) craScripts in
    if hasCraScripts && JS.truthy (deps !! "react")
       && JS.truthy (deps !! "react-dom") then
      Some {| templateId := Some cra_starter; confidence := medium;
              reason := "Create React App script pattern detected" |}
    else if hasYarnLock && JS.truthy (deps !! "react")
            && JS.truthy (deps !! "react-dom") then
      Some {| templateId := Some cra_starter; confidence := low;
              reason := "React project with yarn.lock detected (may be Create React App)" |}
    else
      let nameIndicators := ["create-react-app"; "cra-app"; "react-app"] in
      let descIndicators := ["create react app"; "cra"; "react app"] in
      if matchesIndicators repoName nameIndicators
         || matchesIndicators repoDescription descIndicators then
        Some {| templateId := Some cra_starter; confidence := low;
                reason := "Repository name or description suggests Create React App" |}
      else None.

Definition noMatch : DetectionResult :=
  {| templateId := None; confidence := low;
     reason := "Unable to determine a suitable template. The repository may use a custom setup or unsupported framework." |}.

(** [flag || false]. *)
Definition flag (b : option bool) : bool := default false b.

Definition detectWorkspaceTemplate (manifest : RepositoryManifest)
  : DetectionResult :=
  match detectNextJs (packageJson manifest) (flag (hasNextConfig manifest))
                     (repoName manifest) (repoDescription manifest) with
  | Some nextResult => nextResult
  | None =>
      match detectVite (packageJson manifest) (flag (hasViteConfig manifest))
                       (repoName manifest) (repoDescription manifest) with
      | Some viteResult => viteResult
      | None =>
          match detectCreateReactApp (packageJson manifest)
                                     (flag (hasYarnLock manifest))
                                     (repoName manifest)
                                     (repoDescription manifest) with
          | Some craResult => craResult
          | None => noMatch
          end
      end
  end.

End Detector.

(* ===================================================================== *)
(** * Signals of the detector, and manifests to try it on *)
(* ===================================================================== *)

Module Signals.
Import Detector.

Definition manifestOf (pj : PackageJson) : RepositoryManifest :=
  {| packageJson := Some pj; hasPackageLock := None; hasYarnLock := None;
     hasPnpmLock := None; hasNextConfig := None; hasViteConfig := None;
     repoName := None; repoDescription := None |}.

(** [next] and [vite] side by side, as in the priority test. *)
Definition nextAndVite : PackageJson :=
  {| scripts := None;
     dependencies := Some (<["next" := "14.0.0"]> (<["vite" := "5.0.0"]> ∅));
     devDependencies := None |}.

(** The same with [next] declared at the empty version range. *)
Definition nextUnversionedAndVite : PackageJson :=
  {| scripts := None;
     dependencies := Some (<["next" := ""]> (<["vite" := "5.0.0"]> ∅));
     devDependencies := None |}.

(** The four CRA scripts with [react] and [react-dom], no [react-scripts]
    dependency, as in the script-pattern test. *)
Definition craScripts : PackageJson :=
  {| scripts := Some [("start", "react-scripts start");
                      ("build", "react-scripts build");
                      ("test", "react-scripts test");
                      ("eject", "react-scripts eject")];
     dependencies := Some (<["react" := "18.0.0"]> (<["react-dom" := "18.0.0"]> ∅));
     devDependencies := None |}.

(** [react-scripts] declared under [devDependencies] only. *)
Definition craDevOnly : PackageJson :=
  {| scripts := None;
     dependencies := Some (<["react" := "18.0.0"]> ∅);
     devDependencies := Some (<["react-scripts" := "5.0.1"]> ∅) |}.

Definition nextDevOnly : PackageJson :=
  {| scripts := None;
     dependencies := Some (<["react" := "18.0.0"]> ∅);
     devDependencies := Some (<["next" := "14.0.0"]> ∅) |}.

(** The merged table [{ ...deps, ...devDeps }] of a manifest. *)
Definition allDepsOf (pj : option PackageJson) : gmap string string :=
  spread (depsOf pj) (devDepsOf pj).

(** The name and description test of each framework. *)
Definition nextNamed (n d : option string) : bool :=
  matchesIndicators n ["next"; "nextjs"; "next-app"]
  || matchesIndicators d ["next.js"; "next app"; "nextjs"].

(** The script pattern and the React pair of [detectCreateReactApp]. *)
Definition hasCraScripts (pj : option PackageJson) : bool :=
  forallb (fun script => JS.truthy (prop (scriptsOf pj) script))
          ["start"; "build"; "test"; "eject"].

End Signals.

(* ===================================================================== *)
(** * Package manager, manifest lookup and run-command inference
      ([workspace.ts]) *)
(* ===================================================================== *)

Module Workspace.

Inductive PackageManager := npm | yarn | pnpm.
Inductive WorkspaceFramework :=
  unknown | next | vite | create_react_app | custom.

#[global] Instance PackageManager_eq_dec : EqDecision PackageManager.
Proof. solve_decision. Defined.
#[global] Instance WorkspaceFramework_eq_dec : EqDecision WorkspaceFramework.
Proof. solve_decision. Defined.

(** The package manager as the string the code interpolates and spawns. *)
Definition pmName (pm : PackageManager) : string :=
  match pm with npm => "npm" | yarn => "yarn" | pnpm => "pnpm" end.

Record DevCommandSpec := {
  framework : WorkspaceFramework;
  scriptName : string;
  command : string;
  args : list string;
  display : string;
  port : Z
}.

(** [FileSystemTree] of the sandbox API: a directory maps names to files,
    symbolic links and directories. *)
Inductive FsNode :=
| FileNode (contents : string)
| SymlinkNode (target : string)
| DirectoryNode (children : list (string * FsNode)).

Definition FileSystemTree := list (string * FsNode).

(** [current?.[segment]]. *)
Fixpoint entryOf (tree : FileSystemTree) (segment : string) : option FsNode :=
  match tree with
  | [] => None
  | (k, n) :: r => if String.eqb k segment then Some n else entryOf r segment
  end.

(** [targetPath.split('/')] followed by [filter(Boolean)]. *)
Fixpoint split_slash_from (cur s : string) : list string :=
  match s with
  | EmptyString => [cur]
  | String c r =>
      if Ascii.eqb c "/"%char then cur :: split_slash_from EmptyString r
      else split_slash_from (cur ++ String c EmptyString) r
  end.

Definition segmentsOf (targetPath : string) : list string :=
  List.filter (fun seg => (0 <? String.length seg)%nat)
              (split_slash_from EmptyString targetPath).

(** The loop of [readFileFromTree], over the remaining segments. *)
Fixpoint readSegments (current : FileSystemTree) (segments : list string)
  : option string :=
  match segments with
  | [] => None
  | segment :: rest =>
      match entryOf current segment with
      | None => None
      | Some entry =>
          match rest with
          | [] =>
              match entry with
              | FileNode contents => Some contents
              | _ => None
              end
          | _ =>
              match entry with
              | DirectoryNode children => readSegments children rest
              | _ => None
              end
          end
      end
  end.

Definition readFileFromTree (tree : FileSystemTree) (targetPath : string)
  : option string :=
  readSegments tree (segmentsOf targetPath).

Definition hasFile (tree : FileSystemTree) (target : string) : bool :=
  bool_decide (is_Some (readFileFromTree tree target)).

Definition detectPackageManager (tree : FileSystemTree) : PackageManager :=
  if hasFile tree "pnpm-lock.yaml" || hasFile tree "pnpm-lock.yml" then pnpm
  else if hasFile tree "yarn.lock" then yarn
  else npm.

(** [JSON_parse] stands for [JSON.parse] followed by the cast to
    [PackageJson]: [None] when it throws (the error is logged and
    [undefined] returned). *)
Definition parsePackageJson (JSON_parse : string -> option PackageJson)
           (tree : FileSystemTree) : option PackageJson :=
  match readFileFromTree tree "package.json" with
  | None => None
  | Some EmptyString => None
  | Some contents => JSON_parse contents
  end.

Record Command := {
  cmd_command : string;
  cmd_args : list string;
  cmd_display : string
}.

Definition buildCommand (packageManager : PackageManager) (scriptName : string)
  : Command :=
  match packageManager with
  | npm => {| cmd_command := "npm"; cmd_args := ["run"; scriptName];
              cmd_display := "npm run " ++ scriptName |}
  | yarn => {| cmd_command := "yarn"; cmd_args := [scriptName];
               cmd_display := "yarn " ++ scriptName |}
  | pnpm => {| cmd_command := "pnpm"; cmd_args := [scriptName];
               cmd_display := "pnpm " ++ scriptName |}
  end.

(** [window.prompt]: message and default value to the answer, [None] when
    the dialog is dismissed. *)
Definition PromptFn := string -> string -> option string.

Definition promptMessage (availableScripts : list string) : string :=
  "No dev script detected. Enter the package.json script to run (available: "
    ++ JS.join ", " availableScripts ++ ")".

Definition inferDevCommand (pkg : option PackageJson)
           (packageManager : PackageManager) (promptFn : option PromptFn)
  : option DevCommandSpec :=
  match pkg with
  | None => None
  | Some pkg =>
      let scripts_ := default [] (scripts pkg) in
      let dependencies_ :=
        spread (orEmpty (dependencies pkg)) (orEmpty (devDependencies pkg)) in
      let normalisedScripts :=
        map (fun kv => (fst kv, JS.toLowerCase (snd kv))) scripts_ in
      let hasScript name := bool_decide (is_Some (prop scripts_ name)) in
      let scriptIncludes name snippet :=
        match prop normalisedScripts name with
        | Some v => JS.includes v snippet
        | None => false
        end in
      (* the if / else-if chain: framework, scriptName, port *)
      let chosen : WorkspaceFramework * option string * Z :=
        if scriptIncludes "dev" "next" || has_key dependencies_ "next"
           || scriptIncludes "dev" "turbo dev"
        then (next, Some "dev", 3000)
        else if scriptIncludes "dev" "vite" || has_key dependencies_ "vite"
        then (vite, Some "dev", 5173)
        else if scriptIncludes "start" "react-scripts"
                || has_key dependencies_ "react-scripts"
        then (create_react_app, Some "start", 3000)
        else if hasScript "dev" then (custom, Some "dev", 3000)
        else if hasScript "start" then (custom, Some "start", 3000)
        else (unknown, None, 3000) in
      let framework0 := fst (fst chosen) in
      let scriptName0 := snd (fst chosen) in
      let port0 := snd chosen in
      (* the interactive fallback *)
      let prompted : WorkspaceFramework * option string :=
        match scriptName0 with
        | Some _ => (framework0, scriptName0)
        | None =>
            let availableScripts := keys scripts_ in
            match promptFn, availableScripts with
            | Some ask, first :: _ =>
                let suggested :=
                  if existsb (String.eqb "dev") availableScripts
                  then "dev" else first in
                match ask (promptMessage availableScripts) suggested with
                | Some response =>
                    if (0 <? String.length response)%nat
                       && (0 <? String.length (JS.trim response))%nat
                    then (custom, Some (JS.trim response))
                    else (framework0, None)
                | None => (framework0, None)
                end
            | _, _ => (framework0, None)
            end
        end in
      match snd prompted with
      | None => None
      | Some name =>
          let c := buildCommand packageManager name in
          Some {| framework := fst prompted; scriptName := name;
                  command := cmd_command c; args := cmd_args c;
                  display := cmd_display c; port := port0 |}
      end
  end.

(** What the inference is expected to give for a Next.js project under
    each package manager. *)
Definition nextDevCommand (pm : PackageManager) : DevCommandSpec :=
  match pm with
  | npm => {| framework := next; scriptName := "dev"; command := "npm";
              args := ["run"; "dev"]; display := "npm run dev"; port := 3000 |}
  | yarn => {| framework := next; scriptName := "dev"; command := "yarn";
               args := ["dev"]; display := "yarn dev"; port := 3000 |}
  | pnpm => {| framework := next; scriptName := "dev"; command := "pnpm";
               args := ["dev"]; display := "pnpm dev"; port := 3000 |}
  end.

End Workspace.

(* ===================================================================== *)
(** * Workspace templates ([workspace-templates.ts]) *)
(* ===================================================================== *)

Module Templates.

Record WorkspaceTemplate := {
  id : Detector.TemplateId;
  defaultPort : Z;
  files : Workspace.FileSystemTree
}.

(** [WORKSPACE_TEMPLATES]; the three literal file trees are taken as the
    parameter [starterFiles]. *)
Definition WORKSPACE_TEMPLATES
           (starterFiles : Detector.TemplateId -> Workspace.FileSystemTree)
           (i : Detector.TemplateId) : WorkspaceTemplate :=
  match i with
  | Detector.nextjs_starter =>
      {| id := i; defaultPort := 3000; files := starterFiles i |}
  | Detector.vite_react_starter =>
      {| id := i; defaultPort := 5173; files := starterFiles i |}
  | Detector.cra_starter =>
      {| id := i; defaultPort := 3000; files := starterFiles i |}
  end.

Definition getWorkspaceTemplateById
           (starterFiles : Detector.TemplateId -> Workspace.FileSystemTree)
           (i : option Detector.TemplateId) : option WorkspaceTemplate :=
  match i with
  | None => None
  | Some i => Some (WORKSPACE_TEMPLATES starterFiles i)
  end.

End Templates.

(* ===================================================================== *)
(** * The application store ([app-store.ts]) *)
(* ===================================================================== *)

Module Store.

Inductive WebContainerLifecycle :=
| st_idle
| st_initializing
| st_installing_dependencies
| st_starting_dev_server
| st_ready
| st_error.

#[global] Instance WebContainerLifecycle_eq_dec : EqDecision WebContainerLifecycle.
Proof. solve_decision. Defined.

Record WebContainerState := {
  status : WebContainerLifecycle;
  installProgress : Z;
  lastMessage : option string;
  installPhase : option string;
  packageManager : option Workspace.PackageManager;
  framework : option Workspace.WorkspaceFramework;
  devCommandLabel : option string;
  previewPort : option Z;
  previewUrl : option string;
  error : option string;
  logs : list Console.ConsoleLine
}.

(** One [key: value] entry of a [Partial<WebContainerState>]; an optional
    field set to [undefined] is [None]. *)
Inductive Field :=
| Status (v : WebContainerLifecycle)
| InstallProgress (v : Z)
| LastMessage (v : option string)
| InstallPhase (v : option string)
| PackageManagerIs (v : option Workspace.PackageManager)
| Framework (v : option Workspace.WorkspaceFramework)
| DevCommandLabel (v : option string)
| PreviewPort (v : option Z)
| PreviewUrl (v : option string)
| Error (v : option string)
| Logs (v : list Console.ConsoleLine).

Definition assign (s : WebContainerState) (f : Field) : WebContainerState :=
  match f with
  | Status v => {| status := v; installProgress := installProgress s; lastMessage := lastMessage s; installPhase := installPhase s; packageManager := packageManager s; framework := framework s; devCommandLabel := devCommandLabel s; previewPort := previewPort s; previewUrl := previewUrl s; error := error s; logs := logs s |}
  | InstallProgress v => {| status := status s; installProgress := v; lastMessage := lastMessage s; installPhase := installPhase s; packageManager := packageManager s; framework := framework s; devCommandLabel := devCommandLabel s; previewPort := previewPort s; previewUrl := previewUrl s; error := error s; logs := logs s |}
  | LastMessage v => {| status := status s; installProgress := installProgress s; lastMessage := v; installPhase := installPhase s; packageManager := packageManager s; framework := framework s; devCommandLabel := devCommandLabel s; previewPort := previewPort s; previewUrl := previewUrl s; error := error s; logs := logs s |}
  | InstallPhase v => {| status := status s; installProgress := installProgress s; lastMessage := lastMessage s; installPhase := v; packageManager := packageManager s; framework := framework s; devCommandLabel := devCommandLabel s; previewPort := previewPort s; previewUrl := previewUrl s; error := error s; logs := logs s |}
  | PackageManagerIs v => {| status := status s; installProgress := installProgress s; lastMessage := lastMessage s; installPhase := installPhase s; packageManager := v; framework := framework s; devCommandLabel := devCommandLabel s; previewPort := previewPort s; previewUrl := previewUrl s; error := error s; logs := logs s |}
  | Framework v => {| status := status s; installProgress := installProgress s; lastMessage := lastMessage s; installPhase := installPhase s; packageManager := packageManager s; framework := v; devCommandLabel := devCommandLabel s; previewPort := previewPort s; previewUrl := previewUrl s; error := error s; logs := logs s |}
  | DevCommandLabel v => {| status := status s; installProgress := installProgress s; lastMessage := lastMessage s; installPhase := installPhase s; packageManager := packageManager s; framework := framework s; devCommandLabel := v; previewPort := previewPort s; previewUrl := previewUrl s; error := error s; logs := logs s |}
  | PreviewPort v => {| status := status s; installProgress := installProgress s; lastMessage := lastMessage s; installPhase := installPhase s; packageManager := packageManager s; framework := framework s; devCommandLabel := devCommandLabel s; previewPort := v; previewUrl := previewUrl s; error := error s; logs := logs s |}
  | PreviewUrl v => {| status := status s; installProgress := installProgress s; lastMessage := lastMessage s; installPhase := installPhase s; packageManager := packageManager s; framework := framework s; devCommandLabel := devCommandLabel s; previewPort := previewPort s; previewUrl := v; error := error s; logs := logs s |}
  | Error v => {| status := status s; installProgress := installProgress s; lastMessage := lastMessage s; installPhase := installPhase s; packageManager := packageManager s; framework := framework s; devCommandLabel := devCommandLabel s; previewPort := previewPort s; previewUrl := previewUrl s; error := v; logs := logs s |}
  | Logs v => {| status := status s; installProgress := installProgress s; lastMessage := lastMessage s; installPhase := installPhase s; packageManager := packageManager s; framework := framework s; devCommandLabel := devCommandLabel s; previewPort := previewPort s; previewUrl := previewUrl s; error := error s; logs := v |}
  end.

(** The part of [AppState] the orchestrator touches.  [fileTree] holds the
    mounted tree that [buildFileTreeFromFs] projects for the viewer. *)
Record AppState := {
  webContainer : WebContainerState;
  consoleLines : list Console.ConsoleLine;
  fileTree : Workspace.FileSystemTree
}.

(** [setWebContainerState]: the entries of the partial state override the
    current ones, in order. *)
Definition setWebContainerState (state : list Field) (current : AppState)
  : AppState :=
  {| webContainer := fold_left assign state (webContainer current);
     consoleLines := consoleLines current;
     fileTree := fileTree current |}.

(** [pushConsoleLine]: the line, which also gets a generated id and a time
    stamp that are left out here, is appended to both buffers. *)
Definition pushConsoleLine (line : Console.ConsoleLine) (current : AppState)
  : AppState :=
  {| webContainer := assign (webContainer current)
                            (Logs (logs (webContainer current) ++ [line]));
     consoleLines := consoleLines current ++ [line];
     fileTree := fileTree current |}.

Definition resetConsole (current : AppState) : AppState :=
  {| webContainer := assign (webContainer current) (Logs []);
     consoleLines := [];
     fileTree := fileTree current |}.

Definition setFileTree (tree : Workspace.FileSystemTree) (current : AppState)
  : AppState :=
  {| webContainer := webContainer current;
     consoleLines := consoleLines current;
     fileTree := tree |}.

End Store.

(* ===================================================================== *)
(** * The sandbox orchestrator ([webcontainer-client.ts]) *)
(* ===================================================================== *)

Module Orchestrator.

Import Store.

(** Handles of the sandbox host: a booted instance and a spawned process. *)
Definition Instance := nat.
Definition Pid := nat.

Inductive Cause := user | restart.

#[global] Instance Cause_eq_dec : EqDecision Cause.
Proof. solve_decision. Defined.

(** A thrown value: an [Error] with its message, or anything else with the
    text [String(value)] gives. *)
Inductive Thrown :=
| ErrorObj (message : string)
| NotAnError (text : string).

(** [error instanceof Error ? error.message : String(error)]. *)
Definition messageOf (e : Thrown) : string :=
  match e with
  | ErrorObj message => message
  | NotAnError text => text
  end.

(** Reading a property of [null] throws a [TypeError]. *)
Definition nullAccess (property : string) : Thrown :=
  ErrorObj ("Cannot read properties of null (reading '" ++ property ++ "')").

(** The environment override of the dev-server process. *)
Record SpawnEnv := { PORT : option string; BROWSER : string }.

(** The module-level variables. *)
Record Globals := {
  modulePromise : bool;
  webcontainerInstance : option Instance;
  installProcess : option Pid;
  devProcess : option Pid;
  listenersBound : bool;
  installTerminationCause : option Cause;
  devTerminationCause : option Cause
}.

(** Calls into the sandbox host and the synchronizer, as the host sees
    them. *)
Inductive HostCall :=
| HKill (p : Pid)
| HTeardown (i : Instance)
| HImport
| HBoot
| HOn (i : Instance)
| HSync (owner repo branch : string)
| HMount (i : Instance) (tree : Workspace.FileSystemTree)
| HSpawn (i : Instance) (command : string) (args : list string)
         (env : option SpawnEnv).

(** What an observer of one session sees, in order: calls into the host
    and writes to the lifecycle record. *)
Inductive Effect :=
| Called (c : HostCall)
| Updated (state : list Field).

(** The state the orchestrator runs in: its module variables, the store,
    the callbacks it has handed to the host (output pipes, with or without
    the progress hook; the dev-server exit watcher; the instance listeners)
    and the journal of its effects, most recent first. *)
Record World := {
  globals : Globals;
  store : AppState;
  outputPipes : list (Pid * bool);
  exitWatchers : list Pid;
  listeners : list Instance;
  journal : list Effect
}.

Definition withGlobals (f : Globals -> Globals) (w : World) : World :=
  {| globals := f (globals w); store := store w;
     outputPipes := outputPipes w; exitWatchers := exitWatchers w;
     listeners := listeners w; journal := journal w |}.

Definition withStore (f : AppState -> AppState) (w : World) : World :=
  {| globals := globals w; store := f (store w);
     outputPipes := outputPipes w; exitWatchers := exitWatchers w;
     listeners := listeners w; journal := journal w |}.

Definition record (e : Effect) (w : World) : World :=
  {| globals := globals w; store := store w;
     outputPipes := outputPipes w; exitWatchers := exitWatchers w;
     listeners := listeners w; journal := e :: journal w |}.

Definition set_modulePromise (v : bool) : World -> World :=
  withGlobals (fun g =>
    {| modulePromise := v; webcontainerInstance := webcontainerInstance g;
       installProcess := installProcess g; devProcess := devProcess g;
       listenersBound := listenersBound g;
       installTerminationCause := installTerminationCause g;
       devTerminationCause := devTerminationCause g |}).

Definition set_webcontainerInstance (v : option Instance) : World -> World :=
  withGlobals (fun g =>
    {| modulePromise := modulePromise g; webcontainerInstance := v;
       installProcess := installProcess g; devProcess := devProcess g;
       listenersBound := listenersBound g;
       installTerminationCause := installTerminationCause g;
       devTerminationCause := devTerminationCause g |}).

Definition set_installProcess (v : option Pid) : World -> World :=
  withGlobals (fun g =>
    {| modulePromise := modulePromise g;
       webcontainerInstance := webcontainerInstance g;
       installProcess := v; devProcess := devProcess g;
       listenersBound := listenersBound g;
       installTerminationCause := installTerminationCause g;
       devTerminationCause := devTerminationCause g |}).

Definition set_devProcess (v : option Pid) : World -> World :=
  withGlobals (fun g =>
    {| modulePromise := modulePromise g;
       webcontainerInstance := webcontainerInstance g;
       installProcess := installProcess g; devProcess := v;
       listenersBound := listenersBound g;
       installTerminationCause := installTerminationCause g;
       devTerminationCause := devTerminationCause g |}).

Definition set_listenersBound (v : bool) : World -> World :=
  withGlobals (fun g =>
    {| modulePromise := modulePromise g;
       webcontainerInstance := webcontainerInstance g;
       installProcess := installProcess g; devProcess := devProcess g;
       listenersBound := v;
       installTerminationCause := installTerminationCause g;
       devTerminationCause := devTerminationCause g |}).

Definition set_installTerminationCause (v : option Cause) : World -> World :=
  withGlobals (fun g =>
    {| modulePromise := modulePromise g;
       webcontainerInstance := webcontainerInstance g;
       installProcess := installProcess g; devProcess := devProcess g;
       listenersBound := listenersBound g;
       installTerminationCause := v;
       devTerminationCause := devTerminationCause g |}).

Definition set_devTerminationCause (v : option Cause) : World -> World :=
  withGlobals (fun g =>
    {| modulePromise := modulePromise g;
       webcontainerInstance := webcontainerInstance g;
       installProcess := installProcess g; devProcess := devProcess g;
       listenersBound := listenersBound g;
       installTerminationCause := installTerminationCause g;
       devTerminationCause := v |}).

Definition add_outputPipe (p : Pid) (progress : bool) (w : World) : World :=
  {| globals := globals w; store := store w;
     outputPipes := outputPipes w ++ [(p, progress)];
     exitWatchers := exitWatchers w;
     listeners := listeners w; journal := journal w |}.

Definition add_exitWatcher (p : Pid) (w : World) : World :=
  {| globals := globals w; store := store w;
     outputPipes := outputPipes w; exitWatchers := exitWatchers w ++ [p];
     listeners := listeners w; journal := journal w |}.

Definition set_listeners (l : list Instance) (w : World) : World :=
  {| globals := globals w; store := store w;
     outputPipes := outputPipes w; exitWatchers := exitWatchers w;
     listeners := l; journal := journal w |}.

(** [updateState], [pushLog] and [reportError]. *)
Definition updateState (state : list Field) (w : World) : World :=
  record (Updated state) (withStore (setWebContainerState state) w).

Definition pushLog (text : string) (level : Console.LogLevel) (w : World)
  : World :=
  withStore (pushConsoleLine
               {| Console.line_level := level; Console.line_text := text |}) w.

Definition reportError (e : Thrown) (w : World) : World :=
  let message := messageOf e in
  pushLog message Console.error
          (updateState [Status st_error; Error (Some message);
                        LastMessage (Some message)] w).

(** ** Promises and suspended calls *)

Inductive Settled (A : Type) :=
| Fulfilled (a : A)
| RejectedWith (e : Thrown).
Arguments Fulfilled {A} a.
Arguments RejectedWith {A} e.

(** [RepositorySyncResult] of [github-sync.ts], and what one call of
    [syncRepository] does as seen from its caller: the messages it passes to
    [onProgress], then its result. *)
Record RepositorySyncResult := {
  sync_files : Workspace.FileSystemTree;
  sync_packageManager : Workspace.PackageManager;
  sync_hasPackageJson : bool
}.

Record SyncReport := {
  progress : list string;
  result : Settled RepositorySyncResult
}.

(** The promises an orchestrator call awaits. *)
Inductive Request :=
| ReqKill (p : Pid)
| ReqImport
| ReqBoot
| ReqServiceWorkerReady
| ReqSync (owner repo branch : string)
| ReqMount (i : Instance) (tree : Workspace.FileSystemTree)
| ReqSpawn (i : Instance) (command : string) (args : list string)
           (env : option SpawnEnv)
| ReqExit (p : Pid).

Definition Answer (r : Request) : Type :=
  match r with
  | ReqKill _ => unit
  | ReqImport => unit
  | ReqBoot => Instance
  | ReqServiceWorkerReady => unit
  | ReqSync _ _ _ => SyncReport
  | ReqMount _ _ => unit
  | ReqSpawn _ _ _ _ => Pid
  | ReqExit _ => Z
  end.

Inductive Outcome :=
| Resolved
| Rejected (e : Thrown).

(** An [async] call between two of its [await]s: it has returned, or it is
    suspended on a promise and resumes, in whatever state the module is in
    by then, with what the promise settled to. *)
Inductive Task :=
| Done (o : Outcome)
| Await (r : Request) (k : Settled (Answer r) -> World -> World * Task).

(** What the code reads from its surroundings without awaiting. *)
Record Env := {
  hasWindow : bool;
  windowPrompt : option Workspace.PromptFn;
  hasServiceWorker : bool;
  JSON_parse : string -> option PackageJson;
  starterFiles : Detector.TemplateId -> Workspace.FileSystemTree
}.

(** The fields of [RepositorySummary] that [launchWorkspace] reads. *)
Record RepositorySummary := {
  name : string;
  owner : string;
  defaultBranch : string;
  workspaceTemplateId : option Detector.TemplateId;
  selectedBranch : option string
}.

(** ** Callbacks handed to the host *)

(** The [server-ready] and [error] listeners of [bindInstanceEvents]. *)
Definition onServerReady (port : Z) (url : string) (w : World) : World :=
  pushLog ("Development server is ready at " ++ url ++ ".") Console.info
    (updateState
       [Status st_ready;
        LastMessage (Some ("Development server ready on port "
                             ++ JS.string_of_Z port ++ "."));
        PreviewPort (Some port); PreviewUrl (Some url);
        InstallProgress 100; InstallPhase None] w).

Definition onInstanceError (eventMessage : option string) (w : World) : World :=
  let message := default "WebContainer runtime error." eventMessage in
  pushLog message Console.error
    (updateState [Status st_error; Error (Some message);
                  LastMessage (Some message)] w).

Definition bindInstanceEvents (instance : Instance) (w : World) : World :=
  if listenersBound (globals w) then w
  else set_listenersBound true
         (set_listeners (listeners w ++ [instance])
                        (record (Called (HOn instance)) w)).

(** The progress hook [runInstall] passes to [pipeProcessOutput]. *)
Definition onInstallChunk (chunk : string) (w : World) : World :=
  if (String.length (JS.trim chunk) =? 0)%nat then w
  else
    let currentProgress := installProgress (webContainer (store w)) in
    if currentProgress <? 95
    then updateState [InstallProgress (Z.min 95 (currentProgress + 3))] w
    else w.

(** The [write] method of the stream [pipeProcessOutput] builds. *)
Definition writeChunk (onChunk : bool) (text : string) (w : World) : World :=
  let w := if onChunk then onInstallChunk text w else w in
  fold_left (fun w line =>
               pushLog (Console.line_text line) (Console.line_level line) w)
            (Console.chunkLines text) w.

(** The [then] callback on [devProcess.exit] in [runDevServer]. *)
Definition onDevExit (code : Z) (w : World) : World :=
  let w := set_devProcess None w in
  let cause := devTerminationCause (globals w) in
  let w := set_devTerminationCause None w in
  match cause with
  | Some restart =>
      pushLog "Development server stopped in preparation for restart."
              Console.info w
  | Some user => w
  | None =>
      if code =? 0 then w
      else
        let message := "Dev server exited unexpectedly (code "
                         ++ JS.string_of_Z code ++ ")." in
        pushLog message Console.error
          (updateState [Status st_error; LastMessage (Some message);
                        Error (Some message); PreviewPort None;
                        PreviewUrl None] w)
  end.

(** ** The entry points *)

(** Returning normally, and the [catch] block of [launchWorkspace]. *)
Definition finish (w : World) : World * Task := (w, Done Resolved).

Definition caught (e : Thrown) (w : World) : World * Task :=
  (reportError e w, Done Resolved).

Definition ensureClientEnvironment (env : Env) : option Thrown :=
  if hasWindow env then None
  else Some (ErrorObj
               "WebContainers can only be used in the browser environment.").

(** The three blocks of [prepareFreshInstance], last to first.  A rejected
    [kill] and a throwing [teardown] are logged to the browser console and
    otherwise ignored. *)
Definition teardownInstance (w : World) : World :=
  match webcontainerInstance (globals w) with
  | Some i =>
      set_listenersBound false
        (set_webcontainerInstance None
           (set_listeners
              (List.filter (fun j => negb (Nat.eqb j i)) (listeners w))
              (record (Called (HTeardown i)) w)))
  | None => w
  end.

Definition terminateDevServer (kont : World -> World * Task) (w : World)
  : World * Task :=
  match devProcess (globals w) with
  | Some p =>
      (record (Called (HKill p)) (set_devTerminationCause (Some restart) w),
       Await (ReqKill p) (fun _ w =>
         kont (teardownInstance (set_devProcess None w))))
  | None => kont (teardownInstance w)
  end.

Definition prepareFreshInstance (kont : World -> World * Task) (w : World)
  : World * Task :=
  (* If an installation is ongoing, terminate it silently *)
  match installProcess (globals w) with
  | Some p =>
      (record (Called (HKill p)) (set_installTerminationCause (Some restart) w),
       Await (ReqKill p) (fun _ w =>
         terminateDevServer kont (set_installProcess None w)))
  | None => terminateDevServer kont w
  end.

(** The errors [launchWorkspace] and [bootWebContainer] throw themselves. *)
Definition noServiceWorker : Thrown :=
  ErrorObj "WebContainers require service worker support, which is unavailable in this browser.".

Definition noManifest : Thrown :=
  ErrorObj "No package.json found in the repository. Cannot determine project structure.".

Definition bootWebContainer (env : Env)
           (raise : Thrown -> World -> World * Task)
           (kont : option Instance -> World -> World * Task) (w : World)
  : World * Task :=
  match webcontainerInstance (globals w) with
  | Some i => kont (Some i) w
  | None =>
      let w := if modulePromise (globals w) then w
               else record (Called HImport) (set_modulePromise true w) in
      (w, Await ReqImport (fun loaded w =>
        match loaded with
        | RejectedWith e => raise e w
        | Fulfilled _ =>
            if negb (hasServiceWorker env) then raise noServiceWorker w
            else
              (record (Called HBoot) w, Await ReqBoot (fun booted w =>
                match booted with
                | RejectedWith e => raise e w
                | Fulfilled i =>
                    let w := set_listenersBound false
                               (set_webcontainerInstance (Some i) w) in
                    (w, Await ReqServiceWorkerReady (fun _ w =>
                      match webcontainerInstance (globals w) with
                      | Some i' => kont (Some i') (bindInstanceEvents i' w)
                      | None =>
                          if listenersBound (globals w) then kont None w
                          else raise (nullAccess "on") w
                      end))
                end))
        end))
  end.

Definition runInstall (instance : Instance)
           (packageManager : Workspace.PackageManager)
           (raise : Thrown -> World -> World * Task)
           (kont : Z -> World -> World * Task) (w : World) : World * Task :=
  let commandArgs := ["install"] in
  let spawn := ReqSpawn instance (Workspace.pmName packageManager)
                        commandArgs None in
  (record (Called (HSpawn instance (Workspace.pmName packageManager)
                          commandArgs None)) w,
   Await spawn (fun spawned w =>
     match spawned with
     | RejectedWith e => raise e w
     | Fulfilled process =>
         let w := set_installProcess (Some process) w in
         let w := set_installTerminationCause None w in
         let w := add_outputPipe process true w in
         (w, Await (ReqExit process) (fun exited w =>
           match exited with
           | RejectedWith e => raise e w
           | Fulfilled exitCode =>
               let w := set_installProcess None w in
               match installTerminationCause (globals w) with
               | Some restart => kont exitCode w
               | Some user => kont exitCode w
               | None =>
                   kont exitCode
                     (updateState
                        [LastMessage
                           (Some (if exitCode =? 0
                                  then "Dependencies installed successfully."
                                  else "Dependency installation encountered an error."))]
                        w)
               end
           end))
     end)).

Definition runDevServer (instance : Instance)
           (devCommand : Workspace.DevCommandSpec) (defaultPort : Z)
           (raise : Thrown -> World -> World * Task)
           (kont : World -> World * Task) (w : World) : World * Task :=
  let env :=
    {| PORT := if Workspace.port devCommand =? 0 then None
               else Some (JS.string_of_Z (Workspace.port devCommand));
       BROWSER := "none" |} in
  (record (Called (HSpawn instance (Workspace.command devCommand)
                          (Workspace.args devCommand) (Some env))) w,
   Await (ReqSpawn instance (Workspace.command devCommand)
                   (Workspace.args devCommand) (Some env))
     (fun spawned w =>
       match spawned with
       | RejectedWith e => raise e w
       | Fulfilled process =>
           let w := set_devProcess (Some process) w in
           let w := set_devTerminationCause None w in
           let w := add_outputPipe process false w in
           let w := add_exitWatcher process w in
           let w := if listenersBound (globals w) then w
                    else bindInstanceEvents instance w in
           (* Default port hint until server-ready fires *)
           kont (updateState [PreviewPort (Some defaultPort)] w)
       end)).

(** [template?.defaultPort || 3000] for the template of the repository. *)
Definition fallbackPort (env : Env) (repository : RepositorySummary) : Z :=
  match Templates.getWorkspaceTemplateById
          (starterFiles env)
          (Some (default Detector.nextjs_starter
                         (workspaceTemplateId repository))) with
  | Some template =>
      if Templates.defaultPort template =? 0 then 3000
      else Templates.defaultPort template
  | None => 3000
  end.

Definition noDevCommand : Thrown :=
  ErrorObj "Unable to determine the development server command. Define a dev or start script in package.json.".

Definition installFailed (installExitCode : Z) : Thrown :=
  ErrorObj ("Dependency installation failed with exit code "
              ++ JS.string_of_Z installExitCode
              ++ ". Check the console for details.").

(** [launchWorkspace] after [await runInstall(...)]. *)
Definition afterInstall (env : Env) (repository : RepositorySummary)
           (instance : Instance) (devCommand : Workspace.DevCommandSpec)
           (usedFallback : bool) (installExitCode : Z) (w : World)
  : World * Task :=
  if bool_decide (installTerminationCause (globals w) = Some user)
  then finish w
  else if negb (installExitCode =? 0)
  then caught (installFailed installExitCode) w
  else
    let w := updateState
               [Status st_starting_dev_server;
                InstallProgress 100; InstallPhase None;
                LastMessage (Some ("Starting dev server ("
                                     ++ Workspace.display devCommand
                                     ++ ")…"))] w in
    let w := pushLog ("Starting dev server via "
                        ++ Workspace.display devCommand ++ "…")
                     Console.info w in
    runDevServer instance devCommand
                 (if usedFallback then fallbackPort env repository else 3000)
                 caught finish w.

(** [launchWorkspace] after [await instance.mount(files)]. *)
Definition afterMount (env : Env) (repository : RepositorySummary)
           (instance : Instance) (files : Workspace.FileSystemTree)
           (packageManager : Workspace.PackageManager)
           (hasPackageJson usedFallback : bool) (w : World) : World * Task :=
  let w := withStore (setFileTree files) w in
  let w := pushLog ("Filesystem mounted inside WebContainer ("
                      ++ (if usedFallback then "template"
                          else "synced repository") ++ ").")
                   Console.info w in
  if negb hasPackageJson then caught noManifest w
  else
    let installing := "Installing dependencies with "
                        ++ Workspace.pmName packageManager ++ "…" in
    let w := updateState [Status st_installing_dependencies;
                          PackageManagerIs (Some packageManager);
                          InstallProgress 5;
                          InstallPhase (Some "starting");
                          LastMessage (Some installing)] w in
    let w := pushLog installing Console.info w in
    let packageJson := Workspace.parsePackageJson (JSON_parse env) files in
    let promptFn := windowPrompt env in
    match Workspace.inferDevCommand packageJson packageManager promptFn with
    | None => caught noDevCommand w
    | Some devCommand =>
        let w := updateState
                   [Framework (Some (Workspace.framework devCommand));
                    DevCommandLabel (Some (Workspace.display devCommand));
                    PreviewPort None; PreviewUrl None] w in
        runInstall instance packageManager caught
                   (afterInstall env repository instance devCommand
                                 usedFallback) w
    end.

(** [launchWorkspace] from [instance.mount] on; the local [instance] is
    [null] when another call tore the instance down while this one was
    booting it. *)
Definition mountAndRun (env : Env) (repository : RepositorySummary)
           (instance : option Instance) (files : Workspace.FileSystemTree)
           (packageManager : Workspace.PackageManager)
           (hasPackageJson usedFallback : bool) (w : World) : World * Task :=
  match instance with
  | None => caught (nullAccess "mount") w
  | Some instance =>
      (record (Called (HMount instance files)) w,
       Await (ReqMount instance files) (fun mounted w =>
         match mounted with
         | RejectedWith e => caught e w
         | Fulfilled _ =>
             afterMount env repository instance files packageManager
                        hasPackageJson usedFallback w
         end))
  end.

(** [message => { updateState({ lastMessage: message }); pushLog(message) }] *)
Definition onProgress (message : string) (w : World) : World :=
  pushLog message Console.info (updateState [LastMessage (Some message)] w).

(** [repository.selectedBranch || repository.defaultBranch]. *)
Definition branchOf (repository : RepositorySummary) : string :=
  if JS.truthy (selectedBranch repository)
  then default EmptyString (selectedBranch repository)
  else defaultBranch repository.

Definition notInBrowser : Thrown :=
  ErrorObj "WebContainers can only be used in the browser environment.".

Definition noTemplate (repository : RepositorySummary) : Thrown :=
  ErrorObj ("No workspace template available for " ++ name repository
              ++ " and repository sync failed.").

(** The [catch] block of the synchronization, from the lookup of the
    template on: [template] is what [getWorkspaceTemplateById] returned. *)
Definition fallBackToTemplate (env : Env) (repository : RepositorySummary)
           (instance : option Instance)
           (template : option Templates.WorkspaceTemplate) (w : World)
  : World * Task :=
  match template with
  | None => caught (noTemplate repository) w
  | Some template =>
      let files := Templates.files template in
      let packageManager := Workspace.detectPackageManager files in
      let hasPackageJson :=
        bool_decide
          (is_Some (Workspace.parsePackageJson (JSON_parse env) files)) in
      let w := pushLog "Falling back to workspace template." Console.warn w in
      let w := updateState
                 [LastMessage (Some "Using template fallback due to sync failure.")]
                 w in
      mountAndRun env repository instance files packageManager
                  hasPackageJson true w
  end.

Definition launchWorkspace (env : Env) (repository : RepositorySummary)
           (w : World) : World * Task :=
  match ensureClientEnvironment env with
  | Some e => (w, Done (Rejected e))
  | None =>
    prepareFreshInstance (fun w =>
      let w := withStore resetConsole w in
      let w := updateState
                 [Status st_initializing; InstallProgress 0;
                  InstallPhase None; PackageManagerIs None;
                  Framework (Some Workspace.unknown); DevCommandLabel None;
                  PreviewPort None; PreviewUrl None; Error None; Logs [];
                  LastMessage (Some "Booting WebContainer runtime…")] w in
      let w := pushLog ("Launching workspace for " ++ owner repository ++ "/"
                          ++ name repository ++ "…") Console.info w in
      (* try *)
      bootWebContainer env caught (fun instance w =>
        let w := pushLog "WebContainer runtime ready." Console.info w in
        let w := updateState [LastMessage (Some "Syncing repository files…")]
                             w in
        let sync := ReqSync (owner repository) (name repository)
                            (branchOf repository) in
        (record (Called (HSync (owner repository) (name repository)
                               (branchOf repository))) w,
         Await sync (fun synced w =>
           let report :=
             match synced return SyncReport with
             | Fulfilled r => r
             | RejectedWith e => {| progress := []; result := RejectedWith e |}
             end in
           let w := fold_left (fun w message => onProgress message w)
                              (progress report) w in
           match result report with
           | Fulfilled syncResult =>
               let w := pushLog "Repository files synced successfully."
                                Console.info w in
               mountAndRun env repository instance (sync_files syncResult)
                           (sync_packageManager syncResult)
                           (sync_hasPackageJson syncResult) false w
           | RejectedWith syncError =>
               let w := pushLog ("Repository sync failed: "
                                   ++ match syncError with
                                      | ErrorObj message => message
                                      | NotAnError _ => "Unknown error"
                                      end) Console.warn w in
               (* Fall back to template if sync fails *)
               fallBackToTemplate
                 env repository instance
                 (Templates.getWorkspaceTemplateById
                    (starterFiles env)
                    (Some (default Detector.nextjs_starter
                                   (workspaceTemplateId repository)))) w
           end))) w) w
  end.

Definition cancelInstallation (w : World) : World * Task :=
  match installProcess (globals w) with
  | None => (w, Done Resolved)
  | Some p =>
      (record (Called (HKill p)) (set_installTerminationCause (Some user) w),
       Await (ReqKill p) (fun _ w =>
         let w := set_installProcess None w in
         let w := updateState
                    [Status st_idle; InstallProgress 0; InstallPhase None;
                     LastMessage (Some "Installation cancelled by user.")] w in
         (pushLog "Dependency installation cancelled by user request."
                  Console.warn w, Done Resolved)))
  end.

Definition stopDevServer (w : World) : World * Task :=
  match devProcess (globals w) with
  | None => (w, Done Resolved)
  | Some p =>
      (record (Called (HKill p)) (set_devTerminationCause (Some user) w),
       Await (ReqKill p) (fun _ w =>
         let w := set_devProcess None w in
         let w := updateState
                    [Status st_idle;
                     LastMessage (Some "Development server stopped.");
                     PreviewPort None; PreviewUrl None] w in
         (pushLog "Development server stopped by user." Console.info w,
          Done Resolved)))
  end.

(** ** Running the calls *)

(** How the host settles each promise during one call. *)
Definition Host := forall r : Request, Settled (Answer r).

(** One call run on its own: every promise it awaits is settled by [host]
    before anything else happens. *)
Fixpoint runTask (host : Host) (t : Task) (w : World) {struct t}
  : World * Outcome :=
  match t with
  | Done o => (w, o)
  | Await r k =>
      match k (host r) w with
      | (w', t') => runTask host t' w'
      end
  end.

Definition run (host : Host) (c : World * Task) : World * Outcome :=
  runTask host (snd c) (fst c).

(** Several calls in flight.  Between two awaits of one call anything of
    the following can happen: the user starts another call, the host
    settles the promise some call waits for, or the host invokes one of the
    callbacks it holds. *)
Inductive Event :=
| CallLaunch (env : Env) (repository : RepositorySummary)
| CallCancelInstallation
| CallStopDevServer
| Settle (call : nat) (host : Host)
| EmitOutput (p : Pid) (chunk : string)
| EmitDevExit (p : Pid) (code : Z)
| EmitServerReady (i : Instance) (port : Z) (url : string)
| EmitError (i : Instance) (message : option string).

Record System := { world : World; calls : list Task }.

(** Replace the [n]-th call. *)
Fixpoint setCall (n : nat) (t : Task) (l : list Task) : list Task :=
  match l, n with
  | [], _ => []
  | _ :: r, O => t :: r
  | x :: r, S n' => x :: setCall n' t r
  end.

Definition started (s : System) (c : World * Task) : System :=
  {| world := fst c; calls := calls s ++ [snd c] |}.

Definition react (e : Event) (s : System) : System :=
  match e with
  | CallLaunch env repository =>
      started s (launchWorkspace env repository (world s))
  | CallCancelInstallation => started s (cancelInstallation (world s))
  | CallStopDevServer => started s (stopDevServer (world s))
  | Settle n host =>
      match nth_error (calls s) n with
      | Some (Await r k) =>
          let c := k (host r) (world s) in
          {| world := fst c; calls := setCall n (snd c) (calls s) |}
      | _ => s
      end
  | EmitOutput p chunk =>
      {| world := fold_left
                    (fun w pipe =>
                       if Nat.eqb (fst pipe) p
                       then writeChunk (snd pipe) chunk w else w)
                    (outputPipes (world s)) (world s);
         calls := calls s |}
  | EmitDevExit p code =>
      {| world := if existsb (Nat.eqb p) (exitWatchers (world s))
                  then onDevExit code (world s) else world s;
         calls := calls s |}
  | EmitServerReady i port url =>
      {| world := if existsb (Nat.eqb i) (listeners (world s))
                  then onServerReady port url (world s) else world s;
         calls := calls s |}
  | EmitError i message =>
      {| world := if existsb (Nat.eqb i) (listeners (world s))
                  then onInstanceError message (world s) else world s;
         calls := calls s |}
  end.

Definition play (events : list Event) (s : System) : System :=
  fold_left (fun s e => react e s) events s.

(** The state of a freshly loaded page: the store's initial lifecycle
    record and console, nothing booted, nothing spawned.  The demonstration
    file tree the store starts with is left out. *)
Definition initialWorld : World :=
  {| globals := {| modulePromise := false; webcontainerInstance := None;
                   installProcess := None; devProcess := None;
                   listenersBound := false;
                   installTerminationCause := None;
                   devTerminationCause := None |};
     store := {| webContainer :=
                   {| status := st_idle; installProgress := 0;
                      lastMessage := Some "Awaiting workspace launch.";
                      installPhase := None; packageManager := None;
                      framework := Some Workspace.unknown;
                      devCommandLabel := None; previewPort := None;
                      previewUrl := None; error := None; logs := [] |};
                 consoleLines := []; fileTree := [] |};
     outputPipes := []; exitWatchers := []; listeners := [];
     journal := [] |}.

(** ** Observations used in the statements below *)

(** The processes a journal shows as spawned and as killed, most recent
    first. *)
Definition spawned (j : list Effect) : list HostCall :=
  omap (fun e => match e with
                 | Called (HSpawn i c a v) => Some (HSpawn i c a v)
                 | _ => None
                 end) j.

Definition killed (j : list Effect) : list Pid :=
  omap (fun e => match e with Called (HKill p) => Some p | _ => None end) j.

(** The status and the error message the lifecycle record shows. *)
Definition reported (w : World) : WebContainerLifecycle * option string :=
  (status (webContainer (store w)), error (webContainer (store w))).

(** The promises whose rejection is an exception inside the [try] block of
    [launchWorkspace]. *)
Definition fatal (r : Request) : bool :=
  match r with
  | ReqImport | ReqBoot | ReqMount _ _ | ReqSpawn _ _ _ _ | ReqExit _ => true
  | ReqKill _ | ReqServiceWorkerReady | ReqSync _ _ _ => false
  end.

(** A call that never rejects, whatever the host answers and whatever
    state it resumes in, and that hands every rejection of a fatal promise
    to the [catch] block. *)
Inductive Contained : Task -> Prop :=
| contained_done : Contained (Done Resolved)
| contained_await (r : Request) k :
    (forall answer w, Contained (snd (k answer w))) ->
    (fatal r = true -> forall e w, k (RejectedWith e) w = caught e w) ->
    Contained (Await r k).

(** The world one launch, run on its own, ends in. *)
Definition finalWorld (env : Env) (host : Host)
           (repository : RepositorySummary) (w : World) : World :=
  fst (run host (launchWorkspace env repository w)).

Definition syncSucceeds (host : Host) (repository : RepositorySummary) : bool :=
  match host (ReqSync (owner repository) (name repository)
                      (branchOf repository)) with
  | Fulfilled report =>
      match result report with
      | Fulfilled _ => true
      | RejectedWith _ => false
      end
  | RejectedWith _ => false
  end.

(** The port [launchWorkspace] passes to [runDevServer] as [defaultPort]. *)
Definition provisionalPort (env : Env) (host : Host)
           (repository : RepositorySummary) : Z :=
  if syncSucceeds host repository then 3000 else fallbackPort env repository.

(** The install process of a run was spawned and exited with code 0. *)
Definition installSucceeded (host : Host) : Prop :=
  exists (i : Instance) (pm : Workspace.PackageManager) (p : Pid),
    host (ReqSpawn i (Workspace.pmName pm) ["install"] None) = Fulfilled p
    /\ host (ReqExit p) = Fulfilled 0.

(** What holds of the world a run ends in when it ends with the dev server
    starting. *)
Definition startedWith (host : Host) (port : Z) (w : World) : Prop :=
  status (webContainer (store w)) = st_starting_dev_server ->
  previewPort (webContainer (store w)) = Some port /\ installSucceeded host.

(** The console line [cancelInstallation] leaves, and the first state
    update of the install phase. *)
Definition cancelledLine : Console.ConsoleLine :=
  {| Console.line_level := Console.warn;
     Console.line_text := "Dependency installation cancelled by user request." |}.

Definition installingUpdate (pm : Workspace.PackageManager) : Effect :=
  Updated [Status st_installing_dependencies; PackageManagerIs (Some pm);
           InstallProgress 5; InstallPhase (Some "starting");
           LastMessage (Some ("Installing dependencies with "
                                ++ Workspace.pmName pm ++ "…"))].

(** The error line [reportError] logs. *)
Definition errorLine (message : string) : Console.ConsoleLine :=
  {| Console.line_level := Console.error; Console.line_text := message |}.

(** The error handler ran last: the status is [error], and the message is
    the recorded error, the last message and the last console line. *)
Definition failedWith (message : string) (w : World) : Prop :=
  reported w = (st_error, Some message)
  /\ lastMessage (webContainer (store w)) = Some message
  /\ last (consoleLines (store w)) = Some (errorLine message).

(** How a launch that runs on its own can end: with the dev server
    starting, or in the error handler. *)
Definition endsWell (w : World) : Prop :=
  status (webContainer (store w)) = st_starting_dev_server
  \/ exists message, failedWith message w.

End Orchestrator.

(* ===================================================================== *)
(** * Concrete sessions *)
(* ===================================================================== *)

Module Scenario.

Import Orchestrator Store.

(** Three manifests, written without the quotes of JSON, and what
    [JSON.parse] gives for each. *)
Definition nextManifestText : string :=
  "{scripts:{dev:next dev,build:next build},dependencies:{next:14.2.4,react:18.2.0}}".
Definition viteManifestText : string :=
  "{scripts:{dev:vite},devDependencies:{vite:^5.0.0}}".
Definition bareManifestText : string := "{name:library}".

Definition nextManifest : PackageJson :=
  {| scripts := Some [("dev", "next dev"); ("build", "next build")];
     dependencies := Some (<["next" := "14.2.4"]> (<["react" := "18.2.0"]> ∅));
     devDependencies := None |}.
Definition viteManifest : PackageJson :=
  {| scripts := Some [("dev", "vite")];
     dependencies := None;
     devDependencies := Some (<["vite" := "^5.0.0"]> ∅) |}.
Definition bareManifest : PackageJson :=
  {| scripts := None; dependencies := None; devDependencies := None |}.

Definition parse (contents : string) : option PackageJson :=
  if String.eqb contents nextManifestText then Some nextManifest
  else if String.eqb contents viteManifestText then Some viteManifest
  else if String.eqb contents bareManifestText then Some bareManifest
  else None.

Definition treeOf (manifestText : string) : Workspace.FileSystemTree :=
  [("package.json", Workspace.FileNode manifestText);
   ("README.md", Workspace.FileNode "# Test Repository")].

Definition browser : Env :=
  {| hasWindow := true; windowPrompt := None; hasServiceWorker := true;
     JSON_parse := parse;
     starterFiles := fun _ => treeOf nextManifestText |}.

(** Server-side rendering: no [window]. *)
Definition server : Env :=
  {| hasWindow := false; windowPrompt := None; hasServiceWorker := false;
     JSON_parse := parse;
     starterFiles := fun _ => treeOf nextManifestText |}.

Definition repository : RepositorySummary :=
  {| name := "test-repo"; owner := "testowner"; defaultBranch := "main";
     workspaceTemplateId := None; selectedBranch := Some "main" |}.

(** A host on which everything succeeds: it boots instance [i], the
    synchronizer delivers [tree], spawned processes get the handle [p] and
    exit with [code]. *)
Definition obliging (i : Instance) (tree : Workspace.FileSystemTree)
           (p : Pid) (code : Z) : Host :=
  fun r =>
    match r return Settled (Answer r) with
    | ReqKill _ => Fulfilled tt
    | ReqImport => Fulfilled tt
    | ReqBoot => Fulfilled i
    | ReqServiceWorkerReady => Fulfilled tt
    | ReqSync _ _ _ =>
        Fulfilled
          {| progress := ["Download complete. Extracting files…"];
             result := Fulfilled
                         {| sync_files := tree;
                            sync_packageManager :=
                              Workspace.detectPackageManager tree;
                            sync_hasPackageJson := true |} |}
    | ReqMount _ _ => Fulfilled tt
    | ReqSpawn _ _ _ _ => Fulfilled p
    | ReqExit _ => Fulfilled code
    end.

Definition fresh : System := {| world := initialWorld; calls := [] |}.

(** The first launch, up to the point where it waits for its install
    process (handle 1 on instance 1) to exit. *)
Definition launchUntilInstalling : list Event :=
  let host := obliging 1%nat (treeOf nextManifestText) 1%nat 0 in
  [CallLaunch browser repository;
   Settle 0 host; (* import *)
   Settle 0 host; (* boot *)
   Settle 0 host; (* service worker ready *)
   Settle 0 host; (* sync *)
   Settle 0 host; (* mount *)
   Settle 0 host  (* spawn install *)].

(** A second launch while the first is installing: its teardown kills
    process 1, which then exits with code 143. *)
Definition relaunch : list Event :=
  (launchUntilInstalling
     ++ [CallLaunch browser repository;
         Settle 1 (obliging 2%nat (treeOf nextManifestText) 2%nat 0); (* kill *)
         Settle 0 (obliging 1%nat (treeOf nextManifestText) 1%nat 143) (* exit *)])%list.

(** The second launch carried on until it waits for its own install
    process (handle 2 on instance 2). *)
Definition relaunchUntilInstalling : list Event :=
  let host := obliging 2%nat (treeOf nextManifestText) 2%nat 0 in
  (relaunch
     ++ [Settle 1 host; (* import *)
         Settle 1 host; (* boot *)
         Settle 1 host; (* service worker ready *)
         Settle 1 host; (* sync *)
         Settle 1 host; (* mount *)
         Settle 1 host  (* spawn install *)])%list.

End Scenario.

(* ===================================================================== *)
(** * Vocabulary for the statements about [workspace.ts] *)
(* ===================================================================== *)

Module WorkspaceFacts.

Import Workspace.

(** A regular file named [name] stands at the root of [tree]. *)
Definition rootFile (tree : FileSystemTree) (name : string) : bool :=
  match entryOf tree name with
  | Some (FileNode _) => true
  | _ => false
  end.

(** A path segment: not empty, no slash. *)
Definition isSegment (s : string) : bool :=
  (0 <? String.length s)%nat
  && forallb (fun c => negb (Ascii.eqb c "/"%char)) (JS.chars s).

(** The script table and the merged dependency table [inferDevCommand]
    works on, and its test [scriptIncludes]. *)
Definition scriptTable (pkg : PackageJson) : list (string * string) :=
  default [] (scripts pkg).

Definition mergedDeps (pkg : PackageJson) : gmap string string :=
  spread (orEmpty (dependencies pkg)) (orEmpty (devDependencies pkg)).

Definition scriptMentions (pkg : PackageJson) (name snippet : string) : bool :=
  match prop (scriptTable pkg) name with
  | Some v => JS.includes (JS.toLowerCase v) snippet
  | None => false
  end.

Definition hasScript (pkg : PackageJson) (name : string) : bool :=
  bool_decide (is_Some (prop (scriptTable pkg) name)).

(** The conditions of the if / else-if chain of [inferDevCommand]. *)
Definition nextSignal (pkg : PackageJson) : bool :=
  scriptMentions pkg "dev" "next" || has_key (mergedDeps pkg) "next"
  || scriptMentions pkg "dev" "turbo dev".

Definition viteSignal (pkg : PackageJson) : bool :=
  scriptMentions pkg "dev" "vite" || has_key (mergedDeps pkg) "vite".

Definition craSignal (pkg : PackageJson) : bool :=
  scriptMentions pkg "start" "react-scripts"
  || has_key (mergedDeps pkg) "react-scripts".

(** Some branch of the chain sets the script name. *)
Definition detected (pkg : PackageJson) : bool :=
  nextSignal pkg || viteSignal pkg || craSignal pkg
  || hasScript pkg "dev" || hasScript pkg "start".

(** The result for script [name] with the given framework and port. *)
Definition specFor (pm : PackageManager) (fw : WorkspaceFramework)
           (name : string) (p : Z) : DevCommandSpec :=
  let c := buildCommand pm name in
  {| framework := fw; scriptName := name; command := cmd_command c;
     args := cmd_args c; display := cmd_display c; port := p |}.

(** What the chain gives without the interactive fallback. *)
Definition chainResult (pkg : PackageJson) (pm : PackageManager)
  : option DevCommandSpec :=
  if nextSignal pkg then Some (specFor pm next "dev" 3000)
  else if viteSignal pkg then Some (specFor pm vite "dev" 5173)
  else if craSignal pkg then Some (specFor pm create_react_app "start" 3000)
  else if hasScript pkg "dev" then Some (specFor pm custom "dev" 3000)
  else if hasScript pkg "start" then Some (specFor pm custom "start" 3000)
  else None.

(** What the answer of the prompt gives. *)
Definition answered (pm : PackageManager) (response : option string)
  : option DevCommandSpec :=
  match response with
  | Some response =>
      if (0 <? String.length (JS.trim response))%nat
      then Some (specFor pm custom (JS.trim response) 3000)
      else None
  | None => None
  end.

End WorkspaceFacts.

(* ===================================================================== *)
(** * Vocabulary for the statements about teardown and the callbacks *)
(* ===================================================================== *)

Module OrchestratorFacts.

Import Orchestrator Store.

Definition infoLine (text : string) : Console.ConsoleLine :=
  {| Console.line_level := Console.info; Console.line_text := text |}.

(** The host calls [prepareFreshInstance] makes in a state, most recent
    first: the teardown of the instance, the kill of the dev server, the
    kill of the install. *)
Definition teardownCalls (w : World) : list Effect :=
  (match webcontainerInstance (globals w) with
   | Some i => [Called (HTeardown i)]
   | None => []
   end
   ++ match devProcess (globals w) with
      | Some p => [Called (HKill p)]
      | None => []
      end
   ++ match installProcess (globals w) with
      | Some p => [Called (HKill p)]
      | None => []
      end)%list.


End OrchestratorFacts.

(* ===================================================================== *)
(** * Invariants of the store under interleaved calls and callbacks *)
(* ===================================================================== *)

Module Invariants.

Import Orchestrator Store.

(** What the orchestrator maintains of the store: the two console buffers
    hold the same lines, the progress estimate is a percentage, an [error]
    status comes with an error message, a [ready] status with a preview
    port and URL. *)
Definition consistent (s : AppState) : Prop :=
  logs (webContainer s) = consoleLines s
  /\ 0 <= installProgress (webContainer s) <= 100
  /\ (status (webContainer s) = st_error -> is_Some (error (webContainer s)))
  /\ (status (webContainer s) = st_ready ->
      is_Some (previewPort (webContainer s))
      /\ is_Some (previewUrl (webContainer s))).

(** A suspended call keeps [P]: resumed in a state where [P] holds, with
    whatever answer, it leaves a state where [P] holds, and so on until it
    returns. *)
Fixpoint Keeps (P : World -> Prop) (t : Task) {struct t} : Prop :=
  match t with
  | Done _ => True
  | Await r k =>
      forall (answer : Settled (Answer r)) (w : World),
        P w ->
        match k answer w with
        | (w', t') => P w' /\ Keeps P t'
        end
  end.

Definition Steady (P : World -> Prop) (c : World * Task) : Prop :=
  P (fst c) /\ Keeps P (snd c).

(** A system in which the store is consistent and every call in flight
    keeps it so. *)
Definition Sound (s : System) : Prop :=
  consistent (store (world s))
  /\ Forall (Keeps (fun w => consistent (store w))) (calls s).

End Invariants.

Module LaunchFacts.

Import Orchestrator Store.

(** The dev server of a launch is in place: the instance the host booted
    is the current one and its listeners are bound, the dev process is the
    current one, no install is left, and the exit watcher and the output
    pipe of the dev process are set up. *)
Definition serverWired (host : Host) (w : World) : Prop :=
  exists (i : Instance) (p : Pid),
    host ReqBoot = Fulfilled i
    /\ webcontainerInstance (globals w) = Some i
    /\ listenersBound (globals w) = true
    /\ In i (listeners w)
    /\ devProcess (globals w) = Some p
    /\ devTerminationCause (globals w) = None
    /\ installProcess (globals w) = None
    /\ In p (exitWatchers w)
    /\ In (p, false) (outputPipes w).

Definition wiredIfStarted (host : Host) (w : World) : Prop :=
  status (webContainer (store w)) = st_starting_dev_server ->
  serverWired host w.

(** The instance [i] the host booted is current and listened to. *)
Definition booted (host : Host) (i : Instance) (w : World) : Prop :=
  host ReqBoot = Fulfilled i
  /\ webcontainerInstance (globals w) = Some i
  /\ listenersBound (globals w) = true
  /\ In i (listeners w).

End LaunchFacts.

(* ===================================================================== *)
(** * Extraction of a repository archive ([github-sync.ts]) *)
(* ===================================================================== *)

Module Sync.

Import Workspace.

(** [current[key] = node] on an object given as an association list: an
    existing key keeps its place, a new one goes to the end. *)
Fixpoint setEntry (tree : FileSystemTree) (key : string) (node : FsNode)
  : FileSystemTree :=
  match tree with
  | [] => [(key, node)]
  | (k, n) :: r =>
      if String.eqb k key then (k, node) :: r
      else (k, n) :: setEntry r key node
  end.

(** [path.split('/')]: empty parts are kept. *)
Definition partsOf (path : string) : list string :=
  split_slash_from EmptyString path.

(** The loop of [setFileInTree] over the parts of the path.  A part that
    is missing, or is not a directory, becomes an empty directory before
    the descent.  [content] is the text the bytes of the entry decode to. *)
Fixpoint setParts (tree : FileSystemTree) (parts : list string)
         (content : string) {struct parts} : FileSystemTree :=
  match parts with
  | [] => tree
  | part :: rest =>
      match rest with
      | [] => setEntry tree part (FileNode content)
      | _ :: _ =>
          let directory :=
            match entryOf tree part with
            | Some (DirectoryNode children) => children
            | _ => []
            end in
          setEntry tree part (DirectoryNode (setParts directory rest content))
      end
  end.

Definition setFileInTree (tree : FileSystemTree) (path content : string)
  : FileSystemTree :=
  setParts tree (partsOf path) content.

(** An entry of [zip.files]: its path, the [dir] flag and its contents. *)
Record ZipEntry := {
  zip_path : string;
  zip_dir : bool;
  zip_contents : string
}.

(** [dirCounts.set(rootDir, (dirCounts.get(rootDir) || 0) + 1)] on a [Map]
    given in insertion order. *)
Fixpoint bump (counts : list (string * nat)) (dir : string)
  : list (string * nat) :=
  match counts with
  | [] => [(dir, 1%nat)]
  | (k, n) :: r =>
      if String.eqb k dir then (k, S n) :: r else (k, n) :: bump r dir
  end.

(** [path.split('/')[0]]. *)
Definition firstPart (path : string) : string :=
  hd EmptyString (partsOf path).

Definition dirCounts (files : list ZipEntry) : list (string * nat) :=
  fold_left (fun counts e =>
               if JS.includes (zip_path e) "/"
               then bump counts (firstPart (zip_path e)) else counts)
            files [].

Definition findRootDirectory (files : list ZipEntry) : option string :=
  snd (fold_left (fun (best : nat * option string) (entry : string * nat) =>
                    if (fst best <? snd entry)%nat
                    then (snd entry, Some (fst entry)) else best)
                 (dirCounts files) (0%nat, None)).

(** [s] without its first [n] code units. *)
Fixpoint drop (n : nat) (s : string) : string :=
  match n, s with
  | O, _ => s
  | S n', String _ r => drop n' r
  | S _, EmptyString => EmptyString
  end.

(** [s.replace(pattern, '')] for a string pattern: the first occurrence,
    wherever it stands, is removed. *)
Fixpoint removeFirst (s pattern : string) : string :=
  if String.prefix pattern s then drop (String.length pattern) s
  else match s with
       | EmptyString => EmptyString
       | String c r => String c (removeFirst r pattern)
       end.

(** [rootDir ? relativePath.replace(`${rootDir}/`, '') : relativePath]. *)
Definition cleanPath (rootDir : option string) (relativePath : string)
  : string :=
  match rootDir with
  | Some root =>
      if JS.truthy rootDir then removeFirst relativePath (root ++ "/")
      else relativePath
  | None => relativePath
  end.

(** The entries the loop does not skip. *)
Definition processed (rootDir : option string) (e : ZipEntry) : bool :=
  negb (zip_dir e || JS.includes (zip_path e) "__MACOSX/")
  && negb ((String.length (cleanPath rootDir (zip_path e)) =? 0)%nat
           || bool_decide (Some (cleanPath rootDir (zip_path e)) = rootDir)).

Record Extraction := {
  ex_files : FileSystemTree;
  ex_packageManager : PackageManager;
  ex_hasPackageJson : bool
}.

(** One turn of the loop over the entries. *)
Definition extractEntry (rootDir : option string) (acc : Extraction)
           (e : ZipEntry) : Extraction :=
  if processed rootDir e then
    let path := cleanPath rootDir (zip_path e) in
    {| ex_files := setFileInTree (ex_files acc) path (zip_contents e);
       ex_packageManager :=
         if String.eqb path "package.json" then ex_packageManager acc
         else if String.eqb path "pnpm-lock.yaml"
                 || String.eqb path "pnpm-lock.yml" then pnpm
         else if String.eqb path "yarn.lock" then yarn
         else ex_packageManager acc;
       ex_hasPackageJson :=
         String.eqb path "package.json" || ex_hasPackageJson acc |}
  else acc.

(** What [syncRepository] returns for the entries of an archive. *)
Definition extract (zipFiles : list ZipEntry) : Extraction :=
  fold_left (extractEntry (findRootDirectory zipFiles)) zipFiles
            {| ex_files := []; ex_packageManager := npm;
               ex_hasPackageJson := false |}.

(** The paths the loop writes, in order. *)
Definition keptPaths (rootDir : option string) (zipFiles : list ZipEntry)
  : list string :=
  map (fun e => cleanPath rootDir (zip_path e))
      (List.filter (processed rootDir) zipFiles).

(** The lock files the loop looks for. *)
Definition lockOf (path : string) : option PackageManager :=
  if String.eqb path "pnpm-lock.yaml" || String.eqb path "pnpm-lock.yml"
  then Some pnpm
  else if String.eqb path "yarn.lock" then Some yarn
  else None.

(** [a] is a prefix of [b], part by part. *)
Fixpoint leads (a b : list string) : bool :=
  match a, b with
  | [], _ => true
  | x :: a', y :: b' => String.eqb x y && leads a' b'
  | _ :: _, [] => false
  end.

(** No written path runs through [name] as a directory. *)
Definition atRootOnly (name : string) (paths : list string) : Prop :=
  Forall (fun path => firstPart path = name -> path = name) paths.

End Sync.

(* ===================================================================== *)
(** * Strings and the output classifier *)
(* ===================================================================== *)

Import Orchestrator Store.

Lemma append_cons (c : ascii) (a b : string) :
  String c a ++ b = String c (a ++ b).
Proof. reflexivity. Qed.

Lemma append_nil_r (s : string) : s ++ "" = s.
Proof. induction s; [reflexivity|]. rewrite append_cons. congruence. Qed.

Lemma append_assoc (a b c : string) : (a ++ b) ++ c = a ++ (b ++ c).
Proof. induction a; [reflexivity|]. rewrite !append_cons. congruence. Qed.













Lemma consoleLines_pushLog text level w :
  consoleLines (store (pushLog text level w))
  = (consoleLines (store w) ++ [{| Console.line_level := level; Console.line_text := text |}])%list.
Proof. reflexivity. Qed.

Lemma consoleLines_onInstallChunk chunk w :
  consoleLines (store (onInstallChunk chunk w)) = consoleLines (store w).
Proof.
  unfold onInstallChunk.
  destruct (String.length (JS.trim chunk) =? 0)%nat; [reflexivity|].
  destruct (_ <? 95)%Z; reflexivity.
Qed.

Lemma consoleLines_pushAll (ls : list Console.ConsoleLine) w :
  consoleLines (store (fold_left (fun w line =>
       pushLog (Console.line_text line) (Console.line_level line) w) ls w))
  = (consoleLines (store w) ++ ls)%list.
Proof.
  revert w. induction ls as [|[lv tx] ls IH]; intros w; simpl.
  - now rewrite app_nil_r.
  - rewrite IH, consoleLines_pushLog. simpl. now rewrite <- app_assoc.
Qed.


(* ===================================================================== *)
(** * The template detector *)
(* ===================================================================== *)

Import Detector Signals.




(** C5, the code at the failing input.  The manifest declares [next] at the
    empty version range beside [vite] at "5.0.0": both keys are present in
    [dependencies], and the detector answers [vite-react-starter] at [high],
    while the same manifest with [next] at "14.0.0" gives [nextjs-starter]
    and [inferDevCommand], which tests the presence of the key, takes the
    first manifest for a Next.js project.  The same happens for every
    manifest whose merged [next] entry is the empty string, when no Next.js
    configuration file or indicator is there; so presence of both keys does
    not give [nextjs-starter]. *)
Theorem C5_unversioned_next_loses_to_vite :
  let pj := nextUnversionedAndVite in
  let m := manifestOf pj in
  depsOf (packageJson m) !! "next" = Some ""
  /\ depsOf (packageJson m) !! "vite" = Some "5.0.0"
  /\ detectWorkspaceTemplate m
     = {| templateId := Some vite_react_starter; confidence := high;
          reason := "Vite dependency found in package.json" |}
  /\ detectWorkspaceTemplate (manifestOf nextAndVite)
     = {| templateId := Some nextjs_starter; confidence := high;
          reason := "Next.js dependency found in package.json" |}
  /\ Workspace.framework <$> Workspace.inferDevCommand (Some pj) Workspace.npm None
     = Some Workspace.next
  /\ (forall m' : RepositoryManifest,
        allDepsOf (packageJson m') !! "next" = Some "" ->
        JS.truthy (allDepsOf (packageJson m') !! "vite") = true ->
        flag (hasNextConfig m') = false ->
        nextNamed (repoName m') (repoDescription m') = false ->
        templateId (detectWorkspaceTemplate m') = Some vite_react_starter
        /\ confidence (detectWorkspaceTemplate m') = high)
  /\ ~ (forall (m' : RepositoryManifest) (p : PackageJson) (deps : gmap string string),
          packageJson m' = Some p -> dependencies p = Some deps ->
          is_Some (deps !! "next") -> is_Some (deps !! "vite") ->
          templateId (detectWorkspaceTemplate m') = Some nextjs_starter
          /\ confidence (detectWorkspaceTemplate m') = high).
Proof.
  cbv zeta.
  do 5 (split; [vm_compute; reflexivity|]).
  split.
  - intros m' Hnext Hvite Hcfg Hnamed.
    unfold detectWorkspaceTemplate, detectNextJs, detectVite.
    unfold allDepsOf, nextNamed in *. cbv zeta.
    rewrite Hnext, Hcfg, Hnamed, Hvite. simpl. split; reflexivity.
  - intros H.
    destruct (H (manifestOf nextUnversionedAndVite) nextUnversionedAndVite
                (<["next" := ""]> (<["vite" := "5.0.0"]> ∅))
                eq_refl eq_refl) as [Hid _].
    + exists "". vm_compute. reflexivity.
    + exists "5.0.0". vm_compute. reflexivity.
    + vm_compute in Hid. discriminate Hid.
Qed.

(** The frameworks are tried in the order next, vite, create-react-app and
    the first one with a signal gives the result, whatever the later ones
    would say.  A merged dependency entry [next] with a non-empty version
    gives [nextjs-starter] at [high], also beside [vite]. *)
Theorem detector_framework_priority (m : RepositoryManifest) :
  let pj := packageJson m in
  let name := repoName m in
  let desc := repoDescription m in
  let nextResult := detectNextJs pj (flag (hasNextConfig m)) name desc in
  let viteResult := detectVite pj (flag (hasViteConfig m)) name desc in
  let craResult := detectCreateReactApp pj (flag (hasYarnLock m)) name desc in
  (forall r, nextResult = Some r ->
             detectWorkspaceTemplate m = r /\ templateId r = Some nextjs_starter)
  /\ (forall r, nextResult = None -> viteResult = Some r ->
                detectWorkspaceTemplate m = r
                /\ templateId r = Some vite_react_starter)
  /\ (forall r, nextResult = None -> viteResult = None -> craResult = Some r ->
                detectWorkspaceTemplate m = r /\ templateId r = Some cra_starter)
  /\ (nextResult = None -> viteResult = None -> craResult = None ->
      detectWorkspaceTemplate m = noMatch)
  /\ (JS.truthy (allDepsOf pj !! "next") = true ->
      templateId (detectWorkspaceTemplate m) = Some nextjs_starter
      /\ confidence (detectWorkspaceTemplate m) = high)
  /\ (forall (p : PackageJson) (deps : gmap string string) (v : string),
        pj = Some p -> dependencies p = Some deps ->
        devDepsOf pj !! "next" = None ->
        deps !! "next" = Some v -> v <> "" -> is_Some (deps !! "vite") ->
        templateId (detectWorkspaceTemplate m) = Some nextjs_starter
        /\ confidence (detectWorkspaceTemplate m) = high).
Proof.
  cbv zeta.
  assert (Hnext : JS.truthy (allDepsOf (packageJson m) !! "next") = true ->
                  templateId (detectWorkspaceTemplate m) = Some nextjs_starter
                  /\ confidence (detectWorkspaceTemplate m) = high).
  { intros Ht. unfold detectWorkspaceTemplate, detectNextJs.
    unfold allDepsOf in Ht. cbv zeta. rewrite Ht. split; reflexivity. }
  repeat apply conj.
  - intros r Hr. unfold detectWorkspaceTemplate. rewrite Hr. split; [reflexivity|].
    unfold detectNextJs in Hr. cbv zeta in Hr.
    repeat match type of Hr with
           | (if ?b then _ else _) = _ => destruct b
           end; inversion Hr; reflexivity.
  - intros r Hn Hr. unfold detectWorkspaceTemplate. rewrite Hn, Hr.
    split; [reflexivity|].
    unfold detectVite in Hr. cbv zeta in Hr.
    repeat match type of Hr with
           | (if ?b then _ else _) = _ => destruct b
           end; inversion Hr; reflexivity.
  - intros r Hn Hv Hr. unfold detectWorkspaceTemplate. rewrite Hn, Hv, Hr.
    split; [reflexivity|].
    unfold detectCreateReactApp in Hr. cbv zeta in Hr.
    repeat match type of Hr with
           | (if ?b then _ else _) = _ => destruct b
           end; inversion Hr; reflexivity.
  - intros Hn Hv Hc. unfold detectWorkspaceTemplate. now rewrite Hn, Hv, Hc.
  - exact Hnext.
  - intros p deps v Hp Hd Hdev Hv Hne _. apply Hnext.
    unfold allDepsOf, spread. rewrite lookup_union_r by exact Hdev.
    unfold depsOf, orEmpty. rewrite Hp. simpl. rewrite Hd. simpl. rewrite Hv.
    destruct v; [congruence|reflexivity].
Qed.



Lemma detectNextJs_high pj cfg n d :
  (exists r, detectNextJs pj cfg n d = Some r /\ confidence r = high)
  <-> JS.truthy (allDepsOf pj !! "next") = true.
Proof.
  unfold detectNextJs, allDepsOf. cbv zeta.
  destruct (JS.truthy _).
  - split; [reflexivity|]. intros _. eexists. split; reflexivity.
  - split; [|discriminate]. intros [r [Hr Hc]].
    destruct cfg; [inversion Hr; subst; discriminate|].
    destruct (_ || _); [inversion Hr; subst; discriminate|discriminate].
Qed.

Lemma detectVite_high pj cfg n d :
  (exists r, detectVite pj cfg n d = Some r /\ confidence r = high)
  <-> JS.truthy (allDepsOf pj !! "vite") = true.
Proof.
  unfold detectVite, allDepsOf. cbv zeta.
  destruct (JS.truthy _).
  - split; [reflexivity|]. intros _. eexists. split; reflexivity.
  - split; [|discriminate]. intros [r [Hr Hc]].
    destruct cfg; [inversion Hr; subst; discriminate|].
    destruct (_ || _); [inversion Hr; subst; discriminate|discriminate].
Qed.

Lemma detectCreateReactApp_high pj yarn n d :
  (exists r, detectCreateReactApp pj yarn n d = Some r /\ confidence r = high)
  <-> JS.truthy (depsOf pj !! "react-scripts") = true.
Proof.
  unfold detectCreateReactApp. cbv zeta.
  destruct (JS.truthy _).
  - split; [reflexivity|]. intros _. eexists. split; reflexivity.
  - split; [|discriminate]. intros [r [Hr Hc]].
    repeat match type of Hr with
           | (if ?b then _ else _) = _ => destruct b
           end; inversion Hr; subst; discriminate.
Qed.

(** C10.  The detector returns [cra-starter] at [high] only when
    [react-scripts] is declared under [dependencies]: with no such entry
    there (also when [devDependencies] has one) the result is never
    [cra-starter] at [high].  The [high] signals of Next.js and Vite read
    the merged table, in which an entry of [devDependencies] counts (and
    overrides the one of [dependencies]). *)
Theorem C10_cra_high_reads_dependencies_only (m : RepositoryManifest) :
  let pj := packageJson m in
  (depsOf pj !! "react-scripts" = None ->
   ~ (templateId (detectWorkspaceTemplate m) = Some cra_starter
      /\ confidence (detectWorkspaceTemplate m) = high))
  /\ (forall yarn n d,
        (exists r, detectCreateReactApp pj yarn n d = Some r
                   /\ confidence r = high)
        <-> JS.truthy (depsOf pj !! "react-scripts") = true)
  /\ (forall cfg n d,
        (exists r, detectNextJs pj cfg n d = Some r /\ confidence r = high)
        <-> JS.truthy (allDepsOf pj !! "next") = true)
  /\ (forall cfg n d,
        (exists r, detectVite pj cfg n d = Some r /\ confidence r = high)
        <-> JS.truthy (allDepsOf pj !! "vite") = true)
  /\ (forall key,
        allDepsOf pj !! key
        = match devDepsOf pj !! key with
          | Some v => Some v
          | None => depsOf pj !! key
          end)
  /\ detectWorkspaceTemplate (manifestOf craDevOnly) = noMatch
  /\ detectWorkspaceTemplate (manifestOf nextDevOnly)
     = {| templateId := Some nextjs_starter; confidence := high;
          reason := "Next.js dependency found in package.json" |}.
Proof.
  cbv zeta. repeat apply conj.
  - intros Hnone [Hid Hconf].
    unfold detectWorkspaceTemplate in Hid, Hconf.
    destruct (detectNextJs _ _ _ _) as [r|] eqn:Hn.
    { unfold detectNextJs in Hn. cbv zeta in Hn.
      repeat match type of Hn with
             | (if ?b then _ else _) = _ => destruct b
             end; inversion Hn; subst; discriminate. }
    destruct (detectVite _ _ _ _) as [r|] eqn:Hv.
    { unfold detectVite in Hv. cbv zeta in Hv.
      repeat match type of Hv with
             | (if ?b then _ else _) = _ => destruct b
             end; inversion Hv; subst; discriminate. }
    destruct (detectCreateReactApp _ _ _ _) as [r|] eqn:Hc;
      [|discriminate].
    assert (Ht : JS.truthy (depsOf (packageJson m) !! "react-scripts") = true).
    { apply (detectCreateReactApp_high _ (flag (hasYarnLock m)) (repoName m)
                                       (repoDescription m)).
      exists r. auto. }
    rewrite Hnone in Ht. discriminate Ht.
  - intros. apply detectCreateReactApp_high.
  - intros. apply detectNextJs_high.
  - intros. apply detectVite_high.
  - intros key. unfold allDepsOf, spread. rewrite lookup_union.
    destruct (devDepsOf _ !! key), (depsOf _ !! key); reflexivity.
  - vm_compute. reflexivity.
  - vm_compute. reflexivity.
Qed.

(** C10, witness: [react-scripts] under [devDependencies] only. *)
Lemma C10_witness :
  depsOf (packageJson (manifestOf craDevOnly)) !! "react-scripts" = None
  /\ is_Some (devDepsOf (packageJson (manifestOf craDevOnly)) !! "react-scripts")
  /\ ~ (templateId (detectWorkspaceTemplate (manifestOf craDevOnly)) = Some cra_starter
        /\ confidence (detectWorkspaceTemplate (manifestOf craDevOnly)) = high).
Proof.
  assert (H : depsOf (packageJson (manifestOf craDevOnly)) !! "react-scripts" = None)
    by (vm_compute; reflexivity).
  split; [exact H|]. split; [exists "5.0.1"; vm_compute; reflexivity|].
  exact (proj1 (C10_cra_high_reads_dependencies_only (manifestOf craDevOnly)) H).
Defined.

(* ===================================================================== *)
(** * Run-command inference *)
(* ===================================================================== *)

Import Workspace.

Lemma has_key_spread_l (a b : gmap string string) (key : string) :
  is_Some (a !! key) -> has_key (spread a b) key = true.
Proof.
  intros H. unfold has_key, spread. apply bool_decide_eq_true.
  apply lookup_union_is_Some. now right.
Qed.

(** C7.  Whenever the [dependencies] table of the manifest has the key
    [next], whatever the scripts, the other tables, the package manager and
    the prompt, the inference gives framework [next], script [dev], port
    3000 and the command "npm run dev", "yarn dev" or "pnpm dev". *)
Theorem C7_next_dependency_runs_dev (pkg : PackageJson)
        (packageManager : PackageManager) (promptFn : option PromptFn)
        (deps : gmap string string) :
  dependencies pkg = Some deps ->
  is_Some (deps !! "next") ->
  inferDevCommand (Some pkg) packageManager promptFn
  = Some (nextDevCommand packageManager).
Proof.
  intros Hd Hnext. unfold inferDevCommand. cbv zeta.
  rewrite Hd. cbn [default orEmpty].
  rewrite (has_key_spread_l deps _ "next" Hnext).
  rewrite orb_true_r. cbn [orb fst snd].
  destruct packageManager; reflexivity.
Qed.

(** C7, witness: the Next.js manifest under yarn. *)
Lemma C7_witness :
  is_Some (<["next" := "14.2.4"]> (<["react" := "18.2.0"]> (∅ : gmap string string)) !! "next")
  /\ inferDevCommand (Some Scenario.nextManifest) yarn None
     = Some (nextDevCommand yarn).
Proof.
  assert (H : is_Some (<["next" := "14.2.4"]> (<["react" := "18.2.0"]> (∅ : gmap string string)) !! "next")).
  { exists "14.2.4". vm_compute. reflexivity. }
  split; [exact H|].
  exact (C7_next_dependency_runs_dev Scenario.nextManifest yarn None _ eq_refl H).
Defined.

(* ===================================================================== *)
(** * The orchestrator *)
(* ===================================================================== *)

Import Scenario.

Create HintDb contained.

Lemma contained_caught e w : Contained (snd (caught e w)).
Proof. constructor. Qed.

Lemma contained_finish w : Contained (snd (finish w)).
Proof. constructor. Qed.

#[local] Hint Resolve contained_caught contained_finish contained_done : contained.

Lemma contained_runDevServer instance devCommand defaultPort w :
  Contained (snd (runDevServer instance devCommand defaultPort caught finish w)).
Proof.
  unfold runDevServer. cbn [snd].
  apply contained_await; [|reflexivity].
  intros [process|e] w'; auto with contained.
Qed.

Lemma contained_afterInstall env repository instance devCommand usedFallback code w :
  Contained (snd (afterInstall env repository instance devCommand usedFallback code w)).
Proof.
  unfold afterInstall.
  destruct (bool_decide _); [auto with contained|].
  destruct (negb _); [auto with contained|].
  apply contained_runDevServer.
Qed.

Lemma contained_runInstall instance pm kont w :
  (forall code w', Contained (snd (kont code w'))) ->
  Contained (snd (runInstall instance pm caught kont w)).
Proof.
  intros Hk. unfold runInstall. cbn [snd].
  apply contained_await; [|reflexivity].
  intros [process|e] w'; [|auto with contained]. cbn [snd].
  apply contained_await; [|reflexivity].
  intros [exitCode|e] w''; [|auto with contained].
  cbv zeta. destruct (installTerminationCause _) as [[]|]; apply Hk.
Qed.

Lemma contained_afterMount env repository instance files pm hasPkg usedFallback w :
  Contained (snd (afterMount env repository instance files pm hasPkg usedFallback w)).
Proof.
  unfold afterMount. cbv zeta.
  destruct (negb hasPkg); [auto with contained|].
  destruct (Workspace.inferDevCommand _ _ _); [|auto with contained].
  apply contained_runInstall. intros. apply contained_afterInstall.
Qed.

Lemma contained_mountAndRun env repository instance files pm hasPkg usedFallback w :
  Contained (snd (mountAndRun env repository instance files pm hasPkg usedFallback w)).
Proof.
  unfold mountAndRun. destruct instance; [|auto with contained]. cbn [snd].
  apply contained_await; [|reflexivity].
  intros [[]|e] w'; [apply contained_afterMount|auto with contained].
Qed.

Lemma contained_bootWebContainer env kont w :
  (forall i w', Contained (snd (kont i w'))) ->
  Contained (snd (bootWebContainer env caught kont w)).
Proof.
  intros Hk. unfold bootWebContainer.
  destruct (webcontainerInstance (globals w)); [apply Hk|]. cbn [snd].
  apply contained_await; [|reflexivity].
  intros [[]|e] w1; [|auto with contained].
  destruct (negb _); [auto with contained|]. cbn [snd].
  apply contained_await; [|reflexivity].
  intros [i|e] w2; [|auto with contained]. cbn [snd].
  apply contained_await; [|discriminate].
  intros _ w3.
  destruct (webcontainerInstance (globals w3)); [apply Hk|].
  destruct (listenersBound _); [apply Hk|auto with contained].
Qed.

Lemma contained_terminateDevServer kont w :
  (forall w', Contained (snd (kont w'))) ->
  Contained (snd (terminateDevServer kont w)).
Proof.
  intros Hk. unfold terminateDevServer.
  destruct (devProcess (globals w)); [|apply Hk]. cbn [snd].
  apply contained_await; [|discriminate]. intros _ w'. apply Hk.
Qed.

Lemma contained_prepareFreshInstance kont w :
  (forall w', Contained (snd (kont w'))) ->
  Contained (snd (prepareFreshInstance kont w)).
Proof.
  intros Hk. unfold prepareFreshInstance.
  destruct (installProcess (globals w));
    [|now apply contained_terminateDevServer]. cbn [snd].
  apply contained_await; [|discriminate]. intros _ w'.
  now apply contained_terminateDevServer.
Qed.

Lemma contained_fallBackToTemplate env repository instance template w :
  Contained (snd (fallBackToTemplate env repository instance template w)).
Proof.
  unfold fallBackToTemplate. destruct template; [|auto with contained].
  apply contained_mountAndRun.
Qed.

Lemma contained_launchWorkspace env repository w :
  hasWindow env = true -> Contained (snd (launchWorkspace env repository w)).
Proof.
  intros Hw. unfold launchWorkspace, ensureClientEnvironment. rewrite Hw.
  apply contained_prepareFreshInstance. intros w1.
  apply contained_bootWebContainer. intros i w2. cbn [snd].
  apply contained_await; [|discriminate].
  intros synced w3. cbv zeta.
  destruct (result _); [apply contained_mountAndRun|].
  apply contained_fallBackToTemplate.
Qed.

Lemma contained_runs host t : Contained t -> forall w, snd (runTask host t w) = Resolved.
Proof.
  induction 1 as [|r k Hk IH Hf]; intros w; [reflexivity|].
  cbn [runTask]. specialize (IH (host r) w).
  destruct (k (host r) w) as [w' t']. apply IH.
Qed.

Section SingleRun.

Variable host : Host.

Lemma run_await w r k : run host (w, Await r k) = run host (k (host r) w).
Proof. unfold run. cbn [snd fst runTask]. now destruct (k (host r) w). Qed.

Lemma started_caught port e w : startedWith host port (fst (run host (caught e w))).
Proof. unfold startedWith. intros H. discriminate H. Qed.


Lemma started_runDevServer instance devCommand port w :
  installSucceeded host ->
  startedWith host port (fst (run host (runDevServer instance devCommand port caught finish w))).
Proof.
  intros HE.
  unfold runDevServer. rewrite run_await.
  destruct (host (ReqSpawn _ _ _ (Some _))) as [dev|e]; [|apply started_caught].
  intros _. split; [reflexivity|]. exact HE.
Qed.

Lemma started_afterInstall env repository instance devCommand (usedFallback : bool) code w :
  installTerminationCause (globals w) = None ->
  (code = 0 -> installSucceeded host) ->
  startedWith host (if usedFallback then fallbackPort env repository else 3000)
     (fst (run host (afterInstall env repository instance devCommand usedFallback code w))).
Proof.
  intros Hc HE. unfold afterInstall. rewrite Hc.
  rewrite bool_decide_eq_false_2 by discriminate.
  destruct (code =? 0) eqn:Hcode; cbn [negb]; [|apply started_caught].
  apply Z.eqb_eq in Hcode.
  apply started_runDevServer; auto.
Qed.

Lemma started_runInstall instance pm kont port w :
  (forall code w',
      installTerminationCause (globals w') = None ->
      (code = 0 -> installSucceeded host) ->
      startedWith host port (fst (run host (kont code w')))) ->
  startedWith host port (fst (run host (runInstall instance pm caught kont w))).
Proof.
  intros Hk. unfold runInstall. rewrite run_await.
  destruct (host (ReqSpawn instance (Workspace.pmName pm) ["install"] None))
    as [process|e] eqn:Hspawn; [|apply started_caught].
  rewrite run_await.
  destruct (host (ReqExit process)) as [exitCode|e] eqn:Hexit;
    [|apply started_caught].
  assert (HE : exitCode = 0 -> installSucceeded host).
  { intros ->. exists instance, pm, process. auto. }
  cbv zeta.
  destruct (installTerminationCause _) as [[]|] eqn:Hc;
    [discriminate Hc|discriminate Hc|].
  apply Hk; [reflexivity|exact HE].
Qed.

Lemma started_afterMount env repository instance files pm hasPkg (usedFallback : bool) w :
  startedWith host (if usedFallback then fallbackPort env repository else 3000)
              (fst (run host (afterMount env repository instance files pm
                                         hasPkg usedFallback w))).
Proof.
  unfold afterMount. cbv zeta.
  destruct (negb hasPkg); [apply started_caught|].
  destruct (Workspace.inferDevCommand _ _ _) as [devCommand|];
    [|apply started_caught].
  apply started_runInstall. intros code w' Hc HE.
  now apply started_afterInstall.
Qed.
Lemma started_mountAndRun env repository instance files pm hasPkg (usedFallback : bool) w :
  startedWith host (if usedFallback then fallbackPort env repository else 3000)
              (fst (run host (mountAndRun env repository instance files pm
                                          hasPkg usedFallback w))).
Proof.
  unfold mountAndRun. destruct instance as [i|]; [|apply started_caught].
  rewrite run_await. destruct (host (ReqMount i files)) as [[]|e];
    [apply started_afterMount|apply started_caught].
Qed.

Lemma started_bootWebContainer port env kont w :
  (forall i w', startedWith host port (fst (run host (kont i w')))) ->
  startedWith host port (fst (run host (bootWebContainer env caught kont w))).
Proof.
  intros Hk. unfold bootWebContainer.
  destruct (webcontainerInstance (globals w)); [apply Hk|].
  rewrite run_await. destruct (host ReqImport) as [[]|e]; [|apply started_caught].
  destruct (negb _); [apply started_caught|].
  rewrite run_await. destruct (host ReqBoot) as [i|e]; [|apply started_caught].
  rewrite run_await.
  destruct (webcontainerInstance _); [apply Hk|].
  destruct (listenersBound _); [apply Hk|apply started_caught].
Qed.

Lemma started_prepareFreshInstance port kont w :
  (forall w', startedWith host port (fst (run host (kont w')))) ->
  startedWith host port (fst (run host (prepareFreshInstance kont w))).
Proof.
  intros Hk. unfold prepareFreshInstance, terminateDevServer.
  destruct (installProcess (globals w)).
  - rewrite run_await.
    destruct (devProcess _); [rewrite run_await|]; apply Hk.
  - destruct (devProcess _); [rewrite run_await|]; apply Hk.
Qed.

Lemma started_fallBackToTemplate env repository instance template w :
  startedWith host (fallbackPort env repository)
              (fst (run host (fallBackToTemplate env repository instance
                                                 template w))).
Proof.
  unfold fallBackToTemplate. destruct template; [|apply started_caught].
  apply (started_mountAndRun env repository instance _ _ _ true).
Qed.

Lemma started_launchWorkspace env repository w :
  hasWindow env = true ->
  startedWith host (provisionalPort env host repository)
              (finalWorld env host repository w).
Proof.
  intros Hw. unfold finalWorld, launchWorkspace, ensureClientEnvironment.
  rewrite Hw.
  apply started_prepareFreshInstance. intros w1.
  apply started_bootWebContainer. intros i w2.
  rewrite run_await. unfold provisionalPort, syncSucceeds.
  destruct (host (ReqSync _ _ _)) as [report|e]; cbv zeta.
  - destruct (result report).
    + apply (started_mountAndRun env repository i _ _ _ false).
    + apply started_fallBackToTemplate.
  - cbn [result progress fold_left]. apply started_fallBackToTemplate.
Qed.

End SingleRun.

(** C9.  With no install process [cancelInstallation] returns at once and
    leaves the whole state as it was.  With a live one it sets the
    termination cause to [user], calls [kill] and suspends; when the kill
    settles, fulfilled or rejected, it clears the handle, sets the status to
    [idle] with progress 0 and the message "Installation cancelled by
    user.", logs a warning and returns.  It never rejects. *)
Theorem C9_cancelInstallation (w : World) :
  (installProcess (globals w) = None ->
     cancelInstallation w = (w, Done Resolved))
  /\ (forall p, installProcess (globals w) = Some p ->
      exists k,
        cancelInstallation w
          = (record (Called (HKill p))
                    (set_installTerminationCause (Some user) w),
             Await (ReqKill p) k)
        /\ installTerminationCause
             (globals (fst (cancelInstallation w))) = Some user
        /\ installProcess (globals (fst (cancelInstallation w))) = Some p
        /\ store (fst (cancelInstallation w)) = store w
        /\ forall (answer : Settled unit) (w' : World),
             let after := fst (k answer w') in
             snd (k answer w') = Done Resolved
             /\ installProcess (globals after) = None
             /\ installTerminationCause (globals after)
                = installTerminationCause (globals w')
             /\ devProcess (globals after) = devProcess (globals w')
             /\ status (webContainer (store after)) = st_idle
             /\ installProgress (webContainer (store after)) = 0
             /\ installPhase (webContainer (store after)) = None
             /\ lastMessage (webContainer (store after))
                = Some "Installation cancelled by user."
             /\ error (webContainer (store after))
                = error (webContainer (store w'))
             /\ consoleLines (store after)
                = (consoleLines (store w') ++ [cancelledLine])%list)
  /\ forall host, snd (run host (cancelInstallation w)) = Resolved.
Proof.
  unfold cancelInstallation. repeat apply conj.
  - intros ->. reflexivity.
  - intros p H. rewrite H. eexists. split; [reflexivity|].
    repeat apply conj; try reflexivity; [exact H|].
    intros answer w'. cbv zeta. repeat apply conj; reflexivity.
  - intros host. unfold run. destruct (installProcess (globals w)); reflexivity.
Qed.

(** C1, the code at the failing input.  A second launch while the first is
    installing marks process 1 [restart] and kills it before spawning
    anything; when process 1 then exits with code 143 the first launch
    throws, and the status becomes [error] with the install-failure message
    in the record and on the console.  The second launch goes on and ends up
    with one live install process, the stale message still shown. *)
Theorem C1_superseded_install_reported_as_error :
  let installing := world (play launchUntilInstalling fresh) in
  let superseded := world (play relaunch fresh) in
  let final := play relaunchUntilInstalling fresh in
  (* the first launch is installing, process 1 is live *)
  status (webContainer (store installing)) = st_installing_dependencies
  /\ installProcess (globals installing) = Some 1%nat
  (* the second launch marked it restart and killed it; nothing new was
     spawned before *)
  /\ installTerminationCause (globals superseded) = Some restart
  /\ killed (journal superseded) = [1%nat]
  /\ spawned (journal superseded) = [HSpawn 1%nat "npm" ["install"] None]
  (* its exit with code 143 is reported as an error *)
  /\ reported superseded
     = (st_error,
        Some "Dependency installation failed with exit code 143. Check the console for details.")
  /\ In {| Console.line_level := Console.error;
           Console.line_text := "Dependency installation failed with exit code 143. Check the console for details." |}
        (consoleLines (store superseded))
  /\ nth_error (calls (play relaunch fresh)) 0 = Some (Done Resolved)
  (* one install process is live once the second launch is installing, and
     the message of the superseded one is still shown as the error *)
  /\ installProcess (globals (world final)) = Some 2%nat
  /\ reported (world final)
     = (st_installing_dependencies,
        Some "Dependency installation failed with exit code 143. Check the console for details.").
Proof.
  cbv zeta. repeat apply conj; try (vm_compute; reflexivity).
  vm_compute. tauto.
Qed.

(** C2, counterexample.  Without [window] the environment check throws
    before the [try] block and the call rejects; the state is untouched. *)
Lemma C2_launch_rejects_outside_browser :
  hasWindow server = false
  /\ launchWorkspace server repository initialWorld
     = (initialWorld, Done (Rejected notInBrowser))
  /\ (forall host,
        run host (launchWorkspace server repository initialWorld)
        = (initialWorld, Rejected notInBrowser))
  /\ ~ (forall env repository' w host,
          snd (run host (launchWorkspace env repository' w)) = Resolved).
Proof.
  repeat apply conj; try reflexivity.
  intros H.
  specialize (H server repository initialWorld
                (obliging 1%nat (treeOf nextManifestText) 1%nat 0)).
  discriminate H.
Qed.

Lemma failedWith_caught e w : failedWith (messageOf e) (fst (caught e w)).
Proof.
  unfold failedWith. repeat apply conj; try reflexivity.
  cbn. apply last_snoc.
Qed.

Section SingleRunEnds.

Variable host : Host.

Lemma ends_caught e w : endsWell (fst (run host (caught e w))).
Proof. right. exists (messageOf e). apply failedWith_caught. Qed.

Lemma status_bindInstanceEvents i w :
  status (webContainer (store (bindInstanceEvents i w)))
  = status (webContainer (store w)).
Proof. unfold bindInstanceEvents. destruct (listenersBound _); reflexivity. Qed.

Lemma ends_runDevServer instance devCommand port w :
  status (webContainer (store w)) = st_starting_dev_server ->
  endsWell (fst (run host (runDevServer instance devCommand port caught finish w))).
Proof.
  intros Hs. unfold runDevServer. rewrite run_await.
  destruct (host (ReqSpawn _ _ _ (Some _))) as [dev|e]; [|apply ends_caught].
  left. cbv zeta.
  destruct (listenersBound _); [exact Hs|].
  unfold finish, run. cbn [fst snd runTask].
  change (status (webContainer (store (bindInstanceEvents instance
            (add_exitWatcher dev (add_outputPipe dev false
               (set_devTerminationCause None (set_devProcess (Some dev)
                  (record (Called (HSpawn instance (Workspace.command devCommand)
                      (Workspace.args devCommand)
                      (Some {| PORT := if Workspace.port devCommand =? 0 then None
                                       else Some (JS.string_of_Z (Workspace.port devCommand));
                               BROWSER := "none" |}))) w))))))))
          = st_starting_dev_server).
  rewrite status_bindInstanceEvents. exact Hs.
Qed.

Lemma ends_afterInstall env repository instance devCommand (usedFallback : bool) code w :
  installTerminationCause (globals w) = None ->
  endsWell (fst (run host (afterInstall env repository instance devCommand
                                        usedFallback code w))).
Proof.
  intros Hc. unfold afterInstall. rewrite Hc.
  rewrite bool_decide_eq_false_2 by discriminate.
  destruct (negb _); [apply ends_caught|].
  apply ends_runDevServer. reflexivity.
Qed.

Lemma ends_runInstall instance pm kont w :
  (forall code w', installTerminationCause (globals w') = None ->
                   endsWell (fst (run host (kont code w')))) ->
  endsWell (fst (run host (runInstall instance pm caught kont w))).
Proof.
  intros Hk. unfold runInstall. rewrite run_await.
  destruct (host (ReqSpawn instance (Workspace.pmName pm) ["install"] None))
    as [process|e]; [|apply ends_caught].
  rewrite run_await.
  destruct (host (ReqExit process)) as [exitCode|e]; [|apply ends_caught].
  cbv zeta.
  destruct (installTerminationCause _) as [[]|] eqn:Hc;
    [discriminate Hc|discriminate Hc|].
  apply Hk. reflexivity.
Qed.

Lemma ends_afterMount env repository instance files pm hasPkg (usedFallback : bool) w :
  endsWell (fst (run host (afterMount env repository instance files pm
                                      hasPkg usedFallback w))).
Proof.
  unfold afterMount. cbv zeta.
  destruct (negb hasPkg); [apply ends_caught|].
  destruct (Workspace.inferDevCommand _ _ _); [|apply ends_caught].
  apply ends_runInstall. intros. now apply ends_afterInstall.
Qed.

Lemma ends_mountAndRun env repository instance files pm hasPkg (usedFallback : bool) w :
  endsWell (fst (run host (mountAndRun env repository instance files pm
                                       hasPkg usedFallback w))).
Proof.
  unfold mountAndRun. destruct instance as [i|]; [|apply ends_caught].
  rewrite run_await. destruct (host (ReqMount i files)) as [[]|e];
    [apply ends_afterMount|apply ends_caught].
Qed.

Lemma ends_fallBackToTemplate env repository instance template w :
  endsWell (fst (run host (fallBackToTemplate env repository instance
                                              template w))).
Proof.
  unfold fallBackToTemplate. destruct template; [|apply ends_caught].
  apply ends_mountAndRun.
Qed.

Lemma ends_bootWebContainer env kont w :
  (forall i w', endsWell (fst (run host (kont i w')))) ->
  endsWell (fst (run host (bootWebContainer env caught kont w))).
Proof.
  intros Hk. unfold bootWebContainer.
  destruct (webcontainerInstance (globals w)); [apply Hk|].
  rewrite run_await. destruct (host ReqImport) as [[]|e]; [|apply ends_caught].
  destruct (negb _); [apply ends_caught|].
  rewrite run_await. destruct (host ReqBoot) as [i|e]; [|apply ends_caught].
  rewrite run_await.
  destruct (webcontainerInstance _); [apply Hk|].
  destruct (listenersBound _); [apply Hk|apply ends_caught].
Qed.

Lemma ends_prepareFreshInstance kont w :
  (forall w', endsWell (fst (run host (kont w')))) ->
  endsWell (fst (run host (prepareFreshInstance kont w))).
Proof.
  intros Hk. unfold prepareFreshInstance, terminateDevServer.
  destruct (installProcess (globals w)).
  - rewrite run_await.
    destruct (devProcess _); [rewrite run_await|]; apply Hk.
  - destruct (devProcess _); [rewrite run_await|]; apply Hk.
Qed.

Lemma ends_launchWorkspace env repository w :
  hasWindow env = true -> endsWell (finalWorld env host repository w).
Proof.
  intros Hw. unfold finalWorld, launchWorkspace, ensureClientEnvironment.
  rewrite Hw.
  apply ends_prepareFreshInstance. intros w1.
  apply ends_bootWebContainer. intros i w2.
  rewrite run_await. cbv zeta.
  destruct (result _); [apply ends_mountAndRun|apply ends_fallBackToTemplate].
Qed.

End SingleRunEnds.

(** C2, amended.  Where [window] is undefined the environment check, which
    stands before the [try] block, throws and the call rejects, the state
    untouched.  In a browser [launchWorkspace] never rejects, whatever the
    host answers and whatever happens between its awaits, and a launch that
    runs on its own ends either with the dev server starting or in the
    error handler, which sets the status to [error], records the message
    and logs it.  The handler is reached by every rejected import, boot,
    mount, spawn or exit promise and by every exception the launch throws
    itself: no service worker, no instance left to bind the listeners to
    or to mount on, no template, no manifest, no dev command, an install
    that ended with a non-zero code without being cancelled by the user.
    A rejected [kill] during the teardown is not an error: the call goes on
    as after a fulfilled one. *)
Theorem C2_launch_contains_failures (env : Env)
        (repository : RepositorySummary) (w : World) :
  (* outside a browser the check before the try block throws *)
  (hasWindow env = false ->
   launchWorkspace env repository w = (w, Done (Rejected notInBrowser)))
  (* in a browser the call never rejects; run on its own it ends with the
     dev server starting or in the error handler *)
  /\ (hasWindow env = true ->
      Contained (snd (launchWorkspace env repository w))
      /\ (forall host,
            snd (run host (launchWorkspace env repository w)) = Resolved)
      /\ (forall host, endsWell (finalWorld env host repository w)))
  (* the error handler *)
  /\ (forall e w',
        snd (caught e w') = Done Resolved
        /\ failedWith (messageOf e) (fst (caught e w'))
        /\ consoleLines (store (fst (caught e w')))
           = (consoleLines (store w') ++ [errorLine (messageOf e)])%list)
  (* the exceptions the launch throws itself all reach it *)
  /\ (forall kont,
        webcontainerInstance (globals w) = None ->
        hasServiceWorker env = false ->
        exists k,
          snd (bootWebContainer env caught kont w) = Await ReqImport k
          /\ forall w', k (Fulfilled tt) w' = caught noServiceWorker w')
  /\ (forall kont i,
        webcontainerInstance (globals w) = None ->
        hasServiceWorker env = true ->
        exists k1,
          snd (bootWebContainer env caught kont w) = Await ReqImport k1
          /\ forall w1,
               exists k2,
                 snd (k1 (Fulfilled tt) w1) = Await ReqBoot k2
                 /\ forall w2,
                      exists k3,
                        snd (k2 (Fulfilled i) w2)
                        = Await ReqServiceWorkerReady k3
                        /\ forall answer w3,
                             webcontainerInstance (globals w3) = None ->
                             listenersBound (globals w3) = false ->
                             k3 answer w3 = caught (nullAccess "on") w3)
  /\ (forall instance w',
        fallBackToTemplate env repository instance None w'
        = caught (noTemplate repository) w')
  /\ (forall files pm hasPkg usedFallback w',
        mountAndRun env repository None files pm hasPkg usedFallback w'
        = caught (nullAccess "mount") w')
  /\ (forall instance files pm usedFallback w',
        afterMount env repository instance files pm false usedFallback w'
        = caught noManifest
            (pushLog ("Filesystem mounted inside WebContainer ("
                        ++ (if usedFallback then "template"
                            else "synced repository") ++ ").")
                     Console.info (withStore (setFileTree files) w')))
  /\ (forall instance files pm usedFallback w',
        Workspace.inferDevCommand
          (Workspace.parsePackageJson (JSON_parse env) files) pm
          (windowPrompt env) = None ->
        snd (afterMount env repository instance files pm true usedFallback w')
        = Done Resolved
        /\ failedWith (messageOf noDevCommand)
             (fst (afterMount env repository instance files pm true
                              usedFallback w')))
  /\ (forall instance devCommand usedFallback code w',
        installTerminationCause (globals w') <> Some user ->
        code <> 0 ->
        afterInstall env repository instance devCommand usedFallback code w'
        = caught (installFailed code) w')
  (* a rejected kill in the teardown is not an error *)
  /\ (forall kont p,
        installProcess (globals w) = Some p ->
        exists k,
          snd (prepareFreshInstance kont w) = Await (ReqKill p) k
          /\ forall e w', k (RejectedWith e) w' = k (Fulfilled tt) w')
  /\ (forall kont p,
        devProcess (globals w) = Some p ->
        exists k,
          snd (terminateDevServer kont w) = Await (ReqKill p) k
          /\ forall e w', k (RejectedWith e) w' = k (Fulfilled tt) w').
Proof.
  repeat apply conj.
  - intros Hw. unfold launchWorkspace, ensureClientEnvironment.
    rewrite Hw. reflexivity.
  - intros Hw.
    pose proof (contained_launchWorkspace env repository w Hw) as Hc.
    repeat apply conj.
    + exact Hc.
    + intros host. unfold run. now apply contained_runs.
    + intros host. now apply ends_launchWorkspace.
  - intros e w'. repeat apply conj; try reflexivity. cbn. apply last_snoc.
  - intros kont Hi Hsw. unfold bootWebContainer. rewrite Hi, Hsw.
    eexists. split; reflexivity.
  - intros kont i Hi Hsw. unfold bootWebContainer. rewrite Hi, Hsw.
    eexists. split; [reflexivity|]. intros w1.
    eexists. split; [reflexivity|]. intros w2.
    eexists. split; [reflexivity|]. intros answer w3 Hnone Hunbound.
    cbv beta. now rewrite Hnone, Hunbound.
  - reflexivity.
  - reflexivity.
  - reflexivity.
  - intros instance files pm usedFallback w' Hinf.
    unfold afterMount. cbv zeta. cbn [negb]. rewrite Hinf.
    split; [reflexivity|]. apply failedWith_caught.
  - intros instance devCommand usedFallback code w' Hc Hcode.
    unfold afterInstall.
    rewrite bool_decide_eq_false_2 by exact Hc.
    apply Z.eqb_neq in Hcode. rewrite Hcode. reflexivity.
  - intros kont p Hp. unfold prepareFreshInstance. rewrite Hp.
    eexists. split; reflexivity.
  - intros kont p Hp. unfold terminateDevServer. rewrite Hp.
    eexists. split; reflexivity.
Qed.

(** C2, witness: the browser and the server environment of the
    scenarios. *)
Lemma C2_witness :
  hasWindow browser = true
  /\ Contained (snd (launchWorkspace browser repository initialWorld))
  /\ (forall host,
        snd (run host (launchWorkspace browser repository initialWorld))
        = Resolved)
  /\ (forall host, endsWell (finalWorld browser host repository initialWorld))
  /\ hasWindow server = false
  /\ launchWorkspace server repository initialWorld
     = (initialWorld, Done (Rejected notInBrowser)).
Proof.
  pose proof (C2_launch_contains_failures browser repository initialWorld)
    as [_ [H _]].
  pose proof (C2_launch_contains_failures server repository initialWorld)
    as [H' _].
  specialize (H eq_refl). destruct H as [H1 [H2 H3]].
  repeat apply conj; try assumption; try exact (H' eq_refl); reflexivity.
Defined.

(** C3, counterexample.  A synchronized repository whose manifest has no
    script: the launch fails with the inference error right after the
    status was set to installing, and no process was ever spawned. *)
Lemma C3_inference_fails_before_any_install :
  let host := obliging 1%nat (treeOf bareManifestText) 1%nat 0 in
  let final := finalWorld browser host repository initialWorld in
  reported final = (st_error, Some (messageOf noDevCommand))
  /\ In (installingUpdate Workspace.npm) (journal final)
  /\ spawned (journal final) = []
  /\ ~ (forall env repository' host' w,
          error (webContainer (store (finalWorld env host' repository' w)))
          = Some (messageOf noDevCommand) ->
          installSucceeded host'
          /\ spawned (journal (finalWorld env host' repository' w)) <> []).
Proof.
  cbv zeta.
  split; [vm_compute; reflexivity|].
  split; [|split; [vm_compute; reflexivity|]].
  - vm_compute. tauto.
  - intros H.
    destruct (H browser repository
                (obliging 1%nat (treeOf bareManifestText) 1%nat 0)
                initialWorld) as [_ Hs].
    + vm_compute. reflexivity.
    + apply Hs. vm_compute. reflexivity.
Qed.

(** C3, amended.  After the mount the status is set to
    [installing-dependencies] and the dev command is inferred at once,
    before the install process is spawned.  Without a dev command the launch
    fails with "Unable to determine the development server command..." and
    spawns nothing.  With one, its framework and label are published, the
    install subcommand is spawned as a managed process and awaited; a cancelled
    install ends the launch, an install that failed on its own is fatal, and
    only after exit code 0 is the dev server spawned. *)
Theorem C3_launch_step_order (env : Env) (repository : RepositorySummary)
        (instance : Instance) (files : Workspace.FileSystemTree)
        (pm : Workspace.PackageManager) (usedFallback : bool) (w : World) :
  let inferred :=
    Workspace.inferDevCommand
      (Workspace.parsePackageJson (JSON_parse env) files) pm
      (windowPrompt env) in
  let c := afterMount env repository instance files pm true usedFallback w in
  (* the state is set first, whatever the inference gives *)
  (exists j, journal (fst c) = (j ++ installingUpdate pm :: journal w)%list)
  (* no dev command: fatal, and nothing was spawned *)
  /\ (inferred = None ->
      snd c = Done Resolved
      /\ reported (fst c) = (st_error, Some (messageOf noDevCommand))
      /\ spawned (journal (fst c)) = spawned (journal w))
  (* a dev command: it is published and the install process is spawned *)
  /\ (forall devCommand, inferred = Some devCommand ->
      exists k,
        snd c = Await (ReqSpawn instance (Workspace.pmName pm) ["install"] None) k
        /\ status (webContainer (store (fst c))) = st_installing_dependencies
        /\ Store.framework (webContainer (store (fst c)))
           = Some (Workspace.framework devCommand)
        /\ devCommandLabel (webContainer (store (fst c)))
           = Some (Workspace.display devCommand)
        /\ Store.packageManager (webContainer (store (fst c))) = Some pm
        /\ spawned (journal (fst c))
           = HSpawn instance (Workspace.pmName pm) ["install"] None
               :: spawned (journal w)
        (* the launch then waits for that process to exit *)
        /\ forall p w1,
             exists k',
               snd (k (Fulfilled p) w1) = Await (ReqExit p) k'
               /\ installProcess (globals (fst (k (Fulfilled p) w1))) = Some p
               /\ journal (fst (k (Fulfilled p) w1)) = journal w1
               (* and goes on to the dev server only after exit code 0 *)
               /\ forall code w2,
                    (installTerminationCause (globals w2) = Some user ->
                     k' (Fulfilled code) w2
                     = finish (set_installProcess None w2))
                    /\ (installTerminationCause (globals w2) = None ->
                        code <> 0 ->
                        snd (k' (Fulfilled code) w2) = Done Resolved
                        /\ reported (fst (k' (Fulfilled code) w2))
                           = (st_error, Some (messageOf (installFailed code)))
                        /\ spawned (journal (fst (k' (Fulfilled code) w2)))
                           = spawned (journal w2))
                    /\ (installTerminationCause (globals w2) = None ->
                        code = 0 ->
                        exists e k'',
                          snd (k' (Fulfilled code) w2)
                          = Await (ReqSpawn instance
                                            (Workspace.command devCommand)
                                            (Workspace.args devCommand)
                                            (Some e)) k''
                          /\ status (webContainer
                                       (store (fst (k' (Fulfilled code) w2))))
                             = st_starting_dev_server))
  (* in a whole run: the dev server phase is reached only when the install
     process exited with code 0 *)
  /\ (forall host w0,
        hasWindow env = true ->
        status (webContainer (store (finalWorld env host repository w0)))
        = st_starting_dev_server ->
        installSucceeded host).
Proof.
  cbv zeta. unfold afterMount. cbv zeta. cbn [negb].
  destruct (Workspace.inferDevCommand _ _ _) as [devCommand|] eqn:Hinf.
  - repeat apply conj.
    + eexists [_; _]. reflexivity.
    + discriminate.
    + intros d Hd. inversion Hd; subst d. clear Hd.
      eexists. repeat apply conj; try reflexivity.
      intros p w1. eexists. repeat apply conj; try reflexivity.
      intros code w2. repeat apply conj.
      * intros Hc. cbv zeta. cbn [installTerminationCause globals set_installProcess withGlobals].
        rewrite Hc. unfold afterInstall.
        cbn [installTerminationCause globals set_installProcess withGlobals].
        rewrite Hc. rewrite bool_decide_eq_true_2 by reflexivity. reflexivity.
      * intros Hc Hcode. cbv zeta. cbn [installTerminationCause globals set_installProcess withGlobals].
        rewrite Hc. unfold afterInstall.
        cbn [installTerminationCause globals set_installProcess withGlobals updateState record withStore].
        rewrite Hc. rewrite bool_decide_eq_false_2 by discriminate.
        apply Z.eqb_neq in Hcode. rewrite Hcode. cbn [negb].
        repeat apply conj; reflexivity.
      * intros Hc ->. cbv zeta. cbn [installTerminationCause globals set_installProcess withGlobals].
        rewrite Hc. unfold afterInstall.
        cbn [installTerminationCause globals set_installProcess withGlobals updateState record withStore].
        rewrite Hc. rewrite bool_decide_eq_false_2 by discriminate.
        cbn [Z.eqb negb]. unfold runDevServer. eexists. eexists.
        split; reflexivity.
    + intros host w0 Hw Hs.
      exact (proj2 (started_launchWorkspace host env repository w0 Hw Hs)).
  - repeat apply conj.
    + eexists [_]. reflexivity.
    + intros _. repeat apply conj; reflexivity.
    + discriminate.
    + intros host w0 Hw Hs.
      exact (proj2 (started_launchWorkspace host env repository w0 Hw Hs)).
Qed.

(** C4, counterexample.  A synchronized Vite project: the inferred port is
    5173 and is passed to the process as PORT, and the published hint is
    3000. *)
Lemma C4_synced_vite_repository_is_hinted_3000 :
  let host := obliging 1%nat (treeOf viteManifestText) 1%nat 0 in
  let final := finalWorld browser host repository initialWorld in
  Workspace.port
    <$> Workspace.inferDevCommand
          (Workspace.parsePackageJson (JSON_parse browser)
                                      (treeOf viteManifestText))
          Workspace.npm (windowPrompt browser)
  = Some 5173
  /\ syncSucceeds host repository = true
  /\ status (webContainer (store final)) = st_starting_dev_server
  /\ spawned (journal final)
     = [HSpawn 1%nat "npm" ["run"; "dev"]
               (Some {| PORT := Some "5173"; BROWSER := "none" |});
        HSpawn 1%nat "npm" ["install"] None]
  /\ previewPort (webContainer (store final)) = Some 3000.
Proof. cbv zeta. repeat apply conj; vm_compute; reflexivity. Qed.

(** C4, amended.  The continuation of the dev-server spawn publishes the
    preview port hint and returns, before any listener can run; at most the
    registration of the instance listeners comes in between.  The hint is
    3000 when the repository was synchronized, and the declared port of the
    template (3000, 5173, 3000) when the template fallback was used; the
    inferred port goes to the process as PORT only. *)
Theorem C4_provisional_preview_port (env : Env)
        (repository : RepositorySummary) (instance : Instance)
        (devCommand : Workspace.DevCommandSpec) (usedFallback : bool)
        (w : World) :
  let hint := if usedFallback then fallbackPort env repository else 3000 in
  (* what launchWorkspace does once the install process exited with 0 *)
  (installTerminationCause (globals w) = None ->
   exists e k,
     snd (afterInstall env repository instance devCommand usedFallback 0 w)
     = Await (ReqSpawn instance (Workspace.command devCommand)
                       (Workspace.args devCommand) (Some e)) k
     /\ PORT e = (if Workspace.port devCommand =? 0 then None
                  else Some (JS.string_of_Z (Workspace.port devCommand)))
     (* the continuation of the spawn publishes the hint and returns *)
     /\ forall p w',
          snd (k (Fulfilled p) w') = Done Resolved
          /\ previewPort (webContainer (store (fst (k (Fulfilled p) w'))))
             = Some hint
          /\ status (webContainer (store (fst (k (Fulfilled p) w'))))
             = status (webContainer (store w'))
          /\ devProcess (globals (fst (k (Fulfilled p) w'))) = Some p
          /\ exists j,
               journal (fst (k (Fulfilled p) w'))
               = (Updated [PreviewPort (Some hint)] :: j ++ journal w')%list
               /\ (j = [] \/ j = [Called (HOn instance)]))
  (* the template's declared port *)
  /\ fallbackPort env repository
     = match default Detector.nextjs_starter (workspaceTemplateId repository) with
       | Detector.nextjs_starter => 3000
       | Detector.vite_react_starter => 5173
       | Detector.cra_starter => 3000
       end
  (* in a whole run that ends with the dev server starting *)
  /\ (forall host w0,
        hasWindow env = true ->
        status (webContainer (store (finalWorld env host repository w0)))
        = st_starting_dev_server ->
        previewPort (webContainer (store (finalWorld env host repository w0)))
        = Some (if syncSucceeds host repository then 3000
                else fallbackPort env repository)).
Proof.
  cbv zeta. repeat apply conj.
  - intros Hc. unfold afterInstall. rewrite Hc.
    rewrite bool_decide_eq_false_2 by discriminate.
    cbn [Z.eqb negb]. unfold runDevServer.
    eexists. eexists. split; [reflexivity|]. split; [reflexivity|].
    intros p w'. cbv zeta.
    cbn [listenersBound globals set_devProcess set_devTerminationCause
         add_outputPipe add_exitWatcher withGlobals].
    unfold bindInstanceEvents.
    cbn [listenersBound globals set_devProcess set_devTerminationCause
         add_outputPipe add_exitWatcher withGlobals].
    destruct (listenersBound (globals w')).
    + repeat apply conj; try reflexivity. exists []. split; [reflexivity|now left].
    + repeat apply conj; try reflexivity.
      exists [Called (HOn instance)]. split; [reflexivity|now right].
  - unfold fallbackPort.
    destruct (workspaceTemplateId repository) as [[]|]; reflexivity.
  - intros host w0 Hw Hs.
    exact (proj1 (started_launchWorkspace host env repository w0 Hw Hs)).
Qed.

(* ===================================================================== *)
(** * Run-command inference, package manager and file lookup *)
(* ===================================================================== *)

Import WorkspaceFacts.

Lemma prop_map_lower (o : list (string * string)) (key : string) :
  prop (map (fun kv => (fst kv, JS.toLowerCase (snd kv))) o) key
  = JS.toLowerCase <$> prop o key.
Proof.
  induction o as [|[k v] o IH]; [reflexivity|]. simpl.
  destruct (String.eqb k key); [reflexivity|exact IH].
Qed.

Lemma prop_keys (o : list (string * string)) (key : string) :
  existsb (String.eqb key) (keys o) = bool_decide (is_Some (prop o key)).
Proof.
  induction o as [|[k v] o IH]; [reflexivity|]. simpl.
  rewrite String.eqb_sym. destruct (String.eqb k key); [|exact IH].
  symmetry. apply bool_decide_eq_true_2. eauto.
Qed.

Lemma trim_blank (s : string) :
  (0 <? String.length (JS.trim s))%nat = true -> (0 <? String.length s)%nat = true.
Proof. destruct s; [discriminate|reflexivity]. Qed.

Lemma inferDevCommand_chain (pkg : PackageJson) (pm : PackageManager)
      (promptFn : option PromptFn) :
  inferDevCommand (Some pkg) pm promptFn
  = match chainResult pkg pm with
    | Some spec => Some spec
    | None =>
        match promptFn, keys (scriptTable pkg) with
        | Some ask, first :: _ =>
            answered pm (ask (promptMessage (keys (scriptTable pkg))) first)
        | _, _ => None
        end
    end.
Proof.
  unfold inferDevCommand, chainResult, nextSignal, viteSignal, craSignal,
    scriptMentions, hasScript, mergedDeps, scriptTable, specFor, answered.
  cbv zeta. rewrite !prop_map_lower.
  rewrite prop_keys.
  destruct (prop (default [] (scripts pkg)) "dev") as [dv|] eqn:Hdev;
    destruct (prop (default [] (scripts pkg)) "start") as [sv|] eqn:Hstart;
    cbn [fmap option_fmap option_map].
  all: repeat match goal with
         | |- context [if ?c then (?fw, Some _, _) else _] =>
             destruct c; [reflexivity|]
         end.
  all: cbn [fst snd].
  all: destruct promptFn as [ask|]; [|reflexivity].
  all: destruct (keys _) as [|first rest]; [reflexivity|].
  all: destruct (ask _ _) as [response|]; [|reflexivity].
  all: destruct (0 <? String.length (JS.trim response))%nat eqn:Ht;
    [rewrite (trim_blank _ Ht)|rewrite andb_false_r]; reflexivity.
Qed.

Lemma chainResult_shape (pkg : PackageJson) (pm : PackageManager)
      (spec : DevCommandSpec) :
  chainResult pkg pm = Some spec ->
  exists fw name p,
    spec = specFor pm fw name p
    /\ ((fw = next /\ name = "dev" /\ p = 3000)
        \/ (fw = vite /\ name = "dev" /\ p = 5173)
        \/ (fw = create_react_app /\ name = "start" /\ p = 3000)
        \/ (fw = custom /\ (name = "dev" \/ name = "start") /\ p = 3000)).
Proof.
  unfold chainResult. intros H.
  repeat match type of H with
         | (if ?c then _ else _) = _ => destruct c
         end; inversion H; subst; do 3 eexists; (split; [reflexivity|]); tauto.
Qed.

Lemma inferDevCommand_shape (pkg : option PackageJson) (pm : PackageManager)
      (ask : option PromptFn) (spec : DevCommandSpec) :
  inferDevCommand pkg pm ask = Some spec ->
  exists fw name p,
    spec = specFor pm fw name p
    /\ name <> ""
    /\ ((fw = next /\ name = "dev" /\ p = 3000)
        \/ (fw = vite /\ name = "dev" /\ p = 5173)
        \/ (fw = create_react_app /\ name = "start" /\ p = 3000)
        \/ (fw = custom /\ p = 3000)).
Proof.
  destruct pkg as [pkg|]; [|discriminate].
  rewrite inferDevCommand_chain.
  destruct (chainResult pkg pm) as [s|] eqn:Hc.
  - intros H. inversion H; subst s. clear H.
    destruct (chainResult_shape _ _ _ Hc) as (fw & name & p & -> & Hcase).
    exists fw, name, p. split; [reflexivity|].
    split; [|tauto].
    destruct Hcase as [(_ & -> & _)|[(_ & -> & _)|[(_ & -> & _)|(_ & [-> | ->] & _)]]];
      discriminate.
  - destruct ask as [ask|]; [|discriminate].
    destruct (keys _) as [|first rest]; [discriminate|].
    unfold answered. destruct (ask _ _) as [response|]; [|discriminate].
    destruct (0 <? String.length (JS.trim response))%nat eqn:Ht; [|discriminate].
    intros H. inversion H. clear H.
    exists custom, (JS.trim response), 3000. split; [reflexivity|].
    split; [|tauto].
    intros E. rewrite E in Ht. discriminate Ht.
Qed.

(** The command [inferDevCommand] returns, whatever manifest, package
    manager and prompt it is given: it runs the script through the package
    manager ([npm run <script>], [yarn <script>], [pnpm <script>]), the
    label shows exactly the command line, the script name is not empty, the
    framework is never [unknown], the port is 5173 for Vite and 3000 for
    everything else, and the Next.js and Vite commands run [dev], the
    create-react-app command [start]. *)
Theorem inferDevCommand_returns_runnable_command
        (pkg : option PackageJson) (pm : PackageManager)
        (ask : option PromptFn) (spec : DevCommandSpec) :
  inferDevCommand pkg pm ask = Some spec ->
  command spec = pmName pm
  /\ args spec = match pm with
                 | npm => ["run"; scriptName spec]
                 | _ => [scriptName spec]
                 end
  /\ display spec = JS.join " " (command spec :: args spec)
  /\ scriptName spec <> ""
  /\ framework spec <> unknown
  /\ (port spec = 5173 <-> framework spec = vite)
  /\ (framework spec <> vite -> port spec = 3000)
  /\ (framework spec = next \/ framework spec = vite -> scriptName spec = "dev")
  /\ (framework spec = create_react_app -> scriptName spec = "start").
Proof.
  intros H.
  destruct (inferDevCommand_shape _ _ _ _ H) as (fw & name & p & -> & Hne & Hcase).
  unfold specFor. cbn [command args display scriptName framework port].
  repeat apply conj.
  - destruct pm; reflexivity.
  - destruct pm; reflexivity.
  - destruct pm; reflexivity.
  - exact Hne.
  - intros ->. destruct Hcase as [(E & _)|[(E & _)|[(E & _)|(E & _)]]]; discriminate E.
  - intros ->. destruct Hcase as [(_ & _ & E)|[(E & _)|[(_ & _ & E)|(_ & E)]]];
      try discriminate E; exact E.
  - intros ->. destruct Hcase as [(E & _)|[(_ & _ & E)|[(E & _)|(E & _)]]];
      try discriminate E; exact E.
  - intros Hv. destruct Hcase as [(_ & _ & E)|[(E & _)|[(_ & _ & E)|(_ & E)]]];
      try exact E. contradiction.
  - intros [-> | ->];
      destruct Hcase as [(E & N & _)|[(E & N & _)|[(E & _)|(E & _)]]];
      try discriminate E; exact N.
  - intros ->.
    destruct Hcase as [(E & _)|[(E & _)|[(_ & N & _)|(E & _)]]];
      try discriminate E; exact N.
Qed.

Lemma inferDevCommand_returns_runnable_command_witness :
  inferDevCommand (Some Scenario.nextManifest) yarn None
  = Some (nextDevCommand yarn)
  /\ command (nextDevCommand yarn) = "yarn"
  /\ display (nextDevCommand yarn)
     = JS.join " " (command (nextDevCommand yarn) :: args (nextDevCommand yarn))
  /\ port (nextDevCommand yarn) = 3000.
Proof.
  assert (H : inferDevCommand (Some Scenario.nextManifest) yarn None
              = Some (nextDevCommand yarn)) by (vm_compute; reflexivity).
  pose proof (inferDevCommand_returns_runnable_command _ _ _ _ H)
    as (H1 & _ & H3 & _ & _ & _ & H7 & _).
  repeat apply conj; [exact H|exact H1|exact H3|].
  apply H7. discriminate.
Defined.

Lemma trimStart_all_space (s : string) :
  JS.trimStart s = "" <-> JS.all_space s = true.
Proof.
  unfold JS.all_space. induction s as [|c r IH]; [easy|]. cbn.
  destruct (JS.is_space c); cbn; [exact IH|]. split; discriminate.
Qed.

Lemma trimStart_head (s : string) (c : ascii) (r : string) :
  JS.trimStart s = String c r -> JS.is_space c = false.
Proof.
  induction s as [|c' r' IH]; [discriminate|]. cbn.
  destruct (JS.is_space c') eqn:E; [exact IH|].
  intros H. inversion H; subst. exact E.
Qed.

Lemma trim_all_space (s : string) :
  (0 <? String.length (JS.trim s))%nat = negb (JS.all_space s).
Proof.
  unfold JS.trim. destruct (JS.trimStart s) as [|c r] eqn:E.
  - apply trimStart_all_space in E. rewrite E. reflexivity.
  - pose proof (trimStart_head _ _ _ E) as Hc.
    destruct (JS.all_space s) eqn:Ha.
    + apply trimStart_all_space in Ha. congruence.
    + cbn [JS.trimEnd]. rewrite Hc. destruct (JS.trimEnd r); reflexivity.
Qed.

Lemma chainResult_detected (pkg : PackageJson) (pm : PackageManager) :
  chainResult pkg pm = None <-> detected pkg = false.
Proof.
  unfold chainResult, detected.
  destruct (nextSignal pkg), (viteSignal pkg), (craSignal pkg),
    (hasScript pkg "dev"), (hasScript pkg "start"); cbn; split; congruence.
Qed.

(** [inferDevCommand] consults the prompt only as a last resort.  When the
    manifest has a framework signal or a [dev] or [start] script, the result
    is the same with any prompt function and without one, and it is a
    command.  Otherwise, without a prompt function or without any script
    there is no command; with both, the prompt is shown once, with the list
    of script names and the first of them as the suggestion, and its answer,
    trimmed, is run as a [custom] script on port 3000, unless the dialog
    was dismissed or the answer is blank, when there is no command.  Without
    a manifest there is no command. *)
Theorem inferDevCommand_prompt_is_last_resort
        (pkg : PackageJson) (pm : PackageManager) :
  (forall ask, inferDevCommand None pm ask = None)
  /\ (detected pkg = true ->
      is_Some (inferDevCommand (Some pkg) pm None)
      /\ forall ask,
           inferDevCommand (Some pkg) pm ask = inferDevCommand (Some pkg) pm None)
  /\ (detected pkg = false ->
      inferDevCommand (Some pkg) pm None = None
      /\ (scriptTable pkg = [] ->
          forall ask, inferDevCommand (Some pkg) pm ask = None)
      /\ forall ask first rest,
           keys (scriptTable pkg) = first :: rest ->
           inferDevCommand (Some pkg) pm (Some ask)
           = answered pm (ask (promptMessage (first :: rest)) first))
  /\ (forall response,
        answered pm response
        = match response with
          | Some text =>
              if JS.all_space text then None
              else Some (specFor pm custom (JS.trim text) 3000)
          | None => None
          end).
Proof.
  repeat apply conj.
  - reflexivity.
  - intros Hd.
    assert (Hc : exists spec, chainResult pkg pm = Some spec).
    { destruct (chainResult pkg pm) as [spec|] eqn:E; [eauto|].
      apply chainResult_detected in E. congruence. }
    destruct Hc as [spec Hc]. split.
    + rewrite inferDevCommand_chain, Hc. eauto.
    + intros ask. rewrite !inferDevCommand_chain, Hc. reflexivity.
  - intros Hd. apply (chainResult_detected pkg pm) in Hd.
    repeat apply conj.
    + rewrite inferDevCommand_chain, Hd. reflexivity.
    + intros He ask. rewrite inferDevCommand_chain, Hd, He.
      destruct ask; reflexivity.
    + intros ask first rest Hk.
      rewrite inferDevCommand_chain, Hd, Hk. reflexivity.
  - intros [text|]; [|reflexivity]. unfold answered.
    rewrite trim_all_space. destruct (JS.all_space text); reflexivity.
Qed.

Lemma split_slash_app (a b cur : string) :
  split_slash_from cur (a ++ String "/" b)
  = (split_slash_from cur a ++ split_slash_from "" b)%list.
Proof.
  revert cur. induction a as [|c r IH]; intros cur; [reflexivity|].
  rewrite append_cons. cbn [split_slash_from].
  destruct (Ascii.eqb c "/"); rewrite IH; reflexivity.
Qed.

Lemma split_slash_plain (d cur : string) :
  forallb (fun c => negb (Ascii.eqb c "/"%char)) (JS.chars d) = true ->
  split_slash_from cur d = [cur ++ d].
Proof.
  revert cur. induction d as [|c r IH]; intros cur H.
  - now rewrite append_nil_r.
  - cbn in H. apply andb_prop in H. destruct H as [Hc Hr].
    cbn [split_slash_from]. destruct (Ascii.eqb c "/"); [discriminate|].
    rewrite (IH _ Hr), append_assoc. reflexivity.
Qed.

Lemma segmentsOf_app (a b : string) :
  segmentsOf (a ++ "/" ++ b) = (segmentsOf a ++ segmentsOf b)%list.
Proof.
  unfold segmentsOf. change ("/" ++ b) with (String "/" b).
  now rewrite split_slash_app, List.filter_app.
Qed.

Lemma segmentsOf_segment (d : string) :
  isSegment d = true -> segmentsOf d = [d].
Proof.
  unfold isSegment, segmentsOf. intros H.
  apply andb_prop in H. destruct H as [Hlen Hplain].
  rewrite (split_slash_plain _ _ Hplain). cbn [List.filter].
  change ("" ++ d) with d. now rewrite Hlen.
Qed.

(** Paths in [readFileFromTree].  The segments of [a/b] are those of [a]
    followed by those of [b], so empty segments, a leading and a trailing
    slash are ignored.  The empty path reads nothing.  A single segment
    reads the regular file of that name at the root, and nothing when the
    entry is a directory or a symbolic link.  A path [d/p] reads [p] inside
    the directory [d], and nothing when [d] is a file, a link or missing. *)
Theorem readFileFromTree_follows_segments
        (tree : FileSystemTree) (d p : string) :
  (forall a b, segmentsOf (a ++ "/" ++ b) = (segmentsOf a ++ segmentsOf b)%list)
  /\ readFileFromTree tree "" = None
  /\ readFileFromTree tree ("/" ++ p) = readFileFromTree tree p
  /\ readFileFromTree tree (p ++ "/") = readFileFromTree tree p
  /\ (isSegment d = true ->
      segmentsOf d = [d]
      /\ readFileFromTree tree d
         = match entryOf tree d with
           | Some (FileNode contents) => Some contents
           | _ => None
           end
      /\ (segmentsOf p <> [] ->
          readFileFromTree tree (d ++ "/" ++ p)
          = match entryOf tree d with
            | Some (DirectoryNode children) => readFileFromTree children p
            | _ => None
            end)
      /\ (segmentsOf p = [] ->
          readFileFromTree tree (d ++ "/" ++ p) = readFileFromTree tree d)).
Proof.
  repeat apply conj.
  - apply segmentsOf_app.
  - reflexivity.
  - unfold readFileFromTree.
    change ("/" ++ p) with ("" ++ "/" ++ p). now rewrite segmentsOf_app.
  - unfold readFileFromTree.
    replace (p ++ "/") with (p ++ "/" ++ "") by reflexivity.
    rewrite segmentsOf_app. cbn. now rewrite app_nil_r.
  - intros Hd. pose proof (segmentsOf_segment d Hd) as Hs.
    repeat apply conj.
    + exact Hs.
    + unfold readFileFromTree. rewrite Hs. cbn [readSegments].
      destruct (entryOf tree d) as [[]|]; reflexivity.
    + intros Hp. unfold readFileFromTree. rewrite segmentsOf_app, Hs.
      cbn [app readSegments].
      destruct (segmentsOf p) as [|s rest]; [contradiction|].
      destruct (entryOf tree d) as [[]|]; reflexivity.
    + intros Hp. unfold readFileFromTree. rewrite segmentsOf_app, Hs, Hp.
      reflexivity.
Qed.

Lemma hasFile_root (tree : FileSystemTree) (name : string) :
  isSegment name = true -> hasFile tree name = rootFile tree name.
Proof.
  intros H. unfold hasFile, rootFile, readFileFromTree.
  rewrite (segmentsOf_segment _ H). cbn [readSegments].
  destruct (entryOf tree name) as [[]|]; reflexivity.
Qed.

Lemma detectPackageManager_root (tree : FileSystemTree) :
  detectPackageManager tree
  = (if rootFile tree "pnpm-lock.yaml" || rootFile tree "pnpm-lock.yml"
     then pnpm
     else if rootFile tree "yarn.lock" then yarn else npm).
Proof.
  unfold detectPackageManager. now rewrite !hasFile_root by reflexivity.
Qed.

(** The package manager is read off the regular files at the root of the
    tree, whatever they contain: a pnpm lock ([pnpm-lock.yaml] or
    [pnpm-lock.yml]) gives [pnpm] even beside a yarn lock, else [yarn.lock]
    gives [yarn], else [npm].  A directory or a link of that name does not
    count, an empty lock file does.  The manifest is the regular file
    [package.json] at the root; an empty one is no manifest, and the parser
    is not called on it. *)
Theorem detectPackageManager_reads_root_lockfiles
        (tree : FileSystemTree) (JSON_parse : string -> option PackageJson) :
  detectPackageManager tree
  = (if rootFile tree "pnpm-lock.yaml" || rootFile tree "pnpm-lock.yml"
     then pnpm
     else if rootFile tree "yarn.lock" then yarn else npm)
  /\ (forall (name : string) (other : FileSystemTree),
        isSegment name = true ->
        hasFile (tree ++ [(name, FileNode "")])%list name
        = match entryOf tree name with
          | Some (FileNode _) | None => true
          | Some _ => false
          end
        /\ hasFile [(name, DirectoryNode other)] name = false
        /\ hasFile [(name, SymlinkNode "elsewhere")] name = false)
  /\ parsePackageJson JSON_parse tree
     = match entryOf tree "package.json" with
       | Some (FileNode (String c rest)) => JSON_parse (String c rest)
       | _ => None
       end.
Proof.
  repeat apply conj.
  - apply detectPackageManager_root.
  - intros name other Hn. rewrite !hasFile_root by assumption.
    unfold rootFile. repeat apply conj.
    + induction tree as [|[k n] tree IH]; cbn [app entryOf].
      * now rewrite String.eqb_refl.
      * destruct (String.eqb k name); [destruct n; reflexivity|exact IH].
    + cbn. now rewrite String.eqb_refl.
    + cbn. now rewrite String.eqb_refl.
  - unfold parsePackageJson, readFileFromTree.
    rewrite segmentsOf_segment by reflexivity. cbn [readSegments].
    destruct (entryOf tree "package.json") as [[[|c rest]| |]|]; reflexivity.
Qed.

(* ===================================================================== *)
(** * Output chunks, line breaks and the progress estimate *)
(* ===================================================================== *)

Lemma trimEnd_all_space (t : string) : JS.all_space t = true -> JS.trimEnd t = "".
Proof.
  unfold JS.all_space. induction t as [|c r IH]; [reflexivity|]. cbn.
  intros H. apply andb_prop in H. destruct H as [Hc Hr].
  now rewrite (IH Hr), Hc.
Qed.

Lemma trimEnd_app_space (s t : string) :
  JS.all_space t = true -> JS.trimEnd (s ++ t) = JS.trimEnd s.
Proof.
  intros Ht. induction s as [|c r IH].
  - now apply trimEnd_all_space.
  - rewrite append_cons. cbn [JS.trimEnd]. now rewrite IH.
Qed.

Lemma trimmed_split_LF (n : nat) : forall a b cur, (String.length a <= n)%nat ->
  map JS.trimEnd (JS.split_lines_from cur (a ++ String JS.LF b))
  = (map JS.trimEnd (JS.split_lines_from cur a)
       ++ map JS.trimEnd (JS.split_lines_from "" b))%list.
Proof.
  induction n as [|n IH]; intros a b cur Hn.
  - destruct a; [|simpl in Hn; lia]. reflexivity.
  - destruct a as [|c r]; [reflexivity|]. simpl in Hn.
    rewrite append_cons. cbn [JS.split_lines_from].
    destruct (Ascii.eqb c JS.LF) eqn:Elf.
    + cbn [map app]. now rewrite IH by lia.
    + destruct (Ascii.eqb c JS.CR) eqn:Ecr; [|apply IH; lia].
      destruct r as [|c' r'].
      * cbn. rewrite trimEnd_app_space; [reflexivity|].
        apply Ascii.eqb_eq in Ecr. now subst c.
      * rewrite append_cons.
        destruct (Ascii.eqb c' JS.LF) eqn:Elf'.
        -- cbn [map app]. rewrite IH by (simpl in Hn; lia). reflexivity.
        -- rewrite <- append_cons. apply IH. lia.
Qed.

Lemma trimmed_lone_CR (cur : string) :
  map JS.trimEnd (JS.split_lines_from cur ("" ++ String JS.CR ""))
  = map JS.trimEnd (JS.split_lines_from cur "").
Proof.
  change (map JS.trimEnd [cur ++ String JS.CR ""] = map JS.trimEnd [cur]).
  cbn [map]. now rewrite trimEnd_app_space.
Qed.

Lemma trimmed_split_CR (n : nat) : forall a cur, (String.length a <= n)%nat ->
  map JS.trimEnd (JS.split_lines_from cur (a ++ String JS.CR ""))
  = map JS.trimEnd (JS.split_lines_from cur a).
Proof.
  induction n as [|n IH]; intros a cur Hn.
  - destruct a; [|simpl in Hn; lia]. apply trimmed_lone_CR.
  - destruct a as [|c r]; [apply trimmed_lone_CR|]. simpl in Hn.
    rewrite append_cons. cbn [JS.split_lines_from].
    destruct (Ascii.eqb c JS.LF) eqn:Elf.
    + cbn [map]. now rewrite IH by lia.
    + destruct (Ascii.eqb c JS.CR) eqn:Ecr; [|apply IH; lia].
      destruct r as [|c' r'].
      * apply Ascii.eqb_eq in Ecr. subst c.
        change (map JS.trimEnd [(cur ++ String JS.CR "") ++ String JS.CR ""]
                = map JS.trimEnd [cur ++ String JS.CR ""]).
        cbn [map]. rewrite !trimEnd_app_space; reflexivity.
      * rewrite append_cons.
        destruct (Ascii.eqb c' JS.LF) eqn:Elf'.
        -- cbn [map]. rewrite IH by (simpl in Hn; lia). reflexivity.
        -- rewrite <- append_cons. apply IH. lia.
Qed.

Lemma chunkLines_LF (a b : string) :
  Console.chunkLines (a ++ String JS.LF b)
  = (Console.chunkLines a ++ Console.chunkLines b)%list.
Proof.
  unfold Console.chunkLines, JS.split_lines.
  rewrite (trimmed_split_LF (String.length a)) by lia.
  now rewrite List.filter_app, map_app.
Qed.

Lemma chunkLines_CR (a : string) :
  Console.chunkLines (a ++ String JS.CR "") = Console.chunkLines a.
Proof.
  unfold Console.chunkLines, JS.split_lines.
  now rewrite (trimmed_split_CR (String.length a)) by lia.
Qed.

Lemma writeChunk_plain text w :
  writeChunk false text w
  = fold_left (fun w line =>
                 pushLog (Console.line_text line) (Console.line_level line) w)
              (Console.chunkLines text) w.
Proof. reflexivity. Qed.

(** A stream without the progress hook (the dev server's) may be cut into
    chunks at any line break without a change to the console: the lines of
    [a], a line break, [b] are those of [a] followed by those of [b], for LF
    and for CR LF, so writing the one chunk does what writing [a] and then
    [b] does.  A line break at the end of a chunk adds no line, and an empty
    chunk writes nothing. *)
Theorem chunkLines_split_at_line_breaks (a b : string) (w : World) :
  Console.chunkLines (a ++ JS.nl ++ b)
  = (Console.chunkLines a ++ Console.chunkLines b)%list
  /\ Console.chunkLines (a ++ String JS.CR JS.nl ++ b)
     = (Console.chunkLines a ++ Console.chunkLines b)%list
  /\ writeChunk false (a ++ JS.nl ++ b) w
     = writeChunk false b (writeChunk false a w)
  /\ writeChunk false (a ++ String JS.CR JS.nl ++ b) w
     = writeChunk false b (writeChunk false a w)
  /\ Console.chunkLines (a ++ JS.nl) = Console.chunkLines a
  /\ writeChunk false "" w = w.
Proof.
  assert (H1 : Console.chunkLines (a ++ JS.nl ++ b)
               = (Console.chunkLines a ++ Console.chunkLines b)%list).
  { apply chunkLines_LF. }
  assert (H2 : Console.chunkLines (a ++ String JS.CR JS.nl ++ b)
               = (Console.chunkLines a ++ Console.chunkLines b)%list).
  { change (a ++ String JS.CR JS.nl ++ b)
      with (a ++ (String JS.CR "" ++ String JS.LF b)).
    rewrite <- append_assoc, chunkLines_LF, chunkLines_CR. reflexivity. }
  repeat apply conj.
  - exact H1.
  - exact H2.
  - rewrite !writeChunk_plain, H1. apply fold_left_app.
  - rewrite !writeChunk_plain, H2. apply fold_left_app.
  - change (a ++ JS.nl) with (a ++ String JS.LF "").
    rewrite chunkLines_LF. apply app_nil_r.
  - reflexivity.
Qed.

Lemma progress_pushAll (ls : list Console.ConsoleLine) w :
  let w' := fold_left (fun w line =>
       pushLog (Console.line_text line) (Console.line_level line) w) ls w in
  installProgress (webContainer (store w')) = installProgress (webContainer (store w))
  /\ status (webContainer (store w')) = status (webContainer (store w)).
Proof.
  cbv zeta. revert w. induction ls as [|l ls IH]; intros w; [easy|].
  cbn [fold_left]. destruct (IH (pushLog (Console.line_text l) (Console.line_level l) w))
    as [H1 H2]. rewrite H1, H2. split; reflexivity.
Qed.

Lemma blank_chunk (chunk : string) :
  (String.length (JS.trim chunk) =? 0)%nat = JS.all_space chunk.
Proof.
  pose proof (trim_all_space chunk) as H.
  destruct (JS.all_space chunk), (String.length (JS.trim chunk)); cbn in *; congruence.
Qed.

Lemma consoleLines_writeChunk hook text w :
  consoleLines (store (writeChunk hook text w))
  = (consoleLines (store w) ++ Console.chunkLines text)%list.
Proof.
  unfold writeChunk. rewrite consoleLines_pushAll.
  destruct hook; [now rewrite consoleLines_onInstallChunk|reflexivity].
Qed.

Lemma progress_writeChunk chunk w :
  let p := installProgress (webContainer (store w)) in
  installProgress (webContainer (store (writeChunk true chunk w)))
  = (if JS.all_space chunk then p
     else if p <? 95 then Z.min 95 (p + 3) else p)
  /\ status (webContainer (store (writeChunk true chunk w)))
     = status (webContainer (store w)).
Proof.
  cbv zeta. unfold writeChunk.
  destruct (progress_pushAll (Console.chunkLines chunk) (onInstallChunk chunk w))
    as [H1 H2]. rewrite H1, H2. clear H1 H2.
  unfold onInstallChunk. rewrite blank_chunk.
  destruct (JS.all_space chunk); [easy|].
  destruct (_ <? 95); split; reflexivity.
Qed.

(** The progress estimate of an install.  Over any sequence of output
    chunks the estimate never decreases and the status is untouched; from
    below 95 it climbs by 3 for each chunk that is not blank and stops at
    95; from 95 upwards it stays where it is; blank chunks do not count.
    The console receives the lines of every chunk, in order. *)
Theorem install_progress_estimate (chunks : list string) (w : World) :
  let p := installProgress (webContainer (store w)) in
  let w' := fold_left (fun w chunk => writeChunk true chunk w) chunks w in
  let p' := installProgress (webContainer (store w')) in
  let counted :=
    Z.of_nat (length (List.filter (fun c => negb (JS.all_space c)) chunks)) in
  p' = (if p <? 95 then Z.min 95 (p + 3 * counted) else p)
  /\ p <= p'
  /\ (p <= 95 -> p' <= 95)
  /\ status (webContainer (store w')) = status (webContainer (store w))
  /\ consoleLines (store w')
     = (consoleLines (store w) ++ concat (map Console.chunkLines chunks))%list.
Proof.
  cbv zeta.
  assert (H : installProgress (webContainer (store
                (fold_left (fun w chunk => writeChunk true chunk w) chunks w)))
              = (if installProgress (webContainer (store w)) <? 95
                 then Z.min 95 (installProgress (webContainer (store w))
                                + 3 * Z.of_nat (length (List.filter
                                      (fun c => negb (JS.all_space c)) chunks)))
                 else installProgress (webContainer (store w)))
              /\ status (webContainer (store
                   (fold_left (fun w chunk => writeChunk true chunk w) chunks w)))
                 = status (webContainer (store w))
              /\ consoleLines (store
                   (fold_left (fun w chunk => writeChunk true chunk w) chunks w))
                 = (consoleLines (store w)
                      ++ concat (map Console.chunkLines chunks))%list).
  { revert w. induction chunks as [|c chunks IH]; intros w.
    - cbn. rewrite app_nil_r. repeat split.
      destruct (_ <? 95) eqn:E; [|reflexivity]. apply Z.ltb_lt in E. lia.
    - cbn [fold_left List.filter map concat].
      destruct (IH (writeChunk true c w)) as (Hp & Hs & Hc).
      destruct (progress_writeChunk c w) as [Hp1 Hs1].
      rewrite Hp, Hs, Hc, Hp1, Hs1. clear Hp Hs Hc Hp1 Hs1.
      repeat split.
      + destruct (JS.all_space c); cbn [negb length]; [reflexivity|].
        destruct (installProgress (webContainer (store w)) <? 95) eqn:E.
        * apply Z.ltb_lt in E.
          destruct (Z.min 95 _ <? 95) eqn:E'.
          -- apply Z.ltb_lt in E'. lia.
          -- apply Z.ltb_ge in E'. lia.
        * rewrite E. reflexivity.
      + rewrite consoleLines_writeChunk, <- app_assoc. reflexivity. }
  destruct H as (Hp & Hs & Hc). rewrite Hp.
  repeat apply conj; [reflexivity| | |exact Hs|exact Hc].
  - destruct (_ <? 95) eqn:E; [apply Z.ltb_lt in E|]; lia.
  - destruct (_ <? 95) eqn:E; [apply Z.ltb_lt in E|]; lia.
Qed.

(* ===================================================================== *)
(** * Stopping, restarting and tearing down *)
(* ===================================================================== *)

Import OrchestratorFacts.

(** [stopDevServer].  With no dev server it returns at once and changes
    nothing.  With one it sets the termination cause to [user], calls
    [kill] and suspends, the store untouched; however the kill settles, it
    clears the handle, sets the status to [idle] with the message
    "Development server stopped.", clears the preview port and URL, logs an
    [info] line and returns; the recorded error and the progress stay.  The
    exit watcher of the stopped server, firing while the cause is still
    [user], reports nothing, whatever the exit code.  The call never
    rejects. *)
Theorem stopDevServer_stops_quietly (w : World) :
  (devProcess (globals w) = None -> stopDevServer w = (w, Done Resolved))
  /\ (forall p, devProcess (globals w) = Some p ->
      exists k,
        stopDevServer w
          = (record (Called (HKill p))
                    (set_devTerminationCause (Some user) w),
             Await (ReqKill p) k)
        /\ store (fst (stopDevServer w)) = store w
        /\ (forall code,
              store (onDevExit code (fst (stopDevServer w))) = store w
              /\ devTerminationCause
                   (globals (onDevExit code (fst (stopDevServer w)))) = None)
        /\ forall (answer : Settled unit) (w' : World),
             let after := fst (k answer w') in
             snd (k answer w') = Done Resolved
             /\ devProcess (globals after) = None
             /\ devTerminationCause (globals after)
                = devTerminationCause (globals w')
             /\ installProcess (globals after) = installProcess (globals w')
             /\ status (webContainer (store after)) = st_idle
             /\ lastMessage (webContainer (store after))
                = Some "Development server stopped."
             /\ previewPort (webContainer (store after)) = None
             /\ previewUrl (webContainer (store after)) = None
             /\ error (webContainer (store after))
                = error (webContainer (store w'))
             /\ installProgress (webContainer (store after))
                = installProgress (webContainer (store w'))
             /\ consoleLines (store after)
                = (consoleLines (store w')
                     ++ [infoLine "Development server stopped by user."])%list
             /\ (devTerminationCause (globals w') = Some user ->
                 forall code, store (onDevExit code after) = store after))
  /\ forall host, snd (run host (stopDevServer w)) = Resolved.
Proof.
  unfold stopDevServer. repeat apply conj.
  - intros ->. reflexivity.
  - intros p H. rewrite H. eexists. split; [reflexivity|].
    repeat apply conj; try reflexivity.
    + intros code. split; reflexivity.
    + intros answer w'. cbv zeta. repeat apply conj; try reflexivity.
      intros Hc code. unfold onDevExit. cbv zeta.
      cbn [fst devTerminationCause globals set_devProcess withGlobals pushLog
           updateState record withStore].
      rewrite Hc. reflexivity.
  - intros host. unfold run. destruct (devProcess (globals w)); reflexivity.
Qed.



Section LoneTeardown.

Variable host : Host.

(** [prepareFreshInstance], run on its own, from any state and however the
    kills settle: it kills the install, then the dev server, then tears the
    instance down, marking each kill as a [restart]; when it goes on, no
    process handle and no instance is left, the listeners of the old
    instance are gone with it, and the store is untouched. *)
Theorem prepareFreshInstance_tears_down
        (kont : World -> World * Task) (w : World) :
  exists w',
    run host (prepareFreshInstance kont w) = run host (kont w')
    /\ installProcess (globals w') = None
    /\ devProcess (globals w') = None
    /\ webcontainerInstance (globals w') = None
    /\ store w' = store w
    /\ journal w' = (teardownCalls w ++ journal w)%list
    /\ installTerminationCause (globals w')
       = match installProcess (globals w) with
         | Some _ => Some restart
         | None => installTerminationCause (globals w)
         end
    /\ devTerminationCause (globals w')
       = match devProcess (globals w) with
         | Some _ => Some restart
         | None => devTerminationCause (globals w)
         end
    /\ listenersBound (globals w')
       = match webcontainerInstance (globals w) with
         | Some _ => false
         | None => listenersBound (globals w)
         end
    /\ listeners w'
       = match webcontainerInstance (globals w) with
         | Some i => List.filter (fun j => negb (Nat.eqb j i)) (listeners w)
         | None => listeners w
         end
    /\ outputPipes w' = outputPipes w
    /\ exitWatchers w' = exitWatchers w.
Proof.
  unfold prepareFreshInstance, terminateDevServer, teardownInstance,
    teardownCalls.
  destruct w as [[mp inst ip dp lb itc dtc] st pipes watchers ls j].
  cbn [globals installProcess devProcess webcontainerInstance].
  destruct ip as [pi|], dp as [pd|], inst as [i|];
    repeat (rewrite run_await;
            cbn [globals installProcess devProcess webcontainerInstance
                 set_installProcess set_devProcess withGlobals record
                 set_installTerminationCause set_devTerminationCause]);
    eexists; (split; [reflexivity|]); repeat apply conj; reflexivity.
Qed.

End LoneTeardown.

(* ===================================================================== *)
(** * The store stays consistent *)
(* ===================================================================== *)

Import Invariants.

Lemma Keeps_await (P : World -> Prop) (r : Request) k :
  Keeps P (Await r k) <-> forall answer w, P w -> Steady P (k answer w).
Proof.
  unfold Steady. cbn [Keeps]. split; intros H answer w Hw;
    specialize (H answer w Hw); destruct (k answer w); exact H.
Qed.

Ltac store_inv :=
  unfold consistent in *;
  cbn [store webContainer consoleLines logs installProgress status error
       previewPort previewUrl updateState pushLog reportError record
       withStore withGlobals setWebContainerState pushConsoleLine
       resetConsole setFileTree fold_left assign set_modulePromise
       set_webcontainerInstance set_installProcess set_devProcess
       set_listenersBound set_installTerminationCause
       set_devTerminationCause add_outputPipe add_exitWatcher set_listeners
       fst snd] in *;
  intuition (try lia; try discriminate; try congruence; eauto).

Section StoreInvariant.

Let P : World -> Prop := fun w => consistent (store w).

Lemma steady_finish w : P w -> Steady P (finish w).
Proof. intros H. split; [exact H|exact I]. Qed.

Lemma steady_caught e w : P w -> Steady P (caught e w).
Proof. intros H. split; [|exact I]. unfold P, caught in *. store_inv. Qed.

Lemma consistent_bindInstanceEvents i w :
  P w -> P (bindInstanceEvents i w).
Proof.
  unfold P, bindInstanceEvents. destruct (listenersBound _); [easy|].
  intros H. exact H.
Qed.

Lemma steady_runDevServer instance devCommand defaultPort w :
  P w -> Steady P (runDevServer instance devCommand defaultPort caught finish w).
Proof.
  intros H. unfold runDevServer. split; [exact H|]. cbn [snd].
  apply Keeps_await. intros [process|e] w' Hw'; [|now apply steady_caught].
  apply steady_finish. cbv zeta.
  cbn [listenersBound globals add_exitWatcher add_outputPipe
       set_devTerminationCause set_devProcess withGlobals].
  destruct (listenersBound (globals w')).
  - unfold P in *. store_inv.
  - pose proof (consistent_bindInstanceEvents instance
                  (add_exitWatcher process
                     (add_outputPipe process false
                        (set_devTerminationCause None
                           (set_devProcess (Some process) w')))) Hw') as Hb.
    revert Hb. generalize (bindInstanceEvents instance
                  (add_exitWatcher process
                     (add_outputPipe process false
                        (set_devTerminationCause None
                           (set_devProcess (Some process) w'))))).
    intros w'' Hb. unfold P in *. store_inv.
Qed.

Lemma steady_afterInstall env repository instance devCommand usedFallback code w :
  P w ->
  Steady P (afterInstall env repository instance devCommand usedFallback code w).
Proof.
  intros H. unfold afterInstall.
  destruct (bool_decide _); [now apply steady_finish|].
  destruct (negb _); [now apply steady_caught|].
  apply steady_runDevServer. unfold P in *. store_inv.
Qed.

Lemma steady_runInstall instance pm kont w :
  (forall code w', P w' -> Steady P (kont code w')) ->
  P w -> Steady P (runInstall instance pm caught kont w).
Proof.
  intros Hk H. unfold runInstall. split; [exact H|]. cbn [snd].
  apply Keeps_await. intros [process|e] w1 H1; [|now apply steady_caught].
  split; [exact H1|]. cbn [snd].
  apply Keeps_await. intros [exitCode|e] w2 H2; [|now apply steady_caught].
  cbv zeta. destruct (installTerminationCause _) as [[]|]; apply Hk;
    unfold P in *; store_inv.
Qed.

Lemma steady_afterMount env repository instance files pm hasPkg usedFallback w :
  P w ->
  Steady P (afterMount env repository instance files pm hasPkg usedFallback w).
Proof.
  intros H. unfold afterMount. cbv zeta.
  destruct (negb hasPkg); [apply steady_caught; unfold P in *; store_inv|].
  destruct (Workspace.inferDevCommand _ _ _);
    [|apply steady_caught; unfold P in *; store_inv].
  apply steady_runInstall.
  - intros. now apply steady_afterInstall.
  - unfold P in *. store_inv.
Qed.

Lemma steady_mountAndRun env repository instance files pm hasPkg usedFallback w :
  P w ->
  Steady P (mountAndRun env repository instance files pm hasPkg usedFallback w).
Proof.
  intros H. unfold mountAndRun.
  destruct instance; [|now apply steady_caught].
  split; [exact H|]. cbn [snd].
  apply Keeps_await. intros [[]|e] w' Hw';
    [now apply steady_afterMount|now apply steady_caught].
Qed.

Lemma steady_fallBackToTemplate env repository instance template w :
  P w -> Steady P (fallBackToTemplate env repository instance template w).
Proof.
  intros H. unfold fallBackToTemplate.
  destruct template; [|now apply steady_caught].
  apply steady_mountAndRun. unfold P in *. store_inv.
Qed.

Lemma steady_bootWebContainer env kont w :
  (forall i w', P w' -> Steady P (kont i w')) ->
  P w -> Steady P (bootWebContainer env caught kont w).
Proof.
  intros Hk H. unfold bootWebContainer.
  destruct (webcontainerInstance (globals w)); [now apply Hk|].
  split; [destruct (modulePromise _); exact H|]. cbn [snd].
  apply Keeps_await. intros [[]|e] w1 H1; [|now apply steady_caught].
  destruct (negb _); [now apply steady_caught|].
  split; [exact H1|]. cbn [snd].
  apply Keeps_await. intros [i|e] w2 H2; [|now apply steady_caught].
  split; [exact H2|]. cbn [snd].
  apply Keeps_await. intros _ w3 H3.
  destruct (webcontainerInstance (globals w3)).
  - apply Hk. now apply consistent_bindInstanceEvents.
  - destruct (listenersBound _); [now apply Hk|now apply steady_caught].
Qed.

Lemma consistent_teardownInstance w : P w -> P (teardownInstance w).
Proof.
  unfold P, teardownInstance. destruct (webcontainerInstance _); easy.
Qed.

Lemma steady_terminateDevServer kont w :
  (forall w', P w' -> Steady P (kont w')) ->
  P w -> Steady P (terminateDevServer kont w).
Proof.
  intros Hk H. unfold terminateDevServer.
  destruct (devProcess (globals w)).
  - split; [exact H|]. cbn [snd]. apply Keeps_await. intros _ w' Hw'.
    apply Hk. now apply (consistent_teardownInstance (set_devProcess None w')).
  - apply Hk. now apply consistent_teardownInstance.
Qed.

Lemma steady_prepareFreshInstance kont w :
  (forall w', P w' -> Steady P (kont w')) ->
  P w -> Steady P (prepareFreshInstance kont w).
Proof.
  intros Hk H. unfold prepareFreshInstance.
  destruct (installProcess (globals w)).
  - split; [exact H|]. cbn [snd]. apply Keeps_await. intros _ w' Hw'.
    now apply steady_terminateDevServer.
  - now apply steady_terminateDevServer.
Qed.

Lemma consistent_onProgress messages w :
  P w -> P (fold_left (fun w message => onProgress message w) messages w).
Proof.
  revert w. induction messages as [|m ms IH]; intros w H; [exact H|].
  cbn [fold_left]. apply IH. unfold P, onProgress in *. store_inv.
Qed.

Lemma steady_launchWorkspace env repository w :
  P w -> Steady P (launchWorkspace env repository w).
Proof.
  intros H. unfold launchWorkspace.
  destruct (ensureClientEnvironment env); [split; [exact H|exact I]|].
  apply steady_prepareFreshInstance; [|exact H]. clear w H. intros w H.
  apply steady_bootWebContainer.
  - intros i w2 H2. split; [unfold P in *; store_inv|]. cbn [snd].
    apply Keeps_await. intros synced w3 H3. cbv zeta.
    match goal with
    | |- context [fold_left ?f ?l w3] =>
        pose proof (consistent_onProgress l w3 H3) as H4;
        generalize dependent (fold_left f l w3)
    end.
    intros w4 H4.
    destruct (result _).
    + apply steady_mountAndRun. unfold P in *. store_inv.
    + apply steady_fallBackToTemplate. unfold P in *. store_inv.
  - unfold P in *. store_inv.
Qed.

Lemma steady_cancelInstallation w : P w -> Steady P (cancelInstallation w).
Proof.
  intros H. unfold cancelInstallation.
  destruct (installProcess (globals w)); [|split; [exact H|exact I]].
  split; [exact H|]. cbn [snd]. apply Keeps_await. intros _ w' Hw'.
  split; [|exact I]. unfold P in *. store_inv.
Qed.

Lemma steady_stopDevServer w : P w -> Steady P (stopDevServer w).
Proof.
  intros H. unfold stopDevServer.
  destruct (devProcess (globals w)); [|split; [exact H|exact I]].
  split; [exact H|]. cbn [snd]. apply Keeps_await. intros _ w' Hw'.
  split; [|exact I]. unfold P in *. store_inv.
Qed.

Lemma consistent_pushAll (ls : list Console.ConsoleLine) w :
  P w ->
  P (fold_left (fun w line =>
                  pushLog (Console.line_text line) (Console.line_level line) w)
               ls w).
Proof.
  revert w. induction ls as [|l ls IH]; intros w H; [exact H|].
  cbn [fold_left]. apply IH. unfold P in *. store_inv.
Qed.

Lemma consistent_writeChunk hook text w : P w -> P (writeChunk hook text w).
Proof.
  intros H. unfold writeChunk. apply consistent_pushAll.
  destruct hook; [|exact H]. unfold onInstallChunk.
  destruct (_ =? _)%nat; [exact H|].
  destruct (installProgress _ <? 95) eqn:E; [|exact H].
  apply Z.ltb_lt in E. unfold P in *. store_inv.
Qed.

Lemma consistent_onDevExit code w : P w -> P (onDevExit code w).
Proof.
  intros H. unfold onDevExit. cbv zeta.
  destruct (devTerminationCause _) as [[]|];
    [unfold P in *; store_inv|unfold P in *; store_inv|].
  destruct (code =? 0); unfold P in *; store_inv.
Qed.

Lemma consistent_onServerReady port url w : P w -> P (onServerReady port url w).
Proof. intros H. unfold P, onServerReady in *. store_inv. Qed.

Lemma consistent_onInstanceError message w :
  P w -> P (onInstanceError message w).
Proof. intros H. unfold P, onInstanceError in *. store_inv. Qed.

Lemma Forall_setCall (Q : Task -> Prop) n t l :
  Forall Q l -> Q t -> Forall Q (setCall n t l).
Proof.
  intros Hl Ht. revert n. induction Hl as [|x l Hx Hl IH]; intros n.
  - destruct n; constructor.
  - destruct n; cbn [setCall]; constructor; auto.
Qed.

Lemma sound_started s c : Sound s -> Steady P c -> Sound (started s c).
Proof.
  intros [_ Hc] [H1 H2]. split; [exact H1|].
  cbn [calls started]. apply Forall_app. split; [exact Hc|].
  constructor; [exact H2|constructor].
Qed.

Lemma sound_react e s : Sound s -> Sound (react e s).
Proof.
  intros Hs. pose proof Hs as [Hw Hc].
  destruct e; cbn [react].
  - apply sound_started; [exact Hs|]. now apply steady_launchWorkspace.
  - apply sound_started; [exact Hs|]. now apply steady_cancelInstallation.
  - apply sound_started; [exact Hs|]. now apply steady_stopDevServer.
  - destruct (nth_error (calls s) call) as [[o|r k]|] eqn:En; try exact Hs.
    assert (Hk : Keeps P (Await r k)).
    { apply nth_error_In in En.
      rewrite List.Forall_forall in Hc. now apply Hc. }
    rewrite Keeps_await in Hk. destruct (Hk (host r) (world s) Hw) as [H1 H2].
    split; [exact H1|]. cbn [calls]. now apply Forall_setCall.
  - split; [|exact Hc]. cbn [world].
    generalize (outputPipes (world s)). intros pipes.
    change (P (fold_left (fun w pipe => if Nat.eqb (fst pipe) p
                                        then writeChunk (snd pipe) chunk w
                                        else w) pipes (world s))).
    assert (Hw' : P (world s)) by exact Hw.
    revert Hw'. generalize (world s).
    induction pipes as [|pipe pipes IH]; intros w Hw'; [exact Hw'|].
    cbn [fold_left]. apply IH.
    destruct (Nat.eqb _ _); [now apply consistent_writeChunk|exact Hw'].
  - split; [|exact Hc]. cbn [world].
    destruct (existsb _ _); [now apply consistent_onDevExit|exact Hw].
  - split; [|exact Hc]. cbn [world].
    destruct (existsb _ _); [now apply consistent_onServerReady|exact Hw].
  - split; [|exact Hc]. cbn [world].
    destruct (existsb _ _); [now apply consistent_onInstanceError|exact Hw].
Qed.

End StoreInvariant.

(** The two console buffers never drift apart.  From any state in which
    [webContainer.logs] and [consoleLines] hold the same lines (the initial
    state is one), whatever calls the user starts, however the host settles
    their promises and whenever it delivers output, exits, [server-ready]
    and [error] events, the two buffers hold the same lines. *)
Theorem console_buffers_stay_in_step (events : list Event) (s : System) :
  Sound s ->
  logs (webContainer (store (world (play events s))))
  = consoleLines (store (world (play events s))).
Proof.
  intros Hs.
  assert (H : Sound (play events s)).
  { revert s Hs. induction events as [|e events IH]; intros s Hs; [exact Hs|].
    cbn [play fold_left]. apply IH. now apply sound_react. }
  destruct H as [[Hlogs _] _]. exact Hlogs.
Qed.

Lemma console_buffers_stay_in_step_witness :
  logs (webContainer (store (world (play relaunchUntilInstalling fresh))))
  = consoleLines (store (world (play relaunchUntilInstalling fresh))).
Proof.
  apply (console_buffers_stay_in_step relaunchUntilInstalling fresh).
  split; [|constructor]. unfold consistent. cbn.
  repeat split; try lia; discriminate.
Defined.

(** The lifecycle record stays well formed under every interleaving of
    calls, settled promises and host events: the progress estimate is
    between 0 and 100, a status [error] comes with an error message, and a
    status [ready] with a preview port and a preview URL. *)
Theorem lifecycle_record_stays_well_formed (events : list Event) (s : System) :
  Sound s ->
  let state := webContainer (store (world (play events s))) in
  0 <= installProgress state <= 100
  /\ (status state = st_error -> is_Some (error state))
  /\ (status state = st_ready ->
      is_Some (previewPort state) /\ is_Some (previewUrl state)).
Proof.
  intros Hs.
  assert (H : Sound (play events s)).
  { revert s Hs. induction events as [|e events IH]; intros s Hs; [exact Hs|].
    cbn [play fold_left]. apply IH. now apply sound_react. }
  destruct H as [(_ & Hrange & Herror & Hready) _]. cbv zeta.
  split; [exact Hrange|]. split; [exact Herror|exact Hready].
Qed.

Lemma lifecycle_record_stays_well_formed_witness :
  let state := webContainer (store (world (play relaunch fresh))) in
  0 <= installProgress state <= 100
  /\ (status state = st_error -> is_Some (error state))
  /\ (status state = st_ready ->
      is_Some (previewPort state) /\ is_Some (previewUrl state)).
Proof.
  apply (lifecycle_record_stays_well_formed relaunch fresh).
  split; [|constructor]. unfold consistent. cbn.
  repeat split; try lia; discriminate.
Defined.

(* ===================================================================== *)
(** * What a launch leaves behind *)
(* ===================================================================== *)

Import LaunchFacts.

Section LoneLaunch.

Variable host : Host.

Lemma wired_caught e w : wiredIfStarted host (fst (run host (caught e w))).
Proof. intros H. discriminate H. Qed.

Lemma wired_runDevServer i devCommand port w :
  booted host i w -> installProcess (globals w) = None ->
  wiredIfStarted host
    (fst (run host (runDevServer i devCommand port caught finish w))).
Proof.
  intros (Hb & Hi & Hl & Hin) Hinst.
  unfold runDevServer. rewrite run_await.
  destruct (host (ReqSpawn _ _ _ (Some _))) as [p|e]; [|apply wired_caught].
  cbv zeta.
  cbn [listenersBound globals add_exitWatcher add_outputPipe record
       set_devTerminationCause set_devProcess withGlobals].
  rewrite Hl. intros _. exists i, p.
  cbn. repeat apply conj; try assumption; try reflexivity;
    apply in_or_app; right; left; reflexivity.
Qed.

Lemma wired_afterInstall env repository i devCommand usedFallback code w :
  booted host i w -> installProcess (globals w) = None ->
  installTerminationCause (globals w) = None ->
  wiredIfStarted host
    (fst (run host (afterInstall env repository i devCommand usedFallback
                                 code w))).
Proof.
  intros Hb Hinst Hc. unfold afterInstall. rewrite Hc.
  rewrite bool_decide_eq_false_2 by discriminate.
  destruct (negb _); [apply wired_caught|].
  apply wired_runDevServer; [|exact Hinst]. exact Hb.
Qed.

Lemma wired_runInstall i pm kont w :
  (forall code w',
      booted host i w' -> installProcess (globals w') = None ->
      installTerminationCause (globals w') = None ->
      wiredIfStarted host (fst (run host (kont code w')))) ->
  booted host i w ->
  wiredIfStarted host (fst (run host (runInstall i pm caught kont w))).
Proof.
  intros Hk Hb. unfold runInstall. rewrite run_await.
  destruct (host (ReqSpawn i (Workspace.pmName pm) ["install"] None))
    as [process|e]; [|apply wired_caught].
  rewrite run_await.
  destruct (host (ReqExit process)) as [exitCode|e]; [|apply wired_caught].
  cbv zeta.
  destruct (installTerminationCause _) as [[]|] eqn:Hc;
    [discriminate Hc|discriminate Hc|].
  apply Hk; [exact Hb|reflexivity|reflexivity].
Qed.

Lemma wired_afterMount env repository i files pm hasPkg usedFallback w :
  booted host i w ->
  wiredIfStarted host
    (fst (run host (afterMount env repository i files pm hasPkg
                               usedFallback w))).
Proof.
  intros Hb. unfold afterMount. cbv zeta.
  destruct (negb hasPkg); [apply wired_caught|].
  destruct (Workspace.inferDevCommand _ _ _) as [devCommand|];
    [|apply wired_caught].
  apply wired_runInstall; [|exact Hb].
  intros code w' Hb' Hinst Hc. now apply wired_afterInstall.
Qed.

Lemma wired_mountAndRun env repository i files pm hasPkg usedFallback w :
  booted host i w ->
  wiredIfStarted host
    (fst (run host (mountAndRun env repository (Some i) files pm hasPkg
                                usedFallback w))).
Proof.
  intros Hb. unfold mountAndRun. rewrite run_await.
  destruct (host (ReqMount i files)) as [[]|e];
    [now apply wired_afterMount|apply wired_caught].
Qed.

Lemma wired_fallBackToTemplate env repository i template w :
  booted host i w ->
  wiredIfStarted host
    (fst (run host (fallBackToTemplate env repository (Some i) template w))).
Proof.
  intros Hb. unfold fallBackToTemplate.
  destruct template; [|apply wired_caught].
  apply wired_mountAndRun. exact Hb.
Qed.

Lemma wired_bootWebContainer env kont w :
  webcontainerInstance (globals w) = None ->
  (forall i w', booted host i w' ->
                wiredIfStarted host (fst (run host (kont (Some i) w')))) ->
  wiredIfStarted host (fst (run host (bootWebContainer env caught kont w))).
Proof.
  intros Hnone Hk. unfold bootWebContainer. rewrite Hnone.
  rewrite run_await. destruct (host ReqImport) as [[]|e]; [|apply wired_caught].
  destruct (negb _); [apply wired_caught|].
  rewrite run_await. destruct (host ReqBoot) as [i|e] eqn:Hb;
    [|apply wired_caught].
  rewrite run_await.
  cbn [webcontainerInstance globals set_listenersBound
       set_webcontainerInstance withGlobals].
  apply Hk. unfold booted, bindInstanceEvents.
  cbn [listenersBound globals set_listenersBound set_webcontainerInstance
       withGlobals].
  cbn. repeat apply conj; try reflexivity; [exact Hb|].
  apply in_or_app. right. left. reflexivity.
Qed.

Lemma wired_prepareFreshInstance kont w :
  (forall w', webcontainerInstance (globals w') = None ->
              wiredIfStarted host (fst (run host (kont w')))) ->
  wiredIfStarted host (fst (run host (prepareFreshInstance kont w))).
Proof.
  intros Hk. unfold prepareFreshInstance, terminateDevServer, teardownInstance.
  destruct w as [[mp inst ip dp lb itc dtc] st pipes watchers ls j].
  cbn [globals installProcess devProcess webcontainerInstance].
  destruct ip as [pi|], dp as [pd|], inst as [i|];
    repeat (rewrite run_await;
            cbn [globals installProcess devProcess webcontainerInstance
                 set_installProcess set_devProcess withGlobals record
                 set_installTerminationCause set_devTerminationCause]);
    apply Hk; reflexivity.
Qed.

Lemma wired_launchWorkspace env repository w :
  hasWindow env = true ->
  wiredIfStarted host (finalWorld env host repository w).
Proof.
  intros Hw. unfold finalWorld, launchWorkspace, ensureClientEnvironment.
  rewrite Hw.
  apply wired_prepareFreshInstance. intros w1 Hnone.
  apply wired_bootWebContainer; [exact Hnone|]. intros i w2 Hb.
  rewrite run_await.
  assert (Hfold : forall messages w,
             booted host i w ->
             booted host i (fold_left (fun w message => onProgress message w)
                                      messages w)).
  { intros messages. induction messages as [|m ms IH]; intros w' H; [exact H|].
    cbn [fold_left]. apply IH. exact H. }
  destruct (host (ReqSync _ _ _)) as [report|e]; cbv zeta.
  - destruct (result report).
    + apply wired_mountAndRun. apply (Hfold (progress report)). exact Hb.
    + apply wired_fallBackToTemplate. apply (Hfold (progress report)). exact Hb.
  - cbn [result progress fold_left]. apply wired_fallBackToTemplate. exact Hb.
Qed.

End LoneLaunch.

(** What a launch that gets as far as starting the dev server leaves
    behind, when it runs on its own from any state in a browser: the
    instance the host booted is the current one with its listeners bound,
    the dev process is the current one with its exit watcher and its output
    pipe, and no install is left.  So the [server-ready] event of that
    instance is received: it sets the status to [ready] with the port and
    URL of the event and the progress to 100. *)
Theorem launch_wires_dev_server
        (host : Host) (env : Env) (repository : RepositorySummary) (w : World) :
  hasWindow env = true ->
  let final := finalWorld env host repository w in
  status (webContainer (store final)) = st_starting_dev_server ->
  serverWired host final
  /\ forall i port url,
       host ReqBoot = Fulfilled i ->
       let ready :=
         world (react (EmitServerReady i port url)
                      {| world := final; calls := [] |}) in
       status (webContainer (store ready)) = st_ready
       /\ previewPort (webContainer (store ready)) = Some port
       /\ previewUrl (webContainer (store ready)) = Some url
       /\ installProgress (webContainer (store ready)) = 100
       /\ globals ready = globals final.
Proof.
  intros Hw final Hs.
  pose proof (wired_launchWorkspace host env repository w Hw Hs) as Hwired.
  split; [exact Hwired|].
  intros i port url Hb.
  destruct Hwired as (i' & p & Hb' & _ & _ & Hin & _).
  assert (i' = i) by congruence. subst i'.
  cbv zeta. cbn [react world].
  assert (He : existsb (Nat.eqb i) (listeners final) = true).
  { apply existsb_exists. exists i. split; [exact Hin|apply Nat.eqb_refl]. }
  rewrite He. repeat apply conj; reflexivity.
Qed.

Lemma launch_wires_dev_server_witness :
  let host := obliging 1%nat (treeOf nextManifestText) 1%nat 0 in
  let final := finalWorld browser host repository initialWorld in
  status (webContainer (store final)) = st_starting_dev_server
  /\ serverWired host final.
Proof.
  cbv zeta.
  assert (Hs : status (webContainer (store
                 (finalWorld browser
                    (obliging 1%nat (treeOf nextManifestText) 1%nat 0)
                    repository initialWorld))) = st_starting_dev_server)
    by (vm_compute; reflexivity).
  split; [exact Hs|].
  exact (proj1 (launch_wires_dev_server
                  (obliging 1%nat (treeOf nextManifestText) 1%nat 0)
                  browser repository initialWorld eq_refl Hs)).
Defined.

(* ===================================================================== *)
(** * Extraction of a repository archive *)
(* ===================================================================== *)

Import Sync.

Lemma entryOf_setEntry (tree : FileSystemTree) (key k : string) (node : FsNode) :
  entryOf (setEntry tree key node) k
  = if String.eqb key k then Some node else entryOf tree k.
Proof.
  induction tree as [|[k' n] tree IH]; cbn [setEntry entryOf].
  - destruct (String.eqb key k); reflexivity.
  - destruct (String.eqb k' key) eqn:E; cbn [entryOf].
    + apply String.eqb_eq in E. subst k'.
      destruct (String.eqb key k); reflexivity.
    + destruct (String.eqb k' k) eqn:E'; [|exact IH].
      apply String.eqb_eq in E'. subst k'.
      rewrite String.eqb_sym, E. reflexivity.
Qed.

Lemma setParts_descend tree part next rest content :
  setParts tree (part :: next :: rest) content
  = setEntry tree part
      (DirectoryNode
         (setParts match entryOf tree part with
                   | Some (DirectoryNode children) => children
                   | _ => []
                   end (next :: rest) content)).
Proof. reflexivity. Qed.

Lemma readSegments_descend tree segment next rest :
  readSegments tree (segment :: next :: rest)
  = match entryOf tree segment with
    | Some (DirectoryNode children) => readSegments children (next :: rest)
    | _ => None
    end.
Proof.
  cbn [readSegments]. destruct (entryOf tree segment) as [[]|]; reflexivity.
Qed.

Lemma readSegments_last tree segment :
  readSegments tree [segment]
  = match entryOf tree segment with
    | Some (FileNode contents) => Some contents
    | _ => None
    end.
Proof.
  cbn [readSegments]. destruct (entryOf tree segment) as [[]|]; reflexivity.
Qed.

Lemma readSegments_setParts (parts : list string) :
  forall (tree : FileSystemTree) (content : string),
    parts <> [] ->
    readSegments (setParts tree parts content) parts = Some content.
Proof.
  induction parts as [|part rest IH]; intros tree content Hne; [contradiction|].
  destruct rest as [|next rest].
  - cbn [setParts]. rewrite readSegments_last, entryOf_setEntry.
    now rewrite String.eqb_refl.
  - rewrite setParts_descend, readSegments_descend, entryOf_setEntry.
    rewrite String.eqb_refl. now apply IH.
Qed.

Lemma readSegments_setParts_other (parts : list string) :
  forall (tree : FileSystemTree) (content : string) (others : list string),
    leads parts others = false -> leads others parts = false ->
    readSegments (setParts tree parts content) others
    = readSegments tree others.
Proof.
  induction parts as [|part rest IH]; intros tree content others H1 H2;
    [discriminate H1|].
  destruct others as [|other others']; [discriminate H2|].
  cbn [leads] in H1, H2.
  destruct (String.eqb part other) eqn:E.
  - apply String.eqb_eq in E. subst other.
    rewrite String.eqb_refl in H2. cbn [andb] in H1, H2.
    destruct rest as [|next rest]; [destruct others'; discriminate|].
    destruct others' as [|o others']; [discriminate H2|].
    rewrite setParts_descend, !readSegments_descend, entryOf_setEntry.
    rewrite String.eqb_refl, IH by assumption.
    destruct (entryOf tree part) as [[c|t|children]|]; try reflexivity;
      rewrite readSegments_descend; reflexivity.
  - assert (Hsame : forall node,
               entryOf (setEntry tree part node) other = entryOf tree other).
    { intros node. now rewrite entryOf_setEntry, E. }
    destruct rest as [|next rest]; [cbn [setParts]|rewrite setParts_descend];
      (destruct others' as [|o others'];
       [rewrite !readSegments_last|rewrite !readSegments_descend]);
      now rewrite Hsame.
Qed.

Lemma partsOf_not_nil (path : string) : partsOf path <> [].
Proof.
  unfold partsOf. generalize "". induction path as [|c r IH]; intros cur;
    cbn [split_slash_from]; [discriminate|].
  destruct (Ascii.eqb c "/"); [discriminate|apply IH].
Qed.

Lemma filter_all {A} (f : A -> bool) (l : list A) :
  forallb f l = true -> List.filter f l = l.
Proof.
  induction l as [|x l IH]; [reflexivity|]. cbn. intros H.
  apply andb_prop in H. destruct H as [Hx Hl]. now rewrite Hx, IH.
Qed.

(** [setFileInTree] and [readFileFromTree].  A file written at a path
    whose parts are all non-empty is read back at that path, with the
    written contents, whatever the tree held before (a file or a link in
    the way becomes a directory).  Reading any other path gives what it
    gave before, unless one of the two paths leads to the other.  A path
    with an empty part is written under a directory with the empty name,
    where [readFileFromTree], which skips empty segments, does not look:
    after writing [a//b], reading [a//b] gives what [a/b] held before. *)
Theorem setFileInTree_then_readFileFromTree
        (tree : FileSystemTree) (path content : string) :
  (forallb (fun part => (0 <? String.length part)%nat) (partsOf path) = true ->
   readFileFromTree (setFileInTree tree path content) path = Some content)
  /\ (forall other,
        leads (partsOf path) (segmentsOf other) = false ->
        leads (segmentsOf other) (partsOf path) = false ->
        readFileFromTree (setFileInTree tree path content) other
        = readFileFromTree tree other)
  /\ readFileFromTree (setFileInTree tree "a//b" content) "a//b"
     = readFileFromTree tree "a/b".
Proof.
  repeat apply conj.
  - intros H. unfold readFileFromTree, setFileInTree, segmentsOf.
    fold (partsOf path). rewrite (filter_all _ _ H).
    apply readSegments_setParts, partsOf_not_nil.
  - intros other H1 H2. unfold readFileFromTree, setFileInTree.
    now apply readSegments_setParts_other.
  - unfold readFileFromTree, setFileInTree.
    change (partsOf "a//b") with ["a"; ""; "b"].
    change (segmentsOf "a//b") with ["a"; "b"].
    change (segmentsOf "a/b") with ["a"; "b"].
    rewrite !setParts_descend, !readSegments_descend, entryOf_setEntry.
    rewrite String.eqb_refl. cbn [setParts].
    rewrite readSegments_last, !entryOf_setEntry.
    change (String.eqb "" "b") with false. cbn iota.
    destruct (entryOf tree "a") as [[c|t|children]|]; reflexivity.
Qed.

Lemma partsOf_segment (name : string) :
  isSegment name = true -> partsOf name = [name].
Proof.
  unfold isSegment, partsOf. intros H. apply andb_prop in H.
  destruct H as [_ H]. now rewrite (split_slash_plain _ _ H).
Qed.

Lemma rootFile_setFileInTree (tree : FileSystemTree) (name path content : string) :
  isSegment name = true ->
  (firstPart path = name -> path = name) ->
  rootFile (setFileInTree tree path content) name
  = String.eqb name path || rootFile tree name.
Proof.
  intros Hseg Hroot. unfold rootFile, setFileInTree, firstPart in *.
  assert (Hname : path = name -> partsOf path = [name]).
  { intros ->. now apply partsOf_segment. }
  destruct (partsOf path) as [|part rest] eqn:Hparts;
    [now apply partsOf_not_nil in Hparts|].
  cbn [hd] in Hroot.
  destruct (String.eqb name path) eqn:E.
  - apply String.eqb_eq in E. subst path.
    specialize (Hname eq_refl). inversion Hname; subst.
    cbn [setParts]. now rewrite entryOf_setEntry, String.eqb_refl.
  - assert (Hpart : String.eqb part name = false).
    { apply String.eqb_neq. intros ->. apply String.eqb_neq in E.
      apply E. symmetry. now apply Hroot. }
    cbn [orb]. destruct rest as [|next rest];
      [cbn [setParts]|rewrite setParts_descend];
      now rewrite entryOf_setEntry, Hpart.
Qed.

Lemma rootFile_writes (name : string) (writes : list (string * string)) :
  isSegment name = true ->
  forall tree,
    atRootOnly name (map fst writes) ->
    rootFile (fold_left (fun t w => setFileInTree t (fst w) (snd w)) writes tree)
             name
    = rootFile tree name || existsb (String.eqb name) (map fst writes).
Proof.
  intros Hseg. induction writes as [|[path content] writes IH];
    intros tree Hroot; cbn [fold_left map existsb fst snd].
  - now rewrite orb_false_r.
  - unfold atRootOnly in Hroot. cbn [map fst] in Hroot.
    apply Forall_cons_iff in Hroot. destruct Hroot as [Hpath Hrest].
    rewrite IH by exact Hrest.
    rewrite rootFile_setFileInTree by assumption.
    destruct (String.eqb name path), (rootFile tree name); reflexivity.
Qed.

Lemma lockOf_manifest (path : string) :
  String.eqb path "package.json" = true -> lockOf path = None.
Proof. intros H. apply String.eqb_eq in H. subst path. reflexivity. Qed.

Lemma omap_lockOf_cons (path : string) (rest : list string) :
  omap lockOf (path :: rest)
  = match lockOf path with
    | Some pm => pm :: omap lockOf rest
    | None => omap lockOf rest
    end.
Proof. reflexivity. Qed.

Lemma default_last_cons {A} (d y : A) (l : list A) :
  default d (last (y :: l)) = default y (last l).
Proof. rewrite last_cons. destruct (last l); reflexivity. Qed.

Lemma manager_lockOf (path : string) (current : PackageManager) :
  (if String.eqb path "package.json" then current
   else if String.eqb path "pnpm-lock.yaml" || String.eqb path "pnpm-lock.yml"
        then pnpm
   else if String.eqb path "yarn.lock" then yarn
   else current)
  = default current (lockOf path).
Proof.
  destruct (String.eqb path "package.json") eqn:Hm.
  - now rewrite (lockOf_manifest _ Hm).
  - unfold lockOf. destruct (_ || _); [reflexivity|].
    destruct (String.eqb path "yarn.lock"); reflexivity.
Qed.

Lemma extract_fold (rootDir : option string) (zipFiles : list ZipEntry) :
  forall acc,
    let r := fold_left (extractEntry rootDir) zipFiles acc in
    let kept := keptPaths rootDir zipFiles in
    ex_hasPackageJson r
    = existsb (String.eqb "package.json") kept || ex_hasPackageJson acc
    /\ ex_packageManager r
       = default (ex_packageManager acc) (last (omap lockOf kept))
    /\ ex_files r
       = fold_left (fun t w => setFileInTree t (fst w) (snd w))
           (map (fun e => (cleanPath rootDir (zip_path e), zip_contents e))
                (List.filter (processed rootDir) zipFiles))
           (ex_files acc).
Proof.
  cbv zeta. unfold keptPaths.
  induction zipFiles as [|e zipFiles IH]; intros acc.
  - cbn. repeat split.
  - cbn [fold_left List.filter]. unfold extractEntry at 2 4 6.
    destruct (processed rootDir e) eqn:Hp; [|apply IH].
    destruct (IH {| ex_files := setFileInTree (ex_files acc)
                                  (cleanPath rootDir (zip_path e))
                                  (zip_contents e);
                    ex_packageManager :=
                      if String.eqb (cleanPath rootDir (zip_path e)) "package.json"
                      then ex_packageManager acc
                      else if String.eqb (cleanPath rootDir (zip_path e)) "pnpm-lock.yaml"
                              || String.eqb (cleanPath rootDir (zip_path e)) "pnpm-lock.yml"
                      then pnpm
                      else if String.eqb (cleanPath rootDir (zip_path e)) "yarn.lock"
                      then yarn
                      else ex_packageManager acc;
                    ex_hasPackageJson :=
                      String.eqb (cleanPath rootDir (zip_path e)) "package.json"
                      || ex_hasPackageJson acc |}) as (H1 & H2 & H3).
    rewrite H1, H2, H3. clear H1 H2 H3 IH.
    cbn [map existsb omap fst snd ex_files ex_packageManager ex_hasPackageJson].
    set (path := cleanPath rootDir (zip_path e)).
    set (rest := map (fun e0 => cleanPath rootDir (zip_path e0))
                     (List.filter (processed rootDir) zipFiles)).
    repeat apply conj.
    + rewrite (String.eqb_sym "package.json" path).
      destruct (existsb _ rest), (String.eqb path "package.json"),
        (ex_hasPackageJson acc); reflexivity.
    + rewrite omap_lockOf_cons.
      fold path. rewrite (manager_lockOf path (ex_packageManager acc)).
      destruct (lockOf path) as [pm|]; [|reflexivity].
      cbn [default]. now rewrite default_last_cons.
    + reflexivity.
Qed.

(** What the extraction reports.  [hasPackageJson] says whether
    [package.json] is among the written paths, and [packageManager] is the
    manager of the last lock file written, in the order of the archive
    ([npm] when there is none).  When no written path runs through one of
    these four names as a directory, the manifest is then found in the
    extracted tree exactly when [hasPackageJson] is set, while
    [detectPackageManager] on the extracted tree prefers a pnpm lock to a
    yarn lock in whatever order they came: an archive with
    [pnpm-lock.yaml] before [yarn.lock] is reported as [yarn] and detected
    as [pnpm]. *)
Theorem extract_reports_last_lockfile (zipFiles : list ZipEntry) :
  let kept := keptPaths (findRootDirectory zipFiles) zipFiles in
  let r := extract zipFiles in
  ex_hasPackageJson r = existsb (String.eqb "package.json") kept
  /\ ex_packageManager r = default npm (last (omap lockOf kept))
  /\ (atRootOnly "package.json" kept ->
      hasFile (ex_files r) "package.json" = ex_hasPackageJson r)
  /\ (atRootOnly "pnpm-lock.yaml" kept -> atRootOnly "pnpm-lock.yml" kept ->
      atRootOnly "yarn.lock" kept ->
      detectPackageManager (ex_files r)
      = (if existsb (String.eqb "pnpm-lock.yaml") kept
            || existsb (String.eqb "pnpm-lock.yml") kept then pnpm
         else if existsb (String.eqb "yarn.lock") kept then yarn
         else npm))
  /\ (forall lockA lockB,
        let both :=
          extract [ {| zip_path := "pnpm-lock.yaml"; zip_dir := false;
                       zip_contents := lockA |};
                    {| zip_path := "yarn.lock"; zip_dir := false;
                       zip_contents := lockB |} ] in
        ex_packageManager both = yarn
        /\ detectPackageManager (ex_files both) = pnpm).
Proof.
  cbv zeta. unfold extract.
  destruct (extract_fold (findRootDirectory zipFiles) zipFiles
              {| ex_files := []; ex_packageManager := npm;
                 ex_hasPackageJson := false |}) as (H1 & H2 & H3).
  cbn [ex_files ex_packageManager ex_hasPackageJson] in H1, H2, H3.
  rewrite orb_false_r in H1.
  assert (Hkept : keptPaths (findRootDirectory zipFiles) zipFiles
                  = map fst
                      (map (fun e => (cleanPath (findRootDirectory zipFiles)
                                                (zip_path e), zip_contents e))
                           (List.filter (processed (findRootDirectory zipFiles))
                                        zipFiles))).
  { unfold keptPaths. rewrite map_map. reflexivity. }
  repeat apply conj.
  - exact H1.
  - exact H2.
  - intros Hroot. rewrite hasFile_root by reflexivity.
    rewrite H3, H1. rewrite Hkept in Hroot |- *.
    now rewrite rootFile_writes by (reflexivity || assumption).
  - intros Ha Hb Hc. rewrite detectPackageManager_root.
    rewrite H3. rewrite Hkept in Ha, Hb, Hc |- *.
    now rewrite !rootFile_writes by (reflexivity || assumption).
  - intros lockA lockB. split; reflexivity.
Qed.

Lemma prefix_app (a b : string) : String.prefix a (a ++ b) = true.
Proof.
  induction a as [|c a IH]; [change ("" ++ b) with b; now destruct b|].
  rewrite append_cons. cbn [String.prefix].
  destruct (ascii_dec c c); [exact IH|contradiction].
Qed.

Lemma includes_slash (root rest : string) :
  JS.includes (root ++ "/" ++ rest) "/" = true.
Proof.
  induction root as [|c r IH].
  - change (JS.includes (String "/" rest) "/" = true). cbn [JS.includes].
    change (String "/" rest) with ("/" ++ rest). now rewrite prefix_app.
  - rewrite append_cons. cbn [JS.includes]. rewrite IH. apply orb_true_r.
Qed.

Lemma firstPart_rooted (root rest : string) :
  isSegment root = true -> firstPart (root ++ "/" ++ rest) = root.
Proof.
  intros H. unfold firstPart, partsOf.
  change ("/" ++ rest) with (String "/" rest). rewrite split_slash_app.
  fold (partsOf root). now rewrite (partsOf_segment _ H).
Qed.

Lemma bump_single (root : string) (n : nat) :
  bump [(root, n)] root = [(root, S n)].
Proof. cbn. now rewrite String.eqb_refl. Qed.

Lemma dirCounts_rooted (root : string) (zipFiles : list ZipEntry) :
  isSegment root = true ->
  Forall (fun e => exists rest, zip_path e = root ++ "/" ++ rest) zipFiles ->
  forall n,
    fold_left (fun counts e =>
                 if JS.includes (zip_path e) "/"
                 then bump counts (firstPart (zip_path e)) else counts)
              zipFiles [(root, n)]
    = [(root, (n + length zipFiles)%nat)].
Proof.
  intros Hseg Hall. induction Hall as [|e zipFiles [rest He] _ IH]; intros n.
  - cbn. now rewrite Nat.add_0_r.
  - cbn [fold_left length]. rewrite He, includes_slash.
    rewrite firstPart_rooted by exact Hseg.
    rewrite bump_single, IH. f_equal. f_equal. lia.
Qed.

Lemma drop_app (a b : string) : drop (String.length a) (a ++ b) = b.
Proof. induction a as [|c a IH]; [reflexivity|exact IH]. Qed.

Lemma removeFirst_prefix (a b : string) : removeFirst (a ++ b) a = b.
Proof.
  destruct (a ++ b) as [|c r] eqn:E; cbn [removeFirst];
    rewrite <- E, prefix_app; apply drop_app.
Qed.

Lemma cleanPath_rooted (root rest : string) :
  isSegment root = true -> cleanPath (Some root) (root ++ "/" ++ rest) = rest.
Proof.
  intros H. unfold cleanPath.
  assert (Ht : JS.truthy (Some root) = true).
  { destruct root; [discriminate H|reflexivity]. }
  rewrite Ht, <- append_assoc. apply removeFirst_prefix.
Qed.

(** The layout of a GitHub archive is unwrapped.  When every path of the
    archive lies under one root directory, that directory is found as the
    root and each path is written without it; directories, [__MACOSX]
    entries and the root itself are skipped, and so is a file that bears
    the name of the root inside the root. *)
Theorem archive_root_is_stripped (root : string) (zipFiles : list ZipEntry) :
  isSegment root = true ->
  zipFiles <> [] ->
  Forall (fun e => exists rest, zip_path e = root ++ "/" ++ rest) zipFiles ->
  findRootDirectory zipFiles = Some root
  /\ (forall rest, cleanPath (Some root) (root ++ "/" ++ rest) = rest)
  /\ (forall rest dir content,
        processed (Some root)
                  {| zip_path := root ++ "/" ++ rest; zip_dir := dir;
                     zip_contents := content |}
        = negb dir
          && negb (JS.includes (root ++ "/" ++ rest) "__MACOSX/")
          && negb (String.eqb rest "") && negb (String.eqb rest root))
  /\ keptPaths (findRootDirectory zipFiles) zipFiles
     = map (fun e => cleanPath (Some root) (zip_path e))
           (List.filter (processed (Some root)) zipFiles).
Proof.
  intros Hseg Hne Hall.
  assert (Hroot : findRootDirectory zipFiles = Some root).
  { unfold findRootDirectory, dirCounts.
    destruct zipFiles as [|e zipFiles]; [contradiction|].
    apply Forall_cons_iff in Hall. destruct Hall as [[rest He] Hall].
    cbn [fold_left]. rewrite He, includes_slash.
    rewrite firstPart_rooted by exact Hseg. cbn [bump].
    rewrite (dirCounts_rooted root zipFiles Hseg Hall). reflexivity. }
  repeat apply conj.
  - exact Hroot.
  - intros rest. now apply cleanPath_rooted.
  - intros rest dir content. unfold processed. cbn [zip_path zip_dir].
    rewrite cleanPath_rooted by exact Hseg.
    rewrite !negb_orb, andb_assoc. f_equal; [f_equal|].
    + destruct rest; reflexivity.
    + destruct (String.eqb rest root) eqn:E.
      * apply String.eqb_eq in E. subst rest.
        now rewrite bool_decide_eq_true_2.
      * apply String.eqb_neq in E.
        rewrite bool_decide_eq_false_2; [reflexivity|]. congruence.
  - now rewrite Hroot.
Qed.

Lemma archive_root_is_stripped_witness :
  let archive :=
    [ {| zip_path := "repo-main/"; zip_dir := true; zip_contents := "" |};
      {| zip_path := "repo-main/package.json"; zip_dir := false;
         zip_contents := bareManifestText |};
      {| zip_path := "repo-main/src/index.js"; zip_dir := false;
         zip_contents := "export {}" |} ] in
  findRootDirectory archive = Some "repo-main"
  /\ keptPaths (findRootDirectory archive) archive
     = ["package.json"; "src/index.js"]
  /\ readFileFromTree (ex_files (extract archive)) "src/index.js"
     = Some "export {}".
Proof.
  cbv zeta.
  pose proof (archive_root_is_stripped "repo-main"
    [ {| zip_path := "repo-main/"; zip_dir := true; zip_contents := "" |};
      {| zip_path := "repo-main/package.json"; zip_dir := false;
         zip_contents := bareManifestText |};
      {| zip_path := "repo-main/src/index.js"; zip_dir := false;
         zip_contents := "export {}" |} ]) as H.
  destruct H as (H1 & _ & _ & H4).
  - reflexivity.
  - discriminate.
  - repeat constructor; cbn [zip_path];
      [exists ""|exists "package.json"|exists "src/index.js"]; reflexivity.
  - split; [exact H1|]. split; [rewrite H4|]; vm_compute; reflexivity.
Defined.
